(** * phars_api: the in-memory time-series query engine of [api.py]

    A shallow embedding of [src/api.py]: the column normaliser, the loader
    [load_df], the request filter [apply_filters] and the two aggregating
    endpoints [summary] and [cases], followed by the properties the
    specification states about them.

    Conventions of the embedding.
    - A pandas [DataFrame] is a list of column labels and a list of rows;
      a row is the list of its cells, in column order.
    - A cell is missing ([NA]: pandas' NaN / NaT), a string, a number or a
      timestamp.  Numbers are integers: the numeric columns of the data set
      are counts, for which Python's [int(x)] is the identity.
    - Python exceptions are values of [exn]; a function that can raise
      returns in the error monad [M].
    - What the code takes from Python and pandas without fixing it is a
      parameter of the development (Section [Engine]): the two uses of
      [pd.to_datetime(..., errors="coerce")], Python's [int] on a string, and
      the order in which pandas' default sort leaves rows of equal date.
    - A column is selected by its label.  When a label occurs more than once
      pandas answers [df[c]] with a frame, not a Series, and what the code
      does next with it raises; the selections below raise in that case. *)

From Stdlib Require Import ZArith Ascii String List Sorting.Permutation Sorting.Sorted.
From stdpp Require Import gmap strings list sorting.

Local Open Scope string_scope.
Local Open Scope Z_scope.
Local Open Scope list_scope.

(* ===================================================================== *)
(** ** Python strings *)
(* ===================================================================== *)

Module PyStr.

(** [c.isspace()] on the ASCII range: TAB..CR, FS..US and the blank. *)
Definition is_space (c : ascii) : bool :=
  let n := N_of_ascii c in
  (((9 <=? n) && (n <=? 13)) || ((28 <=? n) && (n <=? 32)))%N.

(** [c.lower()] on the ASCII range. *)
Definition lower_char (c : ascii) : ascii :=
  let n := N_of_ascii c in
  if ((65 <=? n) && (n <=? 90))%N then ascii_of_N (n + 32) else c.

Fixpoint str_map (f : ascii -> ascii) (s : string) : string :=
  match s with
  | EmptyString => EmptyString
  | String c s' => String (f c) (str_map f s')
  end.

(** [s.lower()] *)
Definition lower (s : string) : string := str_map lower_char s.

(** [s.replace(old, new)] for one-character [old] and [new]. *)
Definition replace_char (old new : ascii) (c : ascii) : ascii :=
  if Ascii.eqb c old then new else c.

Definition replace (old new : ascii) (s : string) : string :=
  str_map (replace_char old new) s.

(** [s.lstrip()] *)
Fixpoint lstrip (s : string) : string :=
  match s with
  | EmptyString => EmptyString
  | String c s' => if is_space c then lstrip s' else s
  end.

Definition is_empty (s : string) : bool :=
  match s with EmptyString => true | _ => false end.

(** [s.rstrip()] *)
Fixpoint rstrip (s : string) : string :=
  match s with
  | EmptyString => EmptyString
  | String c s' =>
      let r := rstrip s' in
      if is_space c && is_empty r then EmptyString else String c r
  end.

(** [s.strip()] *)
Definition strip (s : string) : string := rstrip (lstrip s).

(** The first (resp. last) character, if any, is not white space. *)
Definition head_ok (s : string) : bool :=
  match s with
  | EmptyString => true
  | String c _ => negb (is_space c)
  end.

Fixpoint last_ok (s : string) : bool :=
  match s with
  | EmptyString => true
  | String c EmptyString => negb (is_space c)
  | String _ s' => last_ok s'
  end.

(** *** [int(s)] on an ASCII string

    Python's [int] on a string is a parameter of the development.  This is
    what it does on a string of ASCII characters, and the instance the runs
    below use: it drops the white space of C's [isspace] (TAB..CR and the
    blank; not FS..US, which [strip] drops) at both ends, reads an optional
    sign and then decimal digits, where single underscores may stand between
    digits, and refuses more than 4300 digits.  Anything else is a
    [ValueError], here [None].  (On a string with a character outside ASCII
    Python also reads the decimal digits of other scripts.) *)

Definition is_cspace (c : ascii) : bool :=
  let n := N_of_ascii c in
  (((9 <=? n) && (n <=? 13)) || (n =? 32))%N.

Fixpoint clstrip (s : string) : string :=
  match s with
  | EmptyString => EmptyString
  | String c s' => if is_cspace c then clstrip s' else s
  end.

Fixpoint crstrip (s : string) : string :=
  match s with
  | EmptyString => EmptyString
  | String c s' =>
      let r := crstrip s' in
      if is_cspace c && is_empty r then EmptyString else String c r
  end.

Definition digit_val (c : ascii) : option Z :=
  let n := N_of_ascii c in
  if ((48 <=? n) && (n <=? 57))%N then Some (Z.of_N (n - 48)) else None.

(** The number of decimal digits in a string. *)
Fixpoint count_digits (s : string) : nat :=
  match s with
  | EmptyString => 0
  | String c s' =>
      match digit_val c with
      | Some _ => S (count_digits s')
      | None => count_digits s'
      end
  end.

Fixpoint int_digits (s : string) (acc : Z) (after_digit : bool) : option Z :=
  match s with
  | EmptyString => if after_digit then Some acc else None
  | String c s' =>
      match digit_val c with
      | Some d => int_digits s' (10 * acc + d) true
      | None =>
          if Ascii.eqb c "_" && after_digit then int_digits s' acc false else None
      end
  end.

Definition int_of_str (s : string) : option Z :=
  if (4300 <? count_digits s)%nat then None
  else
    match crstrip (clstrip s) with
    | String "-" s' => Z.opp <$> int_digits s' 0 false
    | String "+" s' => int_digits s' 0 false
    | s' => int_digits s' 0 false
    end.

End PyStr.

(* ===================================================================== *)
(** ** Timestamps and calendar dates *)
(* ===================================================================== *)

(** A (timezone-naive) [pd.Timestamp]: nanoseconds since 1970-01-01. *)
Definition Timestamp := Z.

Module Calendar.

Definition ns_per_day : Z := 86400000000000.

(** [t.date()], as the number of days since 1970-01-01. *)
Definition date (t : Timestamp) : Z := t / ns_per_day.

(** Year, month and day of a day number (proleptic Gregorian calendar). *)
Definition civil (days : Z) : Z * Z * Z :=
  let z := days + 719468 in
  let era := z / 146097 in
  let doe := z - era * 146097 in
  let yoe := (doe - doe / 1460 + doe / 36524 - doe / 146096) / 365 in
  let doy := doe - (365 * yoe + yoe / 4 - yoe / 100) in
  let mp := (5 * doy + 2) / 153 in
  let d := doy - (153 * mp + 2) / 5 + 1 in
  let m := if mp <? 10 then mp + 3 else mp - 9 in
  let y := yoe + era * 400 in
  (if m <=? 2 then y + 1 else y, m, d).

Definition digit (n : Z) : ascii := ascii_of_N (48 + Z.to_N (n mod 10)).

Definition digits2 (n : Z) : string :=
  String (digit (n / 10)) (String (digit n) EmptyString).

Definition digits4 (n : Z) : string :=
  String (digit (n / 1000)) (String (digit (n / 100)) (digits2 n)).

(** [d.isoformat()] and [strftime("%Y-%m-%d")]: [YYYY-MM-DD]. *)
Definition isoformat (days : Z) : string :=
  let '(y, m, d) := civil days in
  (digits4 y ++ "-" ++ digits2 m ++ "-" ++ digits2 d)%string.

End Calendar.

(* ===================================================================== *)
(** ** Cells, frames and exceptions *)
(* ===================================================================== *)

(** A cell of a frame.  [NA] is a missing value (NaN, NaT or None). *)
Inductive value :=
| NA
| Str (s : string)
| Num (n : Z)
| Ts (t : Timestamp).

Global Instance value_eq_dec : EqDecision value.
Proof. solve_decision. Defined.

(** [pd.notna(v)] *)
Definition notna (v : value) : bool :=
  match v with NA => false | _ => true end.

Definition Row := list value.

(** A [pd.DataFrame]: the labels of the columns and the rows.  A row
    shorter than the header is missing its last cells ([read_csv] fills
    them with NaN). *)
Record DataFrame := {
  columns : list string;
  rows : list Row
}.

(** What [pd.to_datetime(s, errors="coerce")] answers for one string: NaT,
    a timezone-naive Timestamp, or a timezone-aware one (the text carried an
    offset). *)
Inductive scalar :=
| NaT
| Naive (t : Timestamp)
| Aware.

(** Python exceptions raised by the code or by pandas below it. *)
Inductive exn :=
| ValueError (msg : string)
| KeyError (key : string)
| TypeError (msg : string)
| AttributeError (msg : string)
| IndexError (msg : string).

(** Computations that return or raise. *)
Inductive M (A : Type) :=
| Ok (a : A)
| Raise (e : exn).
Arguments Ok {A} a.
Arguments Raise {A} e.

Definition bind {A B} (m : M A) (k : A -> M B) : M B :=
  match m with
  | Ok a => k a
  | Raise e => Raise e
  end.

Notation "'let*' x ':=' m 'in' k" := (bind m (fun x => k))
  (at level 10, x name, m at level 100, k at level 200).

(** Sequential traversal with the first exception winning. *)
Fixpoint mapM {A B} (f : A -> M B) (l : list A) : M (list B) :=
  match l with
  | [] => Ok []
  | x :: l' => let* y := f x in let* ys := mapM f l' in Ok (y :: ys)
  end.

(* ===================================================================== *)
(** ** Frame operations *)
(* ===================================================================== *)

(** [c in df.columns] *)
Definition has_column (c : string) (df : DataFrame) : bool :=
  existsb (String.eqb c) (columns df).

(** Position of the first column labelled [c]. *)
Fixpoint index_of (c : string) (labels : list string) : option nat :=
  match labels with
  | [] => None
  | l :: labels' =>
      if String.eqb c l then Some 0%nat else S <$> index_of c labels'
  end.

(** How often a label occurs. *)
Definition occurrences (c : string) (labels : list string) : nat :=
  length (List.filter (String.eqb c) labels).

(** The position of the column [df[c]] when that selection is a Series:
    [KeyError] when no column has the label.  When the label occurs more than
    once the selection is the frame of those columns, and [e] is the exception
    that the operation applied to it raises. *)
Definition label_index (e : exn) (c : string) (df : DataFrame) : M nat :=
  match index_of c (columns df) with
  | None => Raise (KeyError c)
  | Some i => if (1 <? occurrences c (columns df))%nat then Raise e else Ok i
  end.

(** The positions of all columns labelled [c], from position [n] on. *)
Fixpoint positions_from (n : nat) (c : string) (labels : list string) : list nat :=
  match labels with
  | [] => []
  | l :: labels' =>
      if String.eqb c l then n :: positions_from (S n) c labels'
      else positions_from (S n) c labels'
  end.

Definition positions (c : string) (labels : list string) : list nat :=
  positions_from 0 c labels.

Definition get (i : nat) (r : Row) : value := nth i r NA.

Definition set_cell (i : nat) (v : value) (r : Row) : Row :=
  take i (r ++ replicate (i - length r)%nat NA) ++ v :: drop (S i) r.

(** The Series [df[c]] for a label that is present. *)
Definition series (i : nat) (df : DataFrame) : list value :=
  map (get i) (rows df).

(** [df[c] = vals], for a Series [vals] as long as the frame. *)
Definition assign (c : string) (vals : list value) (df : DataFrame) : DataFrame :=
  match index_of c (columns df) with
  | Some i =>
      {| columns := columns df; rows := zip_with (set_cell i) vals (rows df) |}
  | None =>
      {| columns := columns df ++ [c];
         rows := zip_with (set_cell (length (columns df))) vals (rows df) |}
  end.

(** [df[c] = v] for a scalar [v]. *)
Definition assign_scalar (c : string) (v : value) (df : DataFrame) : DataFrame :=
  assign c (replicate (length (rows df)) v) df.

(** [df[mask]] where the mask is [p] applied to the cells of column [i]. *)
Definition boolean_index (i : nat) (p : value -> bool) (df : DataFrame) : DataFrame :=
  {| columns := columns df; rows := List.filter (fun r => p (get i r)) (rows df) |}.

(** [df[p(df[c])]] for a label that occurs once (as [date] does where the
    loader drops rows): selecting the column raises [KeyError] when the label
    is absent. *)
Definition where_ (c : string) (p : value -> bool) (df : DataFrame) : M DataFrame :=
  match index_of c (columns df) with
  | None => Raise (KeyError c)
  | Some i => Ok (boolean_index i p df)
  end.

(** [df.dropna(subset=[c])] *)
Definition dropna (c : string) (df : DataFrame) : M DataFrame :=
  where_ c notna df.

(** [df[p(df[c])]] in a request.  With a repeated label the mask
    [p(df[c])] is a frame, and indexing by it raises [ValueError]. *)
Definition filter_by (c : string) (p : value -> bool) (df : DataFrame) : M DataFrame :=
  let* i := label_index (ValueError "cannot reindex on an axis with duplicate labels") c df in
  Ok (boolean_index i p df).

(** [series == s] for a string [s], cell by cell. *)
Definition eq_str (s : string) (v : value) : bool :=
  match v with Str x => String.eqb x s | _ => false end.

(** [series >= t] and [series <= t] on a datetime column: NaT compares
    false. *)
Definition ge_ts (t : Timestamp) (v : value) : bool :=
  match v with Ts x => t <=? x | _ => false end.

Definition le_ts (t : Timestamp) (v : value) : bool :=
  match v with Ts x => x <=? t | _ => false end.

(** [df.empty]: some axis has length 0. *)
Definition empty (df : DataFrame) : bool :=
  match rows df, columns df with
  | [], _ | _, [] => true
  | _, _ => false
  end.

(** [df.tail(n)] for [n >= 0]: the last [n] rows. *)
Definition tail_rows {A} (n : nat) (l : list A) : list A :=
  drop (length l - n)%nat l.

Definition tail (n : nat) (df : DataFrame) : DataFrame :=
  {| columns := columns df; rows := tail_rows n (rows df) |}.

(** *** [df.sort_values(c)]

    Ascending on the timestamps of column [c], missing values last.  pandas
    sorts with NumPy's default kind, which is not stable: the order of rows
    with equal keys is NumPy's choice.  The sort is therefore a parameter,
    [sort_by i rows] for the rows ordered on the cells at position [i]; what
    is known of it is [ascending_sort] below. *)
Definition key_le (i : nat) (r1 r2 : Row) : bool :=
  match get i r1, get i r2 with
  | Ts a, Ts b => a <=? b
  | Ts _, _ => true
  | _, Ts _ => false
  | _, _ => true
  end.

Definition sort_values (sort_by : nat -> list Row -> list Row)
    (c : string) (df : DataFrame) : M DataFrame :=
  let* i := label_index (ValueError ("The column label '" ++ c ++ "' is not unique.")) c df in
  Ok {| columns := columns df; rows := sort_by i (rows df) |}.

(** One sort that is ascending: insertion from the right, which keeps rows
    of equal keys in their order.  The runs below use it. *)
Fixpoint insert_row (le : Row -> Row -> bool) (r : Row) (l : list Row) : list Row :=
  match l with
  | [] => [r]
  | x :: l' => if le r x then r :: l else x :: insert_row le r l'
  end.

Definition sort_rows (le : Row -> Row -> bool) (l : list Row) : list Row :=
  foldr (insert_row le) [] l.

Definition stable_sort (i : nat) (l : list Row) : list Row :=
  sort_rows (key_le i) l.

(** *** Reductions *)

(** The timestamps of a datetime Series, NaT skipped; cells of another
    kind do not occur in a datetime column. *)
Fixpoint timestamps (cells : list value) : M (list Timestamp) :=
  match cells with
  | [] => Ok []
  | NA :: cells' => timestamps cells'
  | Ts t :: cells' => let* ts := timestamps cells' in Ok (t :: ts)
  | _ :: _ => Raise (TypeError "not a datetime column")
  end.

(** [series.min().date().isoformat()] (with [Z.min]) and the same with
    [max].  The minimum of no timestamp is NaT, whose [date()] is NaT again
    and prints as [NaT]. *)
Definition date_bound (pick : Z -> Z -> Z) (cells : list value) : M string :=
  let* ts := timestamps cells in
  match ts with
  | [] => Ok "NaT"
  | t :: ts' => Ok (Calendar.isoformat (Calendar.date (foldl pick t ts')))
  end.

(** [series.fillna(0)] *)
Definition fillna0 (v : value) : value :=
  match v with NA => Num 0 | _ => v end.

(** Addition in a 64-bit integer column wraps around. *)
Definition wrap64 (z : Z) : Z := (z + 2 ^ 63) mod 2 ^ 64 - 2 ^ 63.

(** [a + b] as [series.sum()] adds two cells: integers of an int64 column
    (a float64 column adds the same as long as the sums stay below 2^53),
    or the strings of a text column, which are joined.  A number and a
    string do not add. *)
Definition add (a b : value) : M value :=
  match a, b with
  | Num x, Num y => Ok (Num (wrap64 (x + y)))
  | Str x, Str y => Ok (Str (x ++ y))
  | _, _ => Raise (TypeError "unsupported operand type(s) for +")
  end.

Fixpoint sum_from (acc : value) (cells : list value) : M value :=
  match cells with
  | [] => Ok acc
  | v :: cells' => let* acc' := add acc v in sum_from acc' cells'
  end.

(** [series.sum()] of a Series without missing values: the cells added up
    from the first one on; 0 for no cell. *)
Definition sum (cells : list value) : M value :=
  match cells with
  | [] => Ok (Num 0)
  | v :: cells' => sum_from v cells'
  end.

(** [int(v)] for a cell or a sum [v]; [py_int] is Python's [int] on a
    string, [None] for its [ValueError]. *)
Definition int (py_int : string -> option Z) (v : value) : M Z :=
  match v with
  | Num n => Ok n
  | Str s =>
      match py_int s with
      | Some n => Ok n
      | None => Raise (ValueError "invalid literal for int() with base 10")
      end
  | NA => Raise (ValueError "cannot convert float NaN to integer")
  | Ts _ => Raise (TypeError "int() argument must be a string or a real number")
  end.

(** [row.get(c)] for a row of [df], as the specification reads a field of
    a Record: None, a missing value, when the label is absent. *)
Definition row_get (c : string) (df : DataFrame) (r : Row) : value :=
  match index_of c (columns df) with
  | None => NA
  | Some i => get i r
  end.

(** [df.iloc[-1]] *)
Definition iloc_last (df : DataFrame) : M Row :=
  match last (rows df) with
  | None => Raise (IndexError "single positional indexer is out-of-bounds")
  | Some r => Ok r
  end.

(** [df[cols]] for a list of labels: for each label in turn, every column
    of that label. *)
Definition select (cols : list string) (df : DataFrame) : M DataFrame :=
  let* picked := mapM (fun c => match positions c (columns df) with
                                | [] => Raise (KeyError c)
                                | ps => Ok (map (fun i => (c, i)) ps)
                                end) cols in
  let idx := concat picked in
  Ok {| columns := map fst idx;
        rows := map (fun r => map (fun ci => get (snd ci) r) idx) (rows df) |}.

(** [series.dt.strftime("%Y-%m-%d")], cell by cell; [.dt] exists on
    datetime columns only. *)
Definition strftime (v : value) : M value :=
  match v with
  | Ts t => Ok (Str (Calendar.isoformat (Calendar.date t)))
  | NA => Ok NA
  | _ => Raise (AttributeError "Can only use .dt accessor with datetimelike values")
  end.

(** [d[k] = v] on a dict, kept as the list of its items in insertion
    order. *)
Fixpoint dict_set (k : string) (v : value) (d : list (string * value))
    : list (string * value) :=
  match d with
  | [] => [(k, v)]
  | (k', v') :: d' =>
      if String.eqb k k' then (k, v) :: d' else (k', v') :: dict_set k v d'
  end.

Definition dict_of (items : list (string * value)) : list (string * value) :=
  foldl (fun d kv => dict_set (fst kv) (snd kv) d) [] items.

(** [df.to_dict(orient="records")]: one dict per row, keyed by label, in
    column order (of two columns with one label the later one is kept). *)
Definition to_dict_records (df : DataFrame) : list (list (string * value)) :=
  map (fun r => dict_of (imap (fun i c => (c, get i r)) (columns df))) (rows df).

(** [repr(s)] of a string, as [str(list)] prints each label: in single
    quotes, or in double quotes when the string has a single quote and no
    double one; the backslash, the quote in use, TAB, LF and CR escaped with a
    backslash, the other control characters written as [x] and two hex
    digits after a backslash.  (Characters outside ASCII are printed as they
    are; Python escapes those that are not printable.) *)
Fixpoint has_char (c : ascii) (s : string) : bool :=
  match s with
  | EmptyString => false
  | String d s' => Ascii.eqb c d || has_char c s'
  end.

Definition backslash : ascii := ascii_of_N 92.
Definition double_quote : ascii := ascii_of_N 34.

Definition escaped (s : string) : string := String backslash s.

Definition hex_digit (n : N) : ascii :=
  if (n <? 10)%N then ascii_of_N (48 + n) else ascii_of_N (87 + n).

Definition repr_char (quote : ascii) (c : ascii) : string :=
  let n := N_of_ascii c in
  if Ascii.eqb c backslash || Ascii.eqb c quote then escaped (String c EmptyString)
  else if (n =? 9)%N then escaped "t"
  else if (n =? 10)%N then escaped "n"
  else if (n =? 13)%N then escaped "r"
  else if ((n <? 32) || (n =? 127))%N
       then escaped (String "x" (String (hex_digit (n / 16))
                                   (String (hex_digit (n mod 16)) EmptyString)))
  else String c EmptyString.

Fixpoint repr_chars (quote : ascii) (s : string) : string :=
  match s with
  | EmptyString => EmptyString
  | String c s' => (repr_char quote c ++ repr_chars quote s')%string
  end.

Definition repr_str (s : string) : string :=
  let quote : ascii :=
    if has_char "'" s && negb (has_char double_quote s) then double_quote else "'"%char in
  String quote (repr_chars quote s ++ String quote EmptyString)%string.

(** [str(labels)] for a list of strings. *)
Definition repr_labels (labels : list string) : string :=
  ("[" ++ String.concat ", " (map repr_str labels) ++ "]")%string.

(* ===================================================================== *)
(** ** The program *)
(* ===================================================================== *)

(** [normalize_columns]: strip, lower, then blanks and slashes to
    underscores; the frame itself is copied, not changed. *)
Definition normalize_label (l : string) : string :=
  PyStr.replace "/" "_" (PyStr.replace " " "_" (PyStr.lower (PyStr.strip l))).

Definition normalize_columns (df : DataFrame) : DataFrame :=
  {| columns := map normalize_label (columns df); rows := rows df |}.

(** Python truth of [request.args.get(k)]: set and not the empty string. *)
Definition truthy (o : option string) : bool :=
  match o with
  | Some s => negb (PyStr.is_empty s)
  | None => false
  end.

(** The payloads that [summary] and [cases] hand to [jsonify], which
    writes the keys of every dict in sorted order. *)
Record SummaryPayload := {
  s_count : Z;
  s_kpi : gmap string value;
  s_message : option string
}.

Record CasesPayload := {
  c_count : Z;
  c_data : list (list (string * value))
}.

Definition allow_list : list string :=
  ["date"; "location"; "location_level"; "new_cases"; "new_deaths";
   "total_cases"; "total_deaths"; "latitude"; "longitude"].

Section Engine.

(** [pd.to_datetime(s, errors="coerce")] on a string. *)
Variable to_datetime : string -> scalar.

(** [pd.to_datetime(series, errors="coerce")], cell by cell.  pandas may
    settle the format on the whole Series, so the cell parser is given the
    Series as well.  The dates of the table are calendar dates: a cell that
    parses gives a timezone-naive timestamp. *)
Variable to_datetime_cell : list value -> value -> option Timestamp.

(** Python's [int(s)] on a string: [None] when it raises [ValueError]. *)
Variable py_int : string -> option Z.

(** The rows as pandas' sort orders them on the cells at a position. *)
Variable sort_by : nat -> list Row -> list Row.

Definition coerce (o : option Timestamp) : value :=
  match o with Some t => Ts t | None => NA end.

(** [pd.to_datetime(df[c], errors="coerce")].  When the label occurs
    more than once [df[c]] is not a Series but the frame of those
    columns, and [to_datetime] refuses a frame whose labels repeat. *)
Definition to_datetime_column (c : string) (df : DataFrame) : M (list value) :=
  match index_of c (columns df) with
  | None => Raise (KeyError c)
  | Some i =>
      if (1 <? occurrences c (columns df))%nat
      then Raise (ValueError "cannot assemble with duplicate keys")
      else
        let col := series i df in
        Ok (map (fun v => coerce (to_datetime_cell col v)) col)
  end.

(** [load_df], applied to the frame that [pd.read_csv(DATA_PATH)]
    returned. *)
Definition load_df (csv : DataFrame) : M DataFrame :=
  let df := normalize_columns csv in
  if negb (has_column "date" df) then
    Raise (ValueError ("No date column found. Columns: " ++ repr_labels (columns df)))
  else if negb (has_column "location" df) then
    Raise (ValueError ("No location column found. Columns: " ++ repr_labels (columns df)))
  else
    let* dates := to_datetime_column "date" df in
    let df := assign "date" dates df in
    let* df := dropna "date" df in
    let df := if negb (has_column "location_level" df)
              then assign_scalar "location_level" (Str "Unknown") df
              else df in
    Ok df.

(** [out[cmp(out["date"], s)]] for the parsed bound [s], when it is not
    NaT.  The column holds timezone-naive timestamps: comparing it with a
    timezone-aware one raises [TypeError]. *)
Definition date_filter (cmp : Timestamp -> value -> bool) (s : scalar)
    (out : DataFrame) : M DataFrame :=
  match s with
  | NaT => Ok out
  | Naive t => filter_by "date" (cmp t) out
  | Aware =>
      let* _ := label_index (ValueError "cannot reindex on an axis with duplicate labels")
                            "date" out in
      Raise (TypeError "Invalid comparison between dtype=datetime64[ns] and Timestamp")
  end.

(** [apply_filters]; [args] is [request.args]. *)
Definition apply_filters (df : DataFrame) (args : gmap string string) : M DataFrame :=
  let location := args !! "location" in
  let level := args !! "level" in
  let start := args !! "start" in
  let end_ := args !! "end" in
  let out := df in
  let* out := if truthy level
              then filter_by "location_level" (eq_str (default "" level)) out
              else Ok out in
  let* out := if truthy location
              then filter_by "location" (eq_str (default "" location)) out
              else Ok out in
  let* out := if truthy start
              then date_filter ge_ts (to_datetime (default "" start)) out
              else Ok out in
  let* out := if truthy end_
              then date_filter le_ts (to_datetime (default "" end_)) out
              else Ok out in
  Ok out.

(** One optional KPI of the last row: set when the column exists and
    the value is there.  With a repeated label [last.get(c)] is not a cell
    but a Series, whose [notna] has no truth value. *)
Definition kpi_total (c : string) (df : DataFrame) (last : Row)
    (kpi : gmap string value) : M (gmap string value) :=
  if has_column c df then
    let* i := label_index
                (ValueError "The truth value of an array with more than one element is ambiguous")
                c df in
    if notna (get i last) then
      let* n := int py_int (get i last) in
      Ok (<[c := Num n]> kpi)
    else Ok kpi
  else Ok kpi.

(** One trailing sum: set when the column exists.  With a repeated label
    the sum is a Series, which [int] refuses. *)
Definition kpi_7d (c key : string) (df : DataFrame)
    (kpi : gmap string value) : M (gmap string value) :=
  if has_column c df then
    let* i := label_index (TypeError "cannot convert the series to <class 'int'>") c df in
    let* s := sum (map fillna0 (series i (tail 7 df))) in
    let* n := int py_int s in
    Ok (<[key := Num n]> kpi)
  else Ok kpi.

(** [summary], on the frame [DF] built at start-up. *)
Definition summary (DF : DataFrame) (args : gmap string string) : M SummaryPayload :=
  let* out := apply_filters DF args in
  let* df := sort_values sort_by "date" out in
  if empty df then
    Ok {| s_count := 0; s_kpi := ∅; s_message := Some "No data for filters" |}
  else
    let* last := iloc_last df in
    let* i := label_index (AttributeError "'Series' object has no attribute 'date'")
                          "date" df in
    let* min_date := date_bound Z.min (series i df) in
    let* max_date := date_bound Z.max (series i df) in
    let kpi := <["max_date" := Str max_date]> (<["min_date" := Str min_date]> ∅) in
    let* kpi := kpi_total "total_cases" df last kpi in
    let* kpi := kpi_total "total_deaths" df last kpi in
    let* kpi := kpi_7d "new_cases" "new_cases_7d" df kpi in
    let* kpi := kpi_7d "new_deaths" "new_deaths_7d" df kpi in
    Ok {| s_count := Z.of_nat (length (rows df)); s_kpi := kpi; s_message := None |}.

(** The clamped limit of [cases]: [int(limit)] raising [ValueError] is
    the [None] of [py_int]. *)
Definition limit_n (args : gmap string string) : Z :=
  let limit := default "3000" (args !! "limit") in
  match py_int limit with
  | Some n => Z.max 1 (Z.min n 20000)
  | None => 3000
  end.

(** [cases], on the frame [DF] built at start-up. *)
Definition cases (DF : DataFrame) (args : gmap string string) : M CasesPayload :=
  let* out := apply_filters DF args in
  let* df := sort_values sort_by "date" out in
  let df := tail (Z.to_nat (limit_n args)) df in
  let cols := List.filter (fun c => has_column c df) allow_list in
  let* out := select cols df in
  let* i := label_index (AttributeError "'DataFrame' object has no attribute 'dt'")
                        "date" out in
  let* dates := mapM strftime (series i out) in
  let out := assign "date" dates out in
  Ok {| c_count := Z.of_nat (length (rows out)); c_data := to_dict_records out |}.

End Engine.

(* ===================================================================== *)
(** ** The discovery endpoint *)
(* ===================================================================== *)

(** The kinds of cells Python tells apart when it compares. *)
Definition kind (v : value) : nat :=
  match v with NA => 0 | Str _ => 1 | Num _ => 2 | Ts _ => 3 end%nat.

Definition same_kind (a b : value) : bool := Nat.eqb (kind a) (kind b).

(** Python's [a <= b] for two cells of one kind: strings by code point,
    numbers and timestamps by value.  Python does not order cells of
    different kinds (see [py_sorted]); here they are ordered by kind, so that
    the relation is total. *)
Definition value_leb (a b : value) : bool :=
  match a, b with
  | Str x, Str y => String.leb x y
  | Num x, Num y => x <=? y
  | Ts x, Ts y => x <=? y
  | _, _ => Nat.leb (kind a) (kind b)
  end.

Definition value_le (a b : value) : Prop := value_leb a b = true.

Global Instance value_le_dec a b : Decision (value_le a b).
Proof. unfold value_le. apply _. Defined.

(** [sorted(l)]: a list whose elements are not all of one kind has two
    elements that Python cannot compare, and sorting it raises. *)
Definition py_sorted (l : list value) : M (list value) :=
  match l with
  | [] => Ok []
  | x :: _ =>
      if forallb (same_kind x) l then Ok (merge_sort value_le l)
      else Raise (TypeError "'<' not supported between instances")
  end.

(** [series.unique()]: the distinct values, in the order they first occur. *)
Fixpoint unique (l : list value) : list value :=
  match l with
  | [] => []
  | x :: l' => x :: List.filter (fun y => negb (bool_decide (y = x))) (unique l')
  end.

(** [series == x], cell by cell, for a string or a number [x]. *)
Definition eq_cell (x v : value) : bool :=
  match x, v with
  | Str a, Str b => String.eqb a b
  | Num a, Num b => a =? b
  | Ts a, Ts b => a =? b
  | _, _ => false
  end.

(** A frame has no [unique()]: what [df[c].dropna().unique()] raises when the
    label [c] is repeated. *)
Definition no_unique : exn :=
  AttributeError "'DataFrame' object has no attribute 'unique'".

(** [df.loc[df[k] == x, c]], for the [.dropna().unique()] that follows. *)
Definition loc_eq (k : string) (x : value) (c : string) (df : DataFrame) : M (list value) :=
  let* i := label_index (ValueError "cannot reindex on an axis with duplicate labels") k df in
  let* j := label_index no_unique c df in
  Ok (map (get j) (List.filter (fun r => eq_cell x (get i r)) (rows df))).

(** The payload of [/api/metadata].  [locations_by_level] is a dict filled
    level by level: its entries in the order of [levels]. *)
Record MetadataPayload := {
  m_min_date : string;
  m_max_date : string;
  m_row_count : Z;
  m_columns : list string;
  m_levels : list value;
  m_locations_by_level : list (value * list value)
}.

(** [sorted(series.dropna().unique().tolist())] *)
Definition sorted_unique (cells : list value) : M (list value) :=
  py_sorted (unique (List.filter notna cells)).

(** [metadata], on the frame [DF] built at start-up. *)
Definition metadata (DF : DataFrame) : M MetadataPayload :=
  let* i := label_index (AttributeError "'Series' object has no attribute 'date'")
                        "date" DF in
  let* min_date := date_bound Z.min (series i DF) in
  let* max_date := date_bound Z.max (series i DF) in
  let* v := label_index no_unique "location_level" DF in
  let* levels := sorted_unique (series v DF) in
  let* grouped :=
    mapM (fun lv =>
            let* cells := loc_eq "location_level" lv "location" DF in
            let* locations := sorted_unique cells in
            Ok (lv, locations))
         levels in
  Ok {| m_min_date := min_date;
        m_max_date := max_date;
        m_row_count := Z.of_nat (length (rows DF));
        m_columns := columns DF;
        m_levels := levels;
        m_locations_by_level := grouped |}.

(** [health]: the constant answer. *)
Definition health : list (string * string) := [("status", "ok")].

(* ===================================================================== *)
(** ** Vocabulary of the specification *)
(* ===================================================================== *)

Definition is_timestamp (v : value) : bool :=
  match v with Ts _ => true | _ => false end.

(** A Record with a valid (parsed) date. *)
Definition valid_date (df : DataFrame) (r : Row) : bool :=
  is_timestamp (row_get "date" df r).

(** A Record with a non-empty location. *)
Definition nonempty_location (df : DataFrame) (r : Row) : bool :=
  match row_get "location" df r with
  | NA => false
  | Str s => negb (PyStr.is_empty s)
  | _ => true
  end.

(** What [load_df] establishes for the frame the service keeps: the three
    columns every request reads, and a timestamp in every date cell. *)
Definition dataset_ok (df : DataFrame) : bool :=
  has_column "date" df && has_column "location" df &&
  has_column "location_level" df && forallb (valid_date df) (rows df).

(** An optional numeric field holds a number or nothing. *)
Definition is_count (v : value) : bool :=
  match v with NA | Num _ => true | _ => false end.

Definition numeric_column (c : string) (df : DataFrame) : bool :=
  forallb (fun r => is_count (row_get c df r)) (rows df).

(** The data model's typing of the four optional counters. *)
Definition numeric_fields (df : DataFrame) : bool :=
  forallb (fun c => numeric_column c df)
          ["new_cases"; "new_deaths"; "total_cases"; "total_deaths"].

(** The value of a counter, a missing one counting as 0. *)
Definition count0 (v : value) : Z :=
  match v with Num n => n | _ => 0 end.

Definition total (l : list Z) : Z := foldr Z.add 0 l.

(** The sum of field [c] over the last [n] rows of [df]. *)
Definition trailing_sum (c : string) (n : nat) (df : DataFrame) : Z :=
  total (map (fun r => count0 (row_get c df r)) (tail_rows n (rows df))).

(** One listed record: the allow-listed columns the frame has, in the
    allow-list's order, the date written [YYYY-MM-DD]. *)
Definition listed_cell (c : string) (df : DataFrame) (r : Row) : value :=
  if String.eqb c "date" then
    match row_get c df r with
    | Ts t => Str (Calendar.isoformat (Calendar.date t))
    | v => v
    end
  else row_get c df r.

Definition listed_record (df : DataFrame) (r : Row) : list (string * value) :=
  map (fun c => (c, listed_cell c df r))
      (List.filter (fun c => has_column c df) allow_list).

(** A View of [df]: the same columns, and rows of [df] in their order. *)
Definition is_view (v df : DataFrame) : Prop :=
  columns v = columns df /\ rows v `sublist_of` rows df.

(** [s] is the View [v] sorted by date, ascending: the same Records, each
    dated no later than the next. *)
Definition sorted_by_date (s v : DataFrame) : Prop :=
  columns s = columns v /\
  rows s ≡ₚ rows v /\
  Sorted (fun a b => forall x y,
            row_get "date" s a = Ts x -> row_get "date" s b = Ts y -> x <= y)
         (rows s).

(** The KPI mapping with the latest total of field [c], when the schema
    has the field and the value of the last Record is there. *)
Definition with_total (c : string) (df : DataFrame) (last : Row)
    (kpi : gmap string value) : gmap string value :=
  if has_column c df && notna (row_get c df last)
  then <[c := Num (count0 (row_get c df last))]> kpi
  else kpi.

(** The KPI mapping with the number [n] under [key], when the schema has
    the field [c]. *)
Definition with_7d (c key : string) (df : DataFrame) (n : Z)
    (kpi : gmap string value) : gmap string value :=
  if has_column c df
  then <[key := Num n]> kpi
  else kpi.

(** Every label of the schema names one column: a Record has one value for
    a field. *)
Definition unique_labels (df : DataFrame) : bool :=
  forallb (fun c => Nat.eqb (occurrences c (columns df)) 1) (columns df).

(** The counts that are summed are far from the ends of the 64-bit range:
    seven of them add up without wrapping around (and without rounding, in a
    column of floats). *)
Definition small_count (v : value) : bool :=
  match v with Num n => Z.abs n <=? 2 ^ 50 | _ => true end.

Definition small_counts (df : DataFrame) : bool :=
  forallb (fun c => forallb (fun r => small_count (row_get c df r)) (rows df))
          ["new_cases"; "new_deaths"].

(** What is known of pandas' sort: the rows it returns are the rows it was
    given, each dated no later than the next, missing dates last. *)
Definition ascending_sort (sort_by : nat -> list Row -> list Row) : Prop :=
  forall i l, sort_by i l ≡ₚ l /\ Sorted (fun a b => key_le i a b = true) (sort_by i l).

(** A canonical label: no white space at either end, and no blank, slash
    or upper-case letter in it. *)
Definition is_upper (c : ascii) : bool :=
  let n := N_of_ascii c in ((65 <=? n) && (n <=? 90))%N.

Definition canonical_char (c : ascii) : bool :=
  negb (Ascii.eqb c " ") && negb (Ascii.eqb c "/") && negb (is_upper c).

Fixpoint all_chars (p : ascii -> bool) (s : string) : bool :=
  match s with
  | EmptyString => true
  | String c s' => p c && all_chars p s'
  end.

Definition canonical (l : string) : bool :=
  PyStr.head_ok l && PyStr.last_ok l && all_chars canonical_char l.

(** A label written in ASCII. *)
Definition is_ascii (l : string) : bool :=
  all_chars (fun c => (N_of_ascii c <? 128)%N) l.

(** A column of text: each cell a string or missing. *)
Definition text_cell (v : value) : bool :=
  match v with NA | Str _ => true | _ => false end.

Definition text_column (c : string) (df : DataFrame) : bool :=
  forallb (fun r => text_cell (row_get c df r)) (rows df).

(** Strictly before, in the order of [sorted]. *)
Definition value_lt (a b : value) : Prop := value_le a b /\ a <> b.

(** One clause of a Query: no restriction when the parameter is absent or
    empty. *)
Definition clause (o : option string) (p : string -> bool) : bool :=
  match o with
  | Some s => if PyStr.is_empty s then true else p s
  | None => true
  end.

(** A date bound: no restriction when the text is no date. *)
Definition bound (to_datetime : string -> scalar)
    (cmp : Timestamp -> value -> bool) (v : value) (s : string) : bool :=
  match to_datetime s with
  | Naive t => cmp t v
  | _ => true
  end.

(** The Record [r] of [df] satisfies every clause of the Query [args]. *)
Definition satisfies (to_datetime : string -> scalar)
    (df : DataFrame) (args : gmap string string) (r : Row) : bool :=
  clause (args !! "level") (fun s => eq_str s (row_get "location_level" df r)) &&
  clause (args !! "location") (fun s => eq_str s (row_get "location" df r)) &&
  clause (args !! "start") (bound to_datetime ge_ts (row_get "date" df r)) &&
  clause (args !! "end") (bound to_datetime le_ts (row_get "date" df r)).

(** The date bounds of a Query are calendar dates, written without an
    offset: a bound that parses is timezone-naive. *)
Definition naive (s : scalar) : bool :=
  match s with Aware => false | _ => true end.

Definition naive_bounds (to_datetime : string -> scalar)
    (args : gmap string string) : bool :=
  clause (args !! "start") (fun s => naive (to_datetime s)) &&
  clause (args !! "end") (fun s => naive (to_datetime s)).

(* ===================================================================== *)
(** ** A parser instance and the scenarios of the specification *)
(* ===================================================================== *)

(** The concrete runs below read dates written [YYYY-MM-DD], the one format
    every version of the pandas parser reads the same way. *)
Module Sample.

Definition days_from_civil (y m d : Z) : Z :=
  let y' := if m <=? 2 then y - 1 else y in
  let era := y' / 400 in
  let yoe := y' - era * 400 in
  let doy := (153 * (if 2 <? m then m - 3 else m + 9) + 2) / 5 + d - 1 in
  let doe := yoe * 365 + yoe / 4 - yoe / 100 + doy in
  era * 146097 + doe - 719468.

Fixpoint number (s : string) (acc : Z) : option Z :=
  match s with
  | EmptyString => Some acc
  | String c s' =>
      match PyStr.digit_val c with
      | Some d => number s' (10 * acc + d)
      | None => None
      end
  end.

Definition iso_date (s : string) : option Timestamp :=
  if negb (Nat.eqb (String.length s) 10) then None
  else if negb (String.eqb (substring 4 1 s) "-" && String.eqb (substring 7 1 s) "-") then None
  else
    match number (substring 0 4 s) 0, number (substring 5 2 s) 0, number (substring 8 2 s) 0 with
    | Some y, Some m, Some d =>
        let days := days_from_civil y m d in
        if decide (Calendar.civil days = (y, m, d))
        then Some (days * Calendar.ns_per_day)
        else None
    | _, _, _ => None
    end.

Definition iso_cell (_ : list value) (v : value) : option Timestamp :=
  match v with
  | Str s => iso_date s
  | Ts t => Some t
  | _ => None
  end.

(** Strings as the runs give them to [pd.to_datetime]: a date
    [YYYY-MM-DD] is timezone-naive; a date followed by [T], a time and an
    offset of hours and minutes ([2021-01-05T00:00:00+07:00]) is
    timezone-aware. *)
Definition iso_scalar (s : string) : scalar :=
  match iso_date s with
  | Some t => Naive t
  | None =>
      match iso_date (substring 0 10 s) with
      | Some _ =>
          if Nat.eqb (String.length s) 25 && String.eqb (substring 10 1 s) "T"
             && (String.eqb (substring 19 1 s) "+" || String.eqb (substring 19 1 s) "-")
          then Aware else NaT
      | None => NaT
      end
  end.

Definition load_df := load_df iso_cell.
Definition apply_filters := apply_filters iso_scalar.
Definition summary := summary iso_scalar PyStr.int_of_str stable_sort.
Definition cases := cases iso_scalar PyStr.int_of_str stable_sort.
Definition limit_n := limit_n PyStr.int_of_str.

(** The table of Scenario A, as [read_csv] returns it. *)
Definition csv_A : DataFrame :=
  {| columns := ["Date"; "Location"; "Location Level"; "Total Cases"];
     rows := [ [Str "2021-01-01"; Str "X"; Str "country"; Num 10];
               [Str "2021-01-02"; Str "X"; Str "country"; Num 15] ] |}.

Definition DF_A : DataFrame :=
  {| columns := ["date"; "location"; "location_level"; "total_cases"];
     rows := [ [Ts 1609459200000000000; Str "X"; Str "country"; Num 10];
               [Ts 1609545600000000000; Str "X"; Str "country"; Num 15] ] |}.

(** A table with a missing location, a date that does not parse and a
    short row. *)
Definition csv_gaps : DataFrame :=
  {| columns := ["Date"; "Location"];
     rows := [ [Str "2021-01-01"; NA];
               [Str "not-a-date"; Str "Y"];
               [NA] ] |}.

Definition DF_gaps : DataFrame :=
  {| columns := ["date"; "location"; "location_level"];
     rows := [ [Ts 1609459200000000000; NA; Str "Unknown"] ] |}.

(** Nine days of one location, out of order, with gaps in the counters. *)
Definition csv_days : DataFrame :=
  {| columns := ["Date"; "Location"; "Location Level"; "New Cases"; "New Deaths";
                 "Total Cases"; "Total Deaths"];
     rows := [ [Str "2021-01-03"; Str "X"; Str "country"; Num 3; Num 0; Num 6; Num 0];
               [Str "2021-01-01"; Str "X"; Str "country"; Num 1; NA; Num 1; Num 0];
               [Str "2021-01-02"; Str "X"; Str "country"; Num 2; Num 0; Num 3; Num 0];
               [Str "2021-01-04"; Str "X"; Str "country"; NA; Num 1; Num 6; Num 1];
               [Str "2021-01-05"; Str "X"; Str "country"; Num 5; Num 0; Num 11; Num 1];
               [Str "2021-01-06"; Str "X"; Str "country"; Num 6; Num 0; Num 17; Num 1];
               [Str "2021-01-07"; Str "X"; Str "country"; Num 7; Num 2; Num 24; Num 3];
               [Str "2021-01-08"; Str "X"; Str "country"; Num 8; Num 0; Num 32; Num 3];
               [Str "2021-01-09"; Str "X"; Str "country"; Num 9; Num 0; Num 41; NA];
               [Str "2021-01-09"; Str "Y"; Str "province"; Num 100; Num 10; Num 100; Num 10] ] |}.

Definition DF_days : DataFrame :=
  match load_df csv_days with
  | Ok df => df
  | Raise _ => {| columns := []; rows := [] |}
  end.

Definition args_X : gmap string string := {[ "location" := "X" ]}.

(** Its View: the nine Records of [X]. *)
Definition view_X : DataFrame :=
  match apply_filters DF_days args_X with
  | Ok v => v
  | Raise _ => {| columns := []; rows := [] |}
  end.

(** The same with an upper bound, and with a limit below the range. *)
Definition args_until : gmap string string := <["end" := "2021-01-05"]> args_X.

Definition view_until : DataFrame :=
  match apply_filters DF_days args_until with
  | Ok v => v
  | Raise _ => {| columns := []; rows := [] |}
  end.

Definition args_limit_0 : gmap string string := <["limit" := "0"]> args_X.

(** Scenario C: a level no Record has; its View has the schema and no
    Record. *)
Definition args_district : gmap string string := {[ "level" := "district" ]}.

Definition view_none : DataFrame := {| columns := columns DF_days; rows := [] |}.

(** A table whose latest total is text, not a number. *)
Definition csv_text_total : DataFrame :=
  {| columns := ["Date"; "Location"; "Total Cases"];
     rows := [ [Str "2021-01-01"; Str "X"; Str "10"];
               [Str "2021-01-02"; Str "X"; Str "unknown"] ] |}.

Definition DF_text_total : DataFrame :=
  match load_df csv_text_total with
  | Ok df => df
  | Raise _ => {| columns := []; rows := [] |}
  end.

(** What [metadata] answers on the nine days. *)
Definition meta_days : MetadataPayload :=
  match metadata DF_days with
  | Ok m => m
  | Raise _ =>
      {| m_min_date := ""; m_max_date := ""; m_row_count := 0; m_columns := [];
         m_levels := []; m_locations_by_level := [] |}
  end.

(** A range that ends before it starts. *)
Definition args_inverted : gmap string string :=
  <["start" := "2021-01-05"]> (<["end" := "2021-01-02"]> ∅).

(** A bound that carries an offset. *)
Definition args_offset : gmap string string :=
  <["start" := "not-a-date"]> (<["end" := "2021-01-05T00:00:00+07:00"]> ∅).

(** A table without a level column: its locations in no order, one
    missing. *)
Definition csv_no_level : DataFrame :=
  {| columns := ["Date"; "Location"; "New Cases"];
     rows := [ [Str "2021-01-01"; Str "Y"; Num 1];
               [Str "2021-01-01"; Str "X"; Num 2];
               [Str "2021-01-02"; NA; Num 3];
               [Str "2021-01-02"; Str "Y"; Num 4] ] |}.

Definition DF_no_level : DataFrame :=
  match load_df csv_no_level with
  | Ok df => df
  | Raise _ => {| columns := []; rows := [] |}
  end.

(** A table in which two labels normalise to [location]. *)
Definition csv_two_locations : DataFrame :=
  {| columns := ["Location"; "location"; "Date"];
     rows := [ [Str "X"; Str "X"; Str "2021-01-01"] ] |}.

Definition DF_two_locations : DataFrame :=
  match load_df csv_two_locations with
  | Ok df => df
  | Raise _ => {| columns := []; rows := [] |}
  end.

(** A table whose counts were read as text. *)
Definition csv_text_counts : DataFrame :=
  {| columns := ["Date"; "Location"; "New Cases"];
     rows := [ [Str "2021-01-01"; Str "X"; Str "1"];
               [Str "2021-01-02"; Str "X"; Str "2"] ] |}.

Definition DF_text_counts : DataFrame :=
  match load_df csv_text_counts with
  | Ok df => df
  | Raise _ => {| columns := []; rows := [] |}
  end.

(** Two counts whose sum leaves the 64-bit range. *)
Definition csv_huge : DataFrame :=
  {| columns := ["Date"; "Location"; "New Cases"];
     rows := [ [Str "2021-01-01"; Str "X"; Num 9223372036854775807];
               [Str "2021-01-02"; Str "X"; Num 1] ] |}.

Definition DF_huge : DataFrame :=
  match load_df csv_huge with
  | Ok df => df
  | Raise _ => {| columns := []; rows := [] |}
  end.

(** A table in which two labels normalise to [date]. *)
Definition csv_two_dates : DataFrame :=
  {| columns := ["Date"; "date"; "location"];
     rows := [ [Str "2021-01-01"; Str "2021-01-01"; Str "X"] ] |}.

End Sample.

(* ===================================================================== *)
(** ** Properties of the string functions *)
(* ===================================================================== *)

Module PyStrFacts.
Import PyStr.

Lemma str_map_fuse f g s : str_map g (str_map f s) = str_map (fun c => g (f c)) s.
Proof. induction s as [|c s IH]; simpl; [done|]. by rewrite IH. Qed.

Lemma str_map_ext f g s : (forall c, f c = g c) -> str_map f s = str_map g s.
Proof. intros E. induction s as [|c s IH]; simpl; [done|]. by rewrite E, IH. Qed.

Lemma lstrip_head_ok s : head_ok (lstrip s) = true.
Proof.
  induction s as [|c s IH]; simpl; [done|].
  destruct (is_space c) eqn:E; [done|]. simpl. by rewrite E.
Qed.

Lemma lstrip_fixed s : head_ok s = true -> lstrip s = s.
Proof. destruct s as [|c s]; simpl; [done|]. by destruct (is_space c). Qed.

Lemma rstrip_fixed s : last_ok s = true -> rstrip s = s.
Proof.
  induction s as [|c s IH]; [done|]. cbn [rstrip last_ok]. intros Hl.
  destruct s as [|d s].
  - simpl. destruct (is_space c); [done|]. done.
  - rewrite (IH Hl). simpl. by rewrite andb_false_r.
Qed.

Lemma rstrip_last_ok s : last_ok (rstrip s) = true.
Proof.
  induction s as [|c s IH]; [done|]. cbn [rstrip].
  destruct (rstrip s) as [|d r] eqn:Er.
  - simpl. rewrite andb_true_r. destruct (is_space c) eqn:Ec; simpl; [done|].
    by rewrite Ec.
  - rewrite andb_false_r. exact IH.
Qed.

Lemma rstrip_head_ok s : head_ok s = true -> head_ok (rstrip s) = true.
Proof.
  destruct s as [|c s]; [done|]. cbn [rstrip head_ok]. intros Hc.
  apply negb_true_iff in Hc. rewrite Hc. simpl. by rewrite Hc.
Qed.

Lemma strip_fixed s : head_ok s = true -> last_ok s = true -> strip s = s.
Proof. intros Hh Hl. unfold strip. rewrite (lstrip_fixed _ Hh). by apply rstrip_fixed. Qed.

Lemma strip_head_ok s : head_ok (strip s) = true.
Proof. apply rstrip_head_ok, lstrip_head_ok. Qed.

Lemma strip_last_ok s : last_ok (strip s) = true.
Proof. apply rstrip_last_ok. Qed.

Section CharMap.
Variable f : ascii -> ascii.
Hypothesis f_keeps_nonspace : forall c, is_space c = false -> is_space (f c) = false.

Lemma str_map_head_ok s : head_ok s = true -> head_ok (str_map f s) = true.
Proof.
  destruct s as [|c s]; [done|]. simpl. intros H%negb_true_iff.
  by rewrite (f_keeps_nonspace _ H).
Qed.

Lemma str_map_last_ok s : last_ok s = true -> last_ok (str_map f s) = true.
Proof.
  induction s as [|c s IH]; [done|]. cbn [last_ok str_map].
  destruct s as [|d s]; simpl.
  - intros H%negb_true_iff. by rewrite (f_keeps_nonspace _ H).
  - intros H. exact (IH H).
Qed.
End CharMap.

Lemma lower_char_not_space c : is_space c = false -> is_space (lower_char c) = false.
Proof. revert c. intros [[] [] [] [] [] [] [] []]; vm_compute; congruence. Qed.

Lemma replace_char_not_space old c :
  is_space c = false -> is_space (replace_char old "_" c) = false.
Proof. unfold replace_char. by destruct (Ascii.eqb c old). Qed.

End PyStrFacts.

(* ===================================================================== *)
(** ** Sanity runs *)
(* ===================================================================== *)

Example isoformat_2021_01_02 : Calendar.isoformat 18629 = "2021-01-02".
Proof. reflexivity. Qed.

Example isoformat_2020_02_29 : Calendar.isoformat 18321 = "2020-02-29".
Proof. reflexivity. Qed.

Example load_A : Sample.load_df Sample.csv_A = Ok Sample.DF_A.
Proof. vm_compute. reflexivity. Qed.


(* ===================================================================== *)
(** ** The Schema Normalizer *)
(* ===================================================================== *)

(** What [normalize_label] does to one character after the strip. *)
Lemma normalize_label_chars l :
  normalize_label l =
  PyStr.str_map
    (fun c => PyStr.replace_char "/" "_" (PyStr.replace_char " " "_" (PyStr.lower_char c)))
    (PyStr.strip l).
Proof.
  unfold normalize_label, PyStr.replace, PyStr.lower.
  by rewrite !PyStrFacts.str_map_fuse.
Qed.

Lemma normalize_char_idempotent c :
  let f c := PyStr.replace_char "/" "_" (PyStr.replace_char " " "_" (PyStr.lower_char c)) in
  f (f c) = f c.
Proof. revert c. intros [[] [] [] [] [] [] [] []]; vm_compute; reflexivity. Qed.

Lemma normalize_label_idempotent l :
  normalize_label (normalize_label l) = normalize_label l.
Proof.
  rewrite (normalize_label_chars (normalize_label l)), (normalize_label_chars l).
  set (f := fun c => _).
  assert (Hf : forall c, PyStr.is_space c = false -> PyStr.is_space (f c) = false).
  { intros c Hc. unfold f.
    by apply PyStrFacts.replace_char_not_space, PyStrFacts.replace_char_not_space,
             PyStrFacts.lower_char_not_space. }
  rewrite PyStrFacts.strip_fixed.
  - rewrite PyStrFacts.str_map_fuse. apply PyStrFacts.str_map_ext.
    intros c. apply normalize_char_idempotent.
  - apply PyStrFacts.str_map_head_ok; [done|]. apply PyStrFacts.strip_head_ok.
  - apply PyStrFacts.str_map_last_ok; [done|]. apply PyStrFacts.strip_last_ok.
Qed.

(** C9: column-label normalisation is idempotent.  For every label,
    whatever its case, surrounding white space, inner blanks and slashes,
    normalising twice gives the label that normalising once gives; and so for
    the labels of a whole frame under [normalize_columns]. *)
Theorem normalize_columns_idempotent :
  (forall l : string, normalize_label (normalize_label l) = normalize_label l) /\
  (forall df : DataFrame, normalize_columns (normalize_columns df) = normalize_columns df).
Proof.
  split; [apply normalize_label_idempotent|].
  intros [cols rs]. unfold normalize_columns. simpl. f_equal.
  rewrite map_map. apply map_ext. intros l. apply normalize_label_idempotent.
Qed.

Example normalize_new_cases : normalize_label "  New Cases " = "new_cases".
Proof. reflexivity. Qed.

Example normalize_slash : normalize_label "Lat/Long" = "lat_long".
Proof. reflexivity. Qed.

(* ===================================================================== *)
(** ** Properties of the frame operations *)
(* ===================================================================== *)

Lemma get_set_cell_eq i v r : get i (set_cell i v r) = v.
Proof.
  unfold get, set_cell. rewrite nth_lookup.
  rewrite lookup_app_r; rewrite length_take, length_app, length_replicate; [|lia].
  by replace (i - _)%nat with 0%nat by lia.
Qed.

Lemma get_set_cell_ne i j v r : i <> j -> get i (set_cell j v r) = get i r.
Proof.
  intros Hij. unfold get, set_cell. rewrite !nth_lookup.
  destruct (decide (i < j)%nat) as [Hlt|Hge].
  - rewrite lookup_app_l; [|rewrite length_take, length_app, length_replicate; lia].
    rewrite lookup_take_lt by done.
    destruct (decide (i < length r)%nat) as [Hi|Hi].
    + by rewrite lookup_app_l.
    + rewrite lookup_app_r by lia. rewrite lookup_replicate_2 by lia.
      by rewrite (lookup_ge_None_2 r i) by lia.
  - rewrite lookup_app_r; rewrite length_take, length_app, length_replicate; [|lia].
    replace (i - _)%nat with (S (i - S j)) by lia. simpl.
    rewrite lookup_drop. f_equal. f_equal. lia.
Qed.

Lemma index_of_lt c labels i : index_of c labels = Some i -> (i < length labels)%nat.
Proof.
  revert i. induction labels as [|l labels IH]; intros i; simpl; [done|].
  destruct (String.eqb c l).
  - intros [= <-]. lia.
  - destruct (index_of c labels) as [k|]; simpl; [|done].
    intros [= <-]. specialize (IH k eq_refl). lia.
Qed.

Lemma index_of_app_l c labels more i :
  index_of c labels = Some i -> index_of c (labels ++ more) = Some i.
Proof.
  revert i. induction labels as [|l labels IH]; intros i; simpl; [done|].
  destruct (String.eqb c l); [done|].
  destruct (index_of c labels) as [k|]; simpl; [|done].
  intros [= <-]. by rewrite (IH k eq_refl).
Qed.

Lemma index_of_lookup c labels i : index_of c labels = Some i -> labels !! i = Some c.
Proof.
  revert i. induction labels as [|l labels IH]; intros i; simpl; [done|].
  destruct (String.eqb c l) eqn:E.
  - intros [= <-]. apply String.eqb_eq in E. by subst.
  - destruct (index_of c labels) as [k|]; simpl; [|done].
    intros [= <-]. simpl. by apply IH.
Qed.

Lemma has_column_index c df :
  has_column c df = true <-> exists i, index_of c (columns df) = Some i.
Proof.
  unfold has_column. induction (columns df) as [|l labels IH]; simpl.
  - split; [done|]. by intros [i ?].
  - destruct (String.eqb c l); simpl.
    + split; [by exists 0%nat|done].
    + rewrite IH. split.
      * intros [i ->]. by exists (S i).
      * intros [i Hi]. destruct (index_of c labels) as [k|]; [by exists k|done].
Qed.

Lemma has_column_false c df : has_column c df = false <-> index_of c (columns df) = None.
Proof.
  destruct (has_column c df) eqn:E.
  - apply has_column_index in E as [i Hi]. rewrite Hi. split; done.
  - split; [|done]. intros _. destruct (index_of c (columns df)) as [i|] eqn:Hi; [|done].
    assert (has_column c df = true) by (apply has_column_index; eauto). congruence.
Qed.

Lemma filter_sublist {A} (p : A -> bool) (l : list A) : List.filter p l `sublist_of` l.
Proof.
  induction l as [|x l IH]; simpl; [done|].
  destruct (p x); [by apply sublist_skip | by apply sublist_cons].
Qed.

Lemma insert_row_perm le r l : insert_row le r l ≡ₚ r :: l.
Proof.
  induction l as [|x l IH]; simpl; [done|].
  destruct (le r x); [done|]. rewrite IH. apply Permutation_swap.
Qed.

Lemma sort_rows_perm le l : sort_rows le l ≡ₚ l.
Proof.
  induction l as [|x l IH]; simpl; [done|].
  rewrite insert_row_perm. by rewrite IH.
Qed.

Lemma sort_rows_length le l : length (sort_rows le l) = length l.
Proof. apply Permutation_length, sort_rows_perm. Qed.

Lemma tail_rows_length {A} n (l : list A) : length (tail_rows n l) = Nat.min n (length l).
Proof. unfold tail_rows. rewrite length_drop. lia. Qed.

Lemma tail_rows_sublist {A} n (l : list A) : tail_rows n l `sublist_of` l.
Proof. apply sublist_drop. Qed.

Lemma tail_rows_min {A} n (l : list A) :
  tail_rows n l = tail_rows (Nat.min n (length l)) l.
Proof. unfold tail_rows. f_equal. lia. Qed.

Lemma zip_with_map_self {A B C} (f : B -> A -> C) (h : A -> B) (l : list A) :
  zip_with f (map h l) l = map (fun x => f (h x) x) l.
Proof. induction l as [|x l IH]; simpl; [done|]. by rewrite IH. Qed.

Lemma zip_with_replicate_length {A B C} (f : B -> A -> C) (v : B) (l : list A) :
  zip_with f (replicate (length l) v) l = map (f v) l.
Proof. induction l as [|x l IH]; simpl; [done|]. by rewrite IH. Qed.

Lemma row_get_index c df i r : index_of c (columns df) = Some i -> row_get c df r = get i r.
Proof. unfold row_get. by intros ->. Qed.

Lemma occurrences_has_column c df :
  (0 < occurrences c (columns df))%nat -> has_column c df = true.
Proof.
  unfold has_column, occurrences.
  induction (columns df) as [|l ls IH]; simpl; [lia|].
  destruct (String.eqb c l); [done|]. simpl. apply IH.
Qed.

Lemma index_of_In c labels i : index_of c labels = Some i -> In c labels.
Proof.
  revert i. induction labels as [|l labels IH]; intros i; simpl; [done|].
  destruct (String.eqb c l) eqn:E.
  - intros _. left. apply String.eqb_eq in E. by subst.
  - destruct (index_of c labels) as [k|]; simpl; [|done]. intros _. right. by eapply IH.
Qed.

(** On a frame whose labels are all different a label that is there names
    one column, and selecting it gives that column. *)
Lemma unique_labels_occurrences df c i :
  unique_labels df = true ->
  index_of c (columns df) = Some i ->
  occurrences c (columns df) = 1%nat.
Proof.
  intros Hu Hi. unfold unique_labels in Hu.
  apply Nat.eqb_eq. apply (proj1 (forallb_forall _ _) Hu). by eapply index_of_In.
Qed.

Lemma label_index_once e c df i :
  occurrences c (columns df) = 1%nat ->
  index_of c (columns df) = Some i ->
  label_index e c df = Ok i.
Proof. intros Hocc Hi. unfold label_index. by rewrite Hi, Hocc. Qed.

Lemma label_index_unique e c df i :
  unique_labels df = true ->
  index_of c (columns df) = Some i ->
  label_index e c df = Ok i.
Proof.
  intros Hu Hi. apply label_index_once; [|done]. by eapply unique_labels_occurrences.
Qed.

Lemma has_column_occurrences c df :
  has_column c df = true -> (0 < occurrences c (columns df))%nat.
Proof.
  unfold has_column, occurrences.
  induction (columns df) as [|l ls IH]; simpl; [done|].
  destruct (String.eqb c l); simpl; [lia|done].
Qed.

Lemma occurrences_app c l k :
  occurrences c (l ++ k) = (occurrences c l + occurrences c k)%nat.
Proof. unfold occurrences. by rewrite List.filter_app, length_app. Qed.

Lemma label_index_repeated e c df :
  (1 < occurrences c (columns df))%nat -> label_index e c df = Raise e.
Proof.
  intros Hocc. unfold label_index.
  assert (Hh : has_column c df = true) by (apply occurrences_has_column; lia).
  apply has_column_index in Hh as [i ->].
  by destruct (Nat.ltb_spec 1 (occurrences c (columns df))); [|lia].
Qed.

Lemma unique_labels_columns a b :
  columns a = columns b -> unique_labels a = unique_labels b.
Proof. intros H. unfold unique_labels. by rewrite H. Qed.

Lemma positions_from_none n c labels :
  occurrences c labels = 0%nat -> positions_from n c labels = [].
Proof.
  revert n. unfold occurrences.
  induction labels as [|l labels IH]; intros n; simpl; [done|].
  destruct (String.eqb c l); simpl; [done|]. apply IH.
Qed.

Lemma positions_from_one n c labels i :
  occurrences c labels = 1%nat ->
  index_of c labels = Some i ->
  positions_from n c labels = [(n + i)%nat].
Proof.
  revert n i. unfold occurrences.
  induction labels as [|l labels IH]; intros n i; simpl; [done|].
  destruct (String.eqb c l); simpl.
  - intros [= Hocc] [= <-]. rewrite (positions_from_none _ _ _ Hocc).
    by rewrite Nat.add_0_r.
  - intros Hocc. destruct (index_of c labels) as [k|]; simpl; [|done].
    intros [= <-]. rewrite (IH (S n) k Hocc eq_refl). f_equal. lia.
Qed.

Lemma dict_set_fresh k v d :
  ~ In k (map fst d) -> dict_set k v d = d ++ [(k, v)].
Proof.
  induction d as [|[k' v'] d IH]; simpl; [done|]. intros Hk.
  destruct (String.eqb_spec k k') as [->|_]; [tauto|].
  rewrite IH; [done|]. tauto.
Qed.

Lemma dict_of_distinct items : List.NoDup (map fst items) -> dict_of items = items.
Proof.
  unfold dict_of.
  assert (H : forall d, List.NoDup (map fst (d ++ items)) ->
            foldl (fun d kv => dict_set (fst kv) (snd kv) d) d items = d ++ items).
  { induction items as [|[k v] items IH]; intros d Hd; simpl.
    - by rewrite app_nil_r.
    - rewrite dict_set_fresh.
      + rewrite IH; [by rewrite <- app_assoc|]. by rewrite <- app_assoc.
      + rewrite map_app in Hd. apply List.NoDup_remove_2 in Hd.
        intros Hin. apply Hd. apply in_or_app. by left. }
  intros Hn. by rewrite (H []).
Qed.

(* ===================================================================== *)
(** ** The loader *)
(* ===================================================================== *)

Section Loader.

Variable to_datetime_cell : list value -> value -> option Timestamp.

(** What a successful [load_df] returns, row by row. *)
Lemma load_df_Ok csv DF :
  load_df to_datetime_cell csv = Ok DF ->
  let df := normalize_columns csv in
  exists i,
    index_of "date" (columns df) = Some i /\
    has_column "location" df = true /\
    columns DF = (if has_column "location_level" df then columns df
                  else columns df ++ ["location_level"]) /\
    rows DF =
      map (fun r => if has_column "location_level" df then r
                    else set_cell (length (columns df)) (Str "Unknown") r)
          (List.filter (fun r => notna (get i r))
             (map (fun r => set_cell i
                              (coerce (to_datetime_cell (series i df) (get i r))) r)
                  (rows csv))).
Proof.
  intros H df. unfold load_df in H. fold df in H.
  destruct (has_column "date" df) eqn:Hd; [|done].
  destruct (has_column "location" df) eqn:Hl; [|done].
  cbn [negb] in H. unfold to_datetime_column in H.
  destruct (index_of "date" (columns df)) as [i|] eqn:Hi; [|done].
  destruct (1 <? occurrences "date" (columns df))%nat; [done|].
  cbn [bind] in H. unfold assign in H. rewrite Hi in H.
  unfold dropna, where_ in H. cbn [columns] in H. rewrite Hi in H. cbn [bind] in H.
  assert (E : zip_with (set_cell i)
                (map (fun v => coerce (to_datetime_cell (series i df) v)) (series i df))
                (rows df)
              = map (fun r => set_cell i
                                (coerce (to_datetime_cell (series i df) (get i r))) r)
                    (rows csv)).
  { unfold series at 2. rewrite map_map. apply zip_with_map_self. }
  rewrite E in H. clear E.
  change (has_column "location_level" (boolean_index i notna _))
    with (has_column "location_level" df) in H.
  exists i. split; [done|]. split; [done|].
  destruct (has_column "location_level" df) eqn:Hv; cbn [negb] in H.
  - injection H as <-. cbn [columns rows boolean_index]. split; [done|].
    by rewrite map_id.
  - apply has_column_false in Hv.
    unfold assign_scalar, assign in H. cbn [columns rows boolean_index] in H.
    rewrite Hv in H. injection H as <-. cbn [columns rows]. split; [done|].
    by rewrite zip_with_replicate_length.
Qed.

Lemma load_df_no_date csv :
  has_column "date" (normalize_columns csv) = false ->
  load_df to_datetime_cell csv =
  Raise (ValueError ("No date column found. Columns: "
                     ++ repr_labels (columns (normalize_columns csv)))).
Proof. intros H. unfold load_df. by rewrite H. Qed.

Lemma load_df_no_location csv :
  has_column "date" (normalize_columns csv) = true ->
  has_column "location" (normalize_columns csv) = false ->
  load_df to_datetime_cell csv =
  Raise (ValueError ("No location column found. Columns: "
                     ++ repr_labels (columns (normalize_columns csv)))).
Proof. intros Hd Hl. unfold load_df. by rewrite Hd, Hl. Qed.

(** With both required columns, and [date] named once, the load returns. *)
Lemma load_df_returns csv :
  has_column "date" (normalize_columns csv) = true ->
  has_column "location" (normalize_columns csv) = true ->
  (occurrences "date" (columns (normalize_columns csv)) <= 1)%nat ->
  exists DF, load_df to_datetime_cell csv = Ok DF.
Proof.
  intros Hd Hl Hocc. unfold load_df. rewrite Hd, Hl. cbn [negb].
  unfold to_datetime_column.
  apply has_column_index in Hd as [i Hi]. rewrite Hi.
  destruct (Nat.ltb_spec 1 (occurrences "date" (columns (normalize_columns csv))));
    [lia|].
  cbn [bind]. unfold dropna, where_, assign. rewrite Hi. cbn [columns]. rewrite Hi.
  cbn [bind]. eauto.
Qed.

(** With [date] named twice the load raises, though nothing is missing. *)
Lemma load_df_repeated_date csv :
  has_column "location" (normalize_columns csv) = true ->
  (1 < occurrences "date" (columns (normalize_columns csv)))%nat ->
  load_df to_datetime_cell csv = Raise (ValueError "cannot assemble with duplicate keys").
Proof.
  intros Hl Hocc. unfold load_df.
  assert (Hd : has_column "date" (normalize_columns csv) = true).
  { apply occurrences_has_column. lia. }
  rewrite Hd, Hl. cbn [negb]. unfold to_datetime_column.
  apply has_column_index in Hd as [i Hi]. rewrite Hi.
  by destruct (Nat.ltb_spec 1 (occurrences "date" (columns (normalize_columns csv))));
    [|lia].
Qed.

(** The frame the loader returns has the three columns the requests read
    and a timestamp in every date cell. *)
Lemma load_df_dataset_ok csv DF :
  load_df to_datetime_cell csv = Ok DF -> dataset_ok DF = true.
Proof.
  intros H. pose proof H as Hload.
  apply load_df_Ok in H as (i & Hi & Hl & Hcols & Hrows).
  set (df := normalize_columns csv) in *.
  assert (Hi' : index_of "date" (columns DF) = Some i).
  { rewrite Hcols. destruct (has_column "location_level" df); [done|].
    by apply index_of_app_l. }
  assert (Hd' : has_column "date" DF = true) by (apply has_column_index; eauto).
  assert (Hl' : has_column "location" DF = true).
  { apply has_column_index in Hl as [j Hj]. apply has_column_index. exists j.
    rewrite Hcols. destruct (has_column "location_level" df); [done|].
    by apply index_of_app_l. }
  assert (Hv' : has_column "location_level" DF = true).
  { destruct (has_column "location_level" df) eqn:Hv.
    - unfold has_column in *. by rewrite Hcols.
    - unfold has_column. rewrite Hcols, existsb_app. simpl. by rewrite orb_true_r. }
  unfold dataset_ok. rewrite Hd', Hl', Hv'. cbn [andb].
  apply forallb_forall. intros r' Hr'. unfold valid_date.
  rewrite (row_get_index _ _ _ _ Hi').
  rewrite Hrows in Hr'. apply in_map_iff in Hr' as (r1 & <- & Hr1).
  apply filter_In in Hr1 as [Hr1 Hna].
  assert (Hts : is_timestamp (get i r1) = true).
  { apply in_map_iff in Hr1 as (r0 & <- & _). rewrite get_set_cell_eq in *.
    by destruct (to_datetime_cell _ _). }
  destruct (has_column "location_level" df); [done|].
  rewrite get_set_cell_ne; [done|]. apply index_of_lt in Hi. lia.
Qed.

(** The frame the loader returns names [date] once. *)
Lemma load_df_date_once csv DF :
  load_df to_datetime_cell csv = Ok DF ->
  occurrences "date" (columns DF) = 1%nat.
Proof.
  intros H. pose proof H as (i & Hi & Hl & Hcols & _)%load_df_Ok.
  set (df := normalize_columns csv) in *.
  assert (Hd : has_column "date" df = true) by (apply has_column_index; eauto).
  pose proof (has_column_occurrences _ _ Hd) as Hpos.
  assert (Hone : occurrences "date" (columns df) = 1%nat).
  { destruct (decide (1 < occurrences "date" (columns df))%nat) as [Hocc|Hocc]; [|lia].
    rewrite (load_df_repeated_date csv Hl Hocc) in H. discriminate H. }
  rewrite Hcols. destruct (has_column "location_level" df); [done|].
  rewrite occurrences_app, Hone. reflexivity.
Qed.

(** C1 (as the code has it): with a table whose labels [Date] and [date]
    both normalise to [date], no required column is missing after the
    normalisation, and yet the load raises: pandas' [to_datetime] refuses
    the two-column selection [df["date"]]. *)
Theorem load_df_two_dates_raises :
  has_column "date" (normalize_columns Sample.csv_two_dates) = true /\
  has_column "location" (normalize_columns Sample.csv_two_dates) = true /\
  load_df to_datetime_cell Sample.csv_two_dates =
    Raise (ValueError "cannot assemble with duplicate keys").
Proof.
  split; [reflexivity|]. split; [reflexivity|].
  apply load_df_repeated_date; [reflexivity|]. vm_compute. lia.
Qed.

(** C4 (amended): every Record of the Dataset the loader returns has a
    valid, parsed date, and the Dataset has its [date], [location] and
    [location_level] columns.  (The value of [location] in a Record is not
    checked by the loader.) *)
Theorem loaded_records_have_dates csv DF :
  load_df to_datetime_cell csv = Ok DF ->
  has_column "date" DF = true /\
  has_column "location" DF = true /\
  has_column "location_level" DF = true /\
  Forall (fun r => exists t, row_get "date" DF r = Ts t) (rows DF).
Proof.
  intros H%load_df_dataset_ok. unfold dataset_ok in H.
  apply andb_prop in H as [H Hrows]. apply andb_prop in H as [H Hv].
  apply andb_prop in H as [Hd Hl]. repeat split; try done.
  apply Forall_forall. intros r Hr%list_elem_of_In.
  pose proof (proj1 (forallb_forall _ _) Hrows r Hr) as Hts.
  unfold valid_date in Hts. destruct (row_get "date" DF r); try done. eauto.
Qed.

(** C6: whatever the date cells hold, a table with its [date] and
    [location] columns loads: the load returns a Dataset and raises nothing.
    The Dataset holds, in their order, exactly the raw rows whose date cell
    parses, each with the timestamp in place of the date cell and its other
    cells as they were; so a row whose date fails to parse is not in the
    Dataset, and the Dataset has at most as many Records as the table has
    rows. *)
Theorem load_df_drops_unparsed csv :
  has_column "date" (normalize_columns csv) = true ->
  has_column "location" (normalize_columns csv) = true ->
  (occurrences "date" (columns (normalize_columns csv)) <= 1)%nat ->
  exists DF i,
    load_df to_datetime_cell csv = Ok DF /\
    index_of "date" (columns (normalize_columns csv)) = Some i /\
    let parsed r := to_datetime_cell (series i csv) (get i r) in
    (length (rows DF) <= length (rows csv))%nat /\
    Forall2
      (fun r r' =>
         exists t, parsed r = Some t /\ get i r' = Ts t /\
           forall j, j <> i -> (j < length (columns csv))%nat -> get j r' = get j r)
      (List.filter (fun r => bool_decide (is_Some (parsed r))) (rows csv))
      (rows DF).
Proof.
  intros Hd Hl Hocc.
  destruct (load_df_returns csv Hd Hl Hocc) as [DF H].
  exists DF. pose proof H as Hload.
  apply load_df_Ok in H as (i & Hi & _ & _ & Hrows).
  exists i. split; [done|]. split; [done|]. intros parsed.
  change (series i (normalize_columns csv)) with (series i csv) in Hrows.
  assert (Hw : (i < length (columns csv))%nat).
  { apply index_of_lt in Hi. simpl in Hi. by rewrite length_map in Hi. }
  change (columns (normalize_columns csv))
    with (map normalize_label (columns csv)) in Hrows.
  rewrite length_map in Hrows.
  rewrite Hrows. clear Hrows Hload. split.
  - rewrite length_map. etransitivity; [apply sublist_length, filter_sublist|].
    by rewrite length_map.
  - induction (rows csv) as [|r rs IH]; simpl; [constructor|].
    rewrite get_set_cell_eq. fold (parsed r).
    destruct (parsed r) as [t|] eqn:Hp; simpl.
    + constructor; [|exact IH].
      exists t. split; [done|].
      destruct (has_column "location_level" (normalize_columns csv)).
      * rewrite get_set_cell_eq. split; [done|].
        intros j Hj _. by rewrite get_set_cell_ne.
      * rewrite get_set_cell_ne by lia. rewrite get_set_cell_eq. split; [done|].
        intros j Hj Hlt. rewrite get_set_cell_ne by lia. by rewrite get_set_cell_ne.
    + exact IH.
Qed.

End Loader.

(* ===================================================================== *)
(** ** The Filter Evaluator *)
(* ===================================================================== *)

Lemma is_view_refl df : is_view df df.
Proof. by split. Qed.

Lemma is_view_trans u v df : is_view u v -> is_view v df -> is_view u df.
Proof. intros [Hc Hr] [Hc' Hr']. split; [congruence|]. by etransitivity. Qed.

Lemma has_column_view c v df : is_view v df -> has_column c v = has_column c df.
Proof. intros [Hc _]. unfold has_column. by rewrite Hc. Qed.

Lemma row_get_view c v df r : is_view v df -> row_get c v r = row_get c df r.
Proof. intros [Hc _]. unfold row_get. by rewrite Hc. Qed.

Lemma row_get_columns c a b r : columns a = columns b -> row_get c a r = row_get c b r.
Proof. intros H. unfold row_get. by rewrite H. Qed.

Lemma filter_filter {A} (p q : A -> bool) l :
  List.filter p (List.filter q l) = List.filter (fun x => q x && p x) l.
Proof.
  induction l as [|x l IH]; simpl; [done|].
  destruct (q x); simpl; [|done]. destruct (p x); by rewrite IH.
Qed.

Lemma filter_none {A} (p : A -> bool) l :
  (forall x, p x = false) -> List.filter p l = [].
Proof. intros H. induction l as [|x l IH]; simpl; [done|]. by rewrite H. Qed.

Lemma filter_all {A} (l : list A) : List.filter (fun _ => true) l = l.
Proof. induction l as [|x l IH]; simpl; [done|]. by rewrite IH. Qed.

(** One mask on a frame with the labels of [df], a label named once. *)
Lemma filter_by_filtered c p df rs i :
  unique_labels df = true ->
  index_of c (columns df) = Some i ->
  filter_by c p {| columns := columns df; rows := rs |} =
  Ok {| columns := columns df;
        rows := List.filter (fun r => p (row_get c df r)) rs |}.
Proof.
  intros Hu Hi. unfold filter_by.
  rewrite (label_index_unique _ c _ i); [|done|done].
  cbn [bind]. unfold boolean_index. cbn [columns rows].
  do 2 f_equal. apply filter_ext. intros r. by rewrite (row_get_index _ _ _ _ Hi).
Qed.

Lemma filter_by_view c p u w : filter_by c p u = Ok w -> is_view w u.
Proof.
  unfold filter_by. destruct (label_index _ c u) as [i|]; [|done]. cbn [bind].
  intros [= <-]. split; [done|]. apply filter_sublist.
Qed.

(** With a repeated label the mask is refused. *)
Lemma filter_by_repeated c p df :
  (1 < occurrences c (columns df))%nat ->
  exists msg, filter_by c p df = Raise (ValueError msg).
Proof.
  intros Hocc. unfold filter_by. rewrite label_index_repeated by done. simpl. eauto.
Qed.

Section Filter.

Variable to_datetime : string -> scalar.

(** What [apply_filters] returns on a frame with the three columns it reads,
    each label named once, for a Query whose date bounds carry no offset. *)
Lemma apply_filters_rows df args :
  has_column "date" df = true ->
  has_column "location" df = true ->
  has_column "location_level" df = true ->
  unique_labels df = true ->
  naive_bounds to_datetime args = true ->
  apply_filters to_datetime df args =
  Ok {| columns := columns df;
        rows := List.filter (satisfies to_datetime df args) (rows df) |}.
Proof.
  intros [id Hid]%has_column_index [il Hil]%has_column_index [iv Hiv]%has_column_index
         Hu [Hns Hne]%andb_prop.
  unfold apply_filters.
  set (c1 := fun r => clause (args !! "level")
                        (fun s => eq_str s (row_get "location_level" df r))).
  set (c2 := fun r => clause (args !! "location")
                        (fun s => eq_str s (row_get "location" df r))).
  set (c3 := fun r => clause (args !! "start")
                        (bound to_datetime ge_ts (row_get "date" df r))).
  set (c4 := fun r => clause (args !! "end")
                        (bound to_datetime le_ts (row_get "date" df r))).
  assert (E1 : forall u, u = {| columns := columns df; rows := rows u |} ->
             (if truthy (args !! "level")
              then filter_by "location_level" (eq_str (default "" (args !! "level"))) u
              else Ok u)
             = Ok {| columns := columns df; rows := List.filter c1 (rows u) |}).
  { intros u Hu'. unfold c1, clause, truthy. destruct (args !! "level") as [s|]; simpl.
    - destruct (PyStr.is_empty s); simpl; [by rewrite filter_all, <- Hu'|].
      rewrite Hu' at 1. by eapply filter_by_filtered.
    - by rewrite filter_all, <- Hu'. }
  assert (E2 : forall u, u = {| columns := columns df; rows := rows u |} ->
             (if truthy (args !! "location")
              then filter_by "location" (eq_str (default "" (args !! "location"))) u
              else Ok u)
             = Ok {| columns := columns df; rows := List.filter c2 (rows u) |}).
  { intros u Hu'. unfold c2, clause, truthy. destruct (args !! "location") as [s|]; simpl.
    - destruct (PyStr.is_empty s); simpl; [by rewrite filter_all, <- Hu'|].
      rewrite Hu' at 1. by eapply filter_by_filtered.
    - by rewrite filter_all, <- Hu'. }
  assert (E3 : forall u, u = {| columns := columns df; rows := rows u |} ->
             (if truthy (args !! "start")
              then date_filter ge_ts (to_datetime (default "" (args !! "start"))) u
              else Ok u)
             = Ok {| columns := columns df; rows := List.filter c3 (rows u) |}).
  { intros u Hu'. unfold c3, clause, truthy, bound. unfold clause in Hns.
    destruct (args !! "start") as [s|]; simpl.
    - destruct (PyStr.is_empty s); simpl; [by rewrite filter_all, <- Hu'|].
      destruct (to_datetime s); simpl; [by rewrite filter_all, <- Hu'| |done].
      rewrite Hu' at 1. by eapply filter_by_filtered.
    - by rewrite filter_all, <- Hu'. }
  assert (E4 : forall u, u = {| columns := columns df; rows := rows u |} ->
             (if truthy (args !! "end")
              then date_filter le_ts (to_datetime (default "" (args !! "end"))) u
              else Ok u)
             = Ok {| columns := columns df; rows := List.filter c4 (rows u) |}).
  { intros u Hu'. unfold c4, clause, truthy, bound. unfold clause in Hne.
    destruct (args !! "end") as [s|]; simpl.
    - destruct (PyStr.is_empty s); simpl; [by rewrite filter_all, <- Hu'|].
      destruct (to_datetime s); simpl; [by rewrite filter_all, <- Hu'| |done].
      rewrite Hu' at 1. by eapply filter_by_filtered.
    - by rewrite filter_all, <- Hu'. }
  rewrite E1 by (by destruct df). cbn [bind].
  rewrite E2 by done. cbn [bind rows].
  rewrite E3 by done. cbn [bind rows].
  rewrite E4 by done. cbn [bind rows].
  rewrite !filter_filter. do 2 f_equal. apply filter_ext. intros r.
  unfold satisfies. fold (c1 r) (c2 r) (c3 r) (c4 r).
  by rewrite !andb_assoc.
Qed.

Lemma date_filter_view cmp s u w : date_filter cmp s u = Ok w -> is_view w u.
Proof.
  destruct s as [|t|]; cbn [date_filter].
  - intros [= <-]. apply is_view_refl.
  - apply filter_by_view.
  - by destruct (label_index _ "date" u).
Qed.

(** What [apply_filters] returns is a View of the frame it was given. *)
Lemma apply_filters_is_view df args v :
  apply_filters to_datetime df args = Ok v -> is_view v df.
Proof.
  unfold apply_filters.
  destruct (if truthy (args !! "level") then _ else Ok df) as [u1|] eqn:E1; [|done].
  cbn [bind].
  destruct (if truthy (args !! "location") then _ else Ok u1) as [u2|] eqn:E2; [|done].
  cbn [bind].
  destruct (if truthy (args !! "start") then _ else Ok u2) as [u3|] eqn:E3; [|done].
  cbn [bind].
  destruct (if truthy (args !! "end") then _ else Ok u3) as [u4|] eqn:E4; [|done].
  cbn [bind]. intros [= <-].
  assert (H1 : is_view u1 df).
  { destruct (truthy (args !! "level")); [by eapply filter_by_view|].
    injection E1 as <-. apply is_view_refl. }
  assert (H2 : is_view u2 u1).
  { destruct (truthy (args !! "location")); [by eapply filter_by_view|].
    injection E2 as <-. apply is_view_refl. }
  assert (H3 : is_view u3 u2).
  { destruct (truthy (args !! "start")); [by eapply date_filter_view|].
    injection E3 as <-. apply is_view_refl. }
  assert (H4 : is_view u4 u3).
  { destruct (truthy (args !! "end")); [by eapply date_filter_view|].
    injection E4 as <-. apply is_view_refl. }
  eauto using is_view_trans.
Qed.

(** On such a frame [apply_filters] returns, and returns a View. *)
Lemma apply_filters_view df args :
  has_column "date" df = true ->
  has_column "location" df = true ->
  has_column "location_level" df = true ->
  unique_labels df = true ->
  naive_bounds to_datetime args = true ->
  exists v, apply_filters to_datetime df args = Ok v /\ is_view v df.
Proof.
  intros Hd Hl Hv Hu Hn. eexists. split; [by apply apply_filters_rows|].
  split; [done|]. apply filter_sublist.
Qed.

(** A clause that is absent, empty or, for a date, unparseable leaves the
    filter as it is without the clause: the same View, or the same
    exception. *)
Lemma apply_filters_ignores df args k s :
  k ∈ ["location"; "level"; "start"; "end"] ->
  s = "" \/ ((k = "start" \/ k = "end") /\ to_datetime s = NaT) ->
  apply_filters to_datetime df (<[k := s]> args) =
  apply_filters to_datetime df (delete k args).
Proof.
  intros Hk Hs. unfold apply_filters.
  assert (Hne : forall k', k' <> k ->
            (<[k := s]> args) !! k' = delete k args !! k').
  { intros k' Hk'. by rewrite lookup_insert_ne, lookup_delete_ne. }
  assert (Hset : (<[k := s]> args) !! k = Some s) by apply lookup_insert_eq.
  assert (Hdel : delete k args !! k = None) by apply lookup_delete_eq.
  repeat (apply elem_of_cons in Hk as [->|Hk]);
    [..|by apply elem_of_nil in Hk];
    rewrite Hset, Hdel, !Hne by done; unfold default; cbn [truthy from_option id].
  - destruct Hs as [->|[[?|?] _]]; done.
  - destruct Hs as [->|[[?|?] _]]; done.
  - destruct Hs as [->|[_ ->]]; [done|]. by destruct (negb (PyStr.is_empty s)).
  - destruct Hs as [->|[_ ->]]; [done|]. by destruct (negb (PyStr.is_empty s)).
Qed.

(** The bounds of a Query stay free of offsets when a clause is set to a
    text that is empty or no date, or is taken away. *)
Lemma naive_bounds_insert args k s :
  naive_bounds to_datetime args = true ->
  s = "" \/ to_datetime s = NaT ->
  naive_bounds to_datetime (<[k := s]> args) = true.
Proof.
  intros [H1 H2]%andb_prop Hs. unfold naive_bounds.
  assert (Hc : clause (Some s) (fun s => naive (to_datetime s)) = true).
  { unfold clause. destruct Hs as [->|Hs]; [done|]. rewrite Hs. by destruct (PyStr.is_empty s). }
  apply andb_true_intro. split.
  - destruct (decide (k = "start")) as [->|Hk].
    + by rewrite lookup_insert_eq.
    + by rewrite lookup_insert_ne.
  - destruct (decide (k = "end")) as [->|Hk].
    + by rewrite lookup_insert_eq.
    + by rewrite lookup_insert_ne.
Qed.

Lemma naive_bounds_delete args k :
  naive_bounds to_datetime args = true ->
  naive_bounds to_datetime (delete k args) = true.
Proof.
  intros [H1 H2]%andb_prop. unfold naive_bounds.
  apply andb_true_intro. split.
  - destruct (decide (k = "start")) as [->|Hk].
    + by rewrite lookup_delete_eq.
    + by rewrite lookup_delete_ne.
  - destruct (decide (k = "end")) as [->|Hk].
    + by rewrite lookup_delete_eq.
    + by rewrite lookup_delete_ne.
Qed.

End Filter.

Lemma satisfies_columns to_datetime a b args r :
  columns a = columns b -> satisfies to_datetime a args r = satisfies to_datetime b args r.
Proof.
  intros H. unfold satisfies.
  by rewrite !(row_get_columns _ a b r H).
Qed.

Lemma dataset_ok_columns DF :
  dataset_ok DF = true ->
  has_column "date" DF = true /\ has_column "location" DF = true /\
  has_column "location_level" DF = true.
Proof.
  unfold dataset_ok. intros [[[? ?]%andb_prop ?]%andb_prop _]%andb_prop. done.
Qed.

(* ===================================================================== *)
(** ** Sorting and the reductions *)
(* ===================================================================== *)

Lemma forallb_Forall {A} (f : A -> bool) l :
  forallb f l = true <-> Forall (fun x => f x = true) l.
Proof.
  induction l as [|x l IH]; simpl.
  - split; [constructor|done].
  - rewrite andb_true_iff, IH, Forall_cons. done.
Qed.

Lemma Forall_sublist_of {A} (P : A -> Prop) l k :
  l `sublist_of` k -> Forall P k -> Forall P l.
Proof.
  induction 1 as [|x l k _ IH|x l k _ IH]; [done|..].
  - intros [Hx Hk]%Forall_cons. constructor; [done|]. by apply IH.
  - intros [_ Hk]%Forall_cons. by apply IH.
Qed.

Lemma key_le_total i r1 r2 : key_le i r1 r2 = false -> key_le i r2 r1 = true.
Proof.
  unfold key_le. destruct (get i r1), (get i r2); try done.
  intros H%Z.leb_gt. apply Z.leb_le. lia.
Qed.

Lemma key_le_refl i r : key_le i r r = true.
Proof. unfold key_le. destruct (get i r); try done. apply Z.leb_refl. Qed.

Lemma key_le_trans i a b c :
  key_le i a b = true -> key_le i b c = true -> key_le i a c = true.
Proof.
  unfold key_le. destruct (get i a), (get i b), (get i c); try done.
  rewrite !Z.leb_le. lia.
Qed.

Lemma insert_row_sorted i r l :
  Sorted (fun a b => key_le i a b = true) l ->
  Sorted (fun a b => key_le i a b = true) (insert_row (key_le i) r l).
Proof.
  induction 1 as [|x l Hs IH Hhd]; simpl.
  - repeat constructor.
  - destruct (key_le i r x) eqn:E.
    + constructor; [by constructor|by constructor].
    + constructor; [exact IH|].
      destruct l as [|y l]; simpl.
      * constructor. by apply key_le_total.
      * destruct (key_le i r y); constructor.
        -- by apply key_le_total.
        -- by inversion Hhd.
Qed.

Lemma sort_rows_sorted i l :
  Sorted (fun a b => key_le i a b = true) (sort_rows (key_le i) l).
Proof.
  induction l as [|x l IH]; simpl; [constructor|]. by apply insert_row_sorted.
Qed.

(** The sort of the runs is one of the sorts pandas may be. *)
Lemma stable_sort_ascending : ascending_sort stable_sort.
Proof.
  intros i l. split; [apply sort_rows_perm|apply sort_rows_sorted].
Qed.

Lemma Sorted_weaken {A} (R R' : A -> A -> Prop) l :
  (forall a b, R a b -> R' a b) -> Sorted R l -> Sorted R' l.
Proof.
  intros HR. induction 1 as [|x l _ IH Hhd]; constructor; [done|].
  destruct Hhd; constructor. by apply HR.
Qed.

Section Sorting.

Variable sort_by : nat -> list Row -> list Row.
Hypothesis sort_asc : ascending_sort sort_by.

Lemma sort_by_perm i l : sort_by i l ≡ₚ l.
Proof. apply sort_asc. Qed.

Lemma sort_by_sorted i l : Sorted (fun a b => key_le i a b = true) (sort_by i l).
Proof. apply sort_asc. Qed.

Lemma sort_by_length i l : length (sort_by i l) = length l.
Proof. apply Permutation_length, sort_by_perm. Qed.

(** [sort_values] orders the rows by date, ascending, and keeps them all. *)
Lemma sort_values_sorted_by_date v sorted :
  sort_values sort_by "date" v = Ok sorted -> sorted_by_date sorted v.
Proof.
  unfold sort_values, label_index.
  destruct (index_of "date" (columns v)) as [i|] eqn:Hi; [|done].
  destruct (1 <? occurrences "date" (columns v))%nat; [done|]. cbn [bind].
  intros [= <-]. split; [done|]. split; [apply sort_by_perm|]. cbn [rows].
  eapply Sorted_weaken; [|apply (sort_by_sorted i)].
  intros a b Hab x y Hx Hy. cbn beta in Hab.
  rewrite (row_get_index "date" _ i) in Hx, Hy by done.
  unfold key_le in Hab. rewrite Hx, Hy in Hab. by apply Z.leb_le.
Qed.

Lemma sort_values_Ok v i :
  occurrences "date" (columns v) = 1%nat ->
  index_of "date" (columns v) = Some i ->
  sort_values sort_by "date" v =
  Ok {| columns := columns v; rows := sort_by i (rows v) |}.
Proof.
  intros Hu H. unfold sort_values. by rewrite (label_index_once _ _ _ i Hu H).
Qed.

End Sorting.

Lemma timestamps_valid cells :
  Forall (fun v => is_timestamp v = true) cells ->
  exists ts, timestamps cells = Ok ts /\ map Ts ts = cells.
Proof.
  induction 1 as [|v cells Hv _ (ts & Hts & <-)]; [by exists []|].
  destruct v as [| | |t]; try done. exists (t :: ts). simpl. by rewrite Hts.
Qed.

Lemma foldl_min_least t ts :
  foldl Z.min t ts ∈ t :: ts /\ Forall (fun x => foldl Z.min t ts <= x) (t :: ts).
Proof.
  revert t. induction ts as [|u ts IH]; intros t; simpl.
  - split; [apply list_elem_of_here|]. repeat constructor. lia.
  - destruct (IH (Z.min t u)) as [Hin Hall]. apply Forall_cons in Hall as [H1 H2].
    split.
    + apply elem_of_cons in Hin as [Hin|Hin]; [|by do 2 apply list_elem_of_further].
      rewrite Hin. destruct (Z.min_spec t u) as [[_ ->]|[_ ->]].
      * apply list_elem_of_here.
      * apply list_elem_of_further, list_elem_of_here.
    + repeat (constructor; [lia|]). exact H2.
Qed.

Lemma foldl_max_greatest t ts :
  foldl Z.max t ts ∈ t :: ts /\ Forall (fun x => x <= foldl Z.max t ts) (t :: ts).
Proof.
  revert t. induction ts as [|u ts IH]; intros t; simpl.
  - split; [apply list_elem_of_here|]. repeat constructor. lia.
  - destruct (IH (Z.max t u)) as [Hin Hall]. apply Forall_cons in Hall as [H1 H2].
    split.
    + apply elem_of_cons in Hin as [Hin|Hin]; [|by do 2 apply list_elem_of_further].
      rewrite Hin. destruct (Z.max_spec t u) as [[_ ->]|[_ ->]].
      * apply list_elem_of_further, list_elem_of_here.
      * apply list_elem_of_here.
    + repeat (constructor; [lia|]). exact H2.
Qed.

(** Within the 64-bit range nothing wraps. *)
Lemma wrap64_small z : - 2 ^ 63 <= z < 2 ^ 63 -> wrap64 z = z.
Proof.
  intros H. unfold wrap64. rewrite Z.mod_small; lia.
Qed.

Lemma small_count_count0 v : small_count v = true -> Z.abs (count0 v) <= 2 ^ 50.
Proof. destruct v; simpl; lia. Qed.

(** Counts add up to a number; small counts add up to their sum. *)
Lemma sum_from_counts cells acc :
  Forall (fun v => is_count v = true) cells ->
  exists n,
    sum_from (Num acc) (map fillna0 cells) = Ok (Num n) /\
    (Forall (fun v => small_count v = true) cells ->
     Z.abs acc + 2 ^ 50 * Z.of_nat (length cells) <= 2 ^ 62 ->
     n = acc + total (map count0 cells)).
Proof.
  intros H. revert acc. induction H as [|v cells Hv _ IH]; intros acc.
  - exists acc. split; [done|]. intros _ _. simpl. lia.
  - assert (Hadd : add (Num acc) (fillna0 v) = Ok (Num (wrap64 (acc + count0 v)))).
    { by destruct v. }
    destruct (IH (wrap64 (acc + count0 v))) as (n & Hn & Hsmall).
    exists n. cbn [map sum_from]. rewrite Hadd. cbn [bind]. split; [done|].
    intros [Hs Hrest]%Forall_cons Hb. apply small_count_count0 in Hs.
    rewrite length_cons, Nat2Z.inj_succ in Hb.
    assert (Hw : wrap64 (acc + count0 v) = acc + count0 v).
    { apply wrap64_small. lia. }
    rewrite Hsmall; [|done|rewrite Hw; lia]. rewrite Hw. simpl. unfold total. simpl. lia.
Qed.

Lemma sum_counts cells :
  Forall (fun v => is_count v = true) cells ->
  exists n,
    sum (map fillna0 cells) = Ok (Num n) /\
    (Forall (fun v => small_count v = true) cells ->
     (length cells <= 7)%nat ->
     n = total (map count0 cells)).
Proof.
  intros H. destruct H as [|v cells Hv H].
  - exists 0. by split.
  - destruct (sum_from_counts cells (count0 v) H) as (n & Hn & Hsmall).
    exists n. cbn [map sum]. split.
    + destruct v; try done.
    + intros [Hs Hrest]%Forall_cons Hlen. apply small_count_count0 in Hs.
      rewrite Hsmall; [done|done|]. simpl in Hlen. lia.
Qed.

(* ===================================================================== *)
(** ** The Aggregator *)
(* ===================================================================== *)

Lemma Forall_sorted_view {P : Row -> Prop} (s v df : DataFrame) :
  is_view v df -> rows s ≡ₚ rows v -> Forall P (rows df) -> Forall P (rows s).
Proof.
  intros [_ Hsub] Hperm H. rewrite Hperm. by eapply Forall_sublist_of.
Qed.

Lemma numeric_column_Forall c df :
  numeric_column c df = true <->
  Forall (fun r => is_count (row_get c df r) = true) (rows df).
Proof. apply forallb_Forall. Qed.

Lemma numeric_fields_column c df :
  numeric_fields df = true ->
  c ∈ ["new_cases"; "new_deaths"; "total_cases"; "total_deaths"] ->
  numeric_column c df = true.
Proof.
  unfold numeric_fields. rewrite forallb_Forall, Forall_forall. auto.
Qed.

Lemma small_counts_column c df :
  small_counts df = true ->
  c ∈ ["new_cases"; "new_deaths"] ->
  Forall (fun r => small_count (row_get c df r) = true) (rows df).
Proof.
  unfold small_counts. rewrite forallb_Forall, Forall_forall.
  intros H Hc. apply forallb_Forall. by apply H.
Qed.

Lemma lookup_with_total_ne c df last kpi key :
  key <> c -> with_total c df last kpi !! key = kpi !! key.
Proof.
  intros Hne. unfold with_total.
  destruct (_ && _); [|done]. by rewrite lookup_insert_ne.
Qed.

Lemma lookup_with_total_eq c df last kpi :
  kpi !! c = None ->
  with_total c df last kpi !! c =
  if has_column c df && notna (row_get c df last)
  then Some (Num (count0 (row_get c df last)))
  else None.
Proof.
  intros Hnone. unfold with_total.
  destruct (_ && _); [|done]. by rewrite lookup_insert_eq.
Qed.

Lemma lookup_with_7d_ne c k df n kpi key :
  key <> k -> with_7d c k df n kpi !! key = kpi !! key.
Proof.
  intros Hne. unfold with_7d.
  destruct (has_column c df); [|done]. by rewrite lookup_insert_ne.
Qed.

Lemma lookup_with_7d_eq c k df n kpi :
  kpi !! k = None ->
  with_7d c k df n kpi !! k =
  if has_column c df then Some (Num n) else None.
Proof.
  intros Hnone. unfold with_7d.
  destruct (has_column c df); [|done]. by rewrite lookup_insert_eq.
Qed.

(** Membership in a list that is written out. *)
Ltac in_list :=
  repeat first [apply list_elem_of_here | apply list_elem_of_further].

Lemma numeric_sorted c DF v sorted :
  numeric_fields DF = true ->
  c ∈ ["new_cases"; "new_deaths"; "total_cases"; "total_deaths"] ->
  is_view v DF -> columns sorted = columns DF -> rows sorted ≡ₚ rows v ->
  numeric_column c sorted = true.
Proof.
  intros Hnum Hc Hview Hcols Hperm.
  pose proof (numeric_fields_column c DF Hnum Hc) as H%numeric_column_Forall.
  apply numeric_column_Forall.
  eapply Forall_impl; [exact (Forall_sorted_view sorted v DF Hview Hperm H)|].
  intros r Hr. simpl in *. by rewrite (row_get_columns c sorted DF r Hcols).
Qed.

Lemma small_sorted c DF v sorted :
  small_counts DF = true ->
  c ∈ ["new_cases"; "new_deaths"] ->
  is_view v DF -> columns sorted = columns DF -> rows sorted ≡ₚ rows v ->
  Forall (fun r => small_count (row_get c sorted r) = true) (rows sorted).
Proof.
  intros Hsmall Hc Hview Hcols Hperm.
  pose proof (small_counts_column c DF Hsmall Hc) as H.
  eapply Forall_impl; [exact (Forall_sorted_view sorted v DF Hview Hperm H)|].
  intros r Hr. simpl in *. by rewrite (row_get_columns c sorted DF r Hcols).
Qed.

Section Aggregator.

Variable to_datetime : string -> scalar.
Variable py_int : string -> option Z.
Variable sort_by : nat -> list Row -> list Row.
Hypothesis sort_asc : ascending_sort sort_by.

Lemma kpi_total_Ok c df last kpi :
  unique_labels df = true ->
  is_count (row_get c df last) = true ->
  kpi_total py_int c df last kpi = Ok (with_total c df last kpi).
Proof.
  intros Hu Hc. unfold kpi_total, with_total.
  destruct (has_column c df) eqn:Hh; [|done]. cbn [andb].
  apply has_column_index in Hh as [i Hi].
  rewrite (label_index_unique _ _ _ i Hu Hi). cbn [bind].
  rewrite (row_get_index _ _ _ _ Hi) in *.
  by destruct (get i last).
Qed.

(** The trailing sum of a column of counts: a number, and the sum of the
    last seven cells when the counts are small. *)
Lemma kpi_7d_Ok c key df kpi :
  unique_labels df = true ->
  numeric_column c df = true ->
  exists n,
    kpi_7d py_int c key df kpi = Ok (with_7d c key df n kpi) /\
    (Forall (fun r => small_count (row_get c df r) = true) (rows df) ->
     n = trailing_sum c 7 df).
Proof.
  intros Hu Hn%numeric_column_Forall. unfold kpi_7d, with_7d.
  destruct (has_column c df) eqn:Hh; [|by exists (trailing_sum c 7 df)].
  apply has_column_index in Hh as [i Hi].
  change (label_index ?e c (tail 7 df)) with (label_index e c df).
  rewrite (label_index_unique _ _ _ i Hu Hi). cbn [bind].
  unfold series. cbn [rows tail].
  destruct (sum_counts (map (get i) (tail_rows 7 (rows df)))) as (n & Hsum & Hsmall).
  { apply Forall_map. eapply Forall_sublist_of; [apply tail_rows_sublist|].
    eapply Forall_impl; [exact Hn|]. intros r Hr. simpl.
    by rewrite <- (row_get_index _ _ _ _ Hi). }
  exists n. rewrite Hsum. cbn [bind int]. split; [done|].
  intros Hs. rewrite Hsmall.
  - unfold trailing_sum. rewrite map_map.
    f_equal. apply map_ext. intros r. by rewrite (row_get_index _ _ _ _ Hi).
  - apply Forall_map. eapply Forall_sublist_of; [apply tail_rows_sublist|].
    eapply Forall_impl; [exact Hs|]. intros r Hr. simpl.
    by rewrite <- (row_get_index _ _ _ _ Hi).
  - rewrite length_map, tail_rows_length. lia.
Qed.

(** A View of a well-formed Dataset, and its sorted form. *)
Lemma sorted_view DF v :
  dataset_ok DF = true ->
  occurrences "date" (columns DF) = 1%nat ->
  is_view v DF ->
  exists sorted i,
    sort_values sort_by "date" v = Ok sorted /\
    index_of "date" (columns DF) = Some i /\
    columns sorted = columns DF /\
    rows sorted = sort_by i (rows v) /\
    Forall (fun r => is_timestamp (get i r) = true) (rows sorted).
Proof.
  intros Hok Hocc Hview. unfold dataset_ok in Hok.
  apply andb_prop in Hok as [Hok Hrows]. apply andb_prop in Hok as [Hok Hv].
  apply andb_prop in Hok as [Hd Hl].
  pose proof Hd as [i Hi]%has_column_index.
  assert (Hiv : index_of "date" (columns v) = Some i) by (by rewrite (proj1 Hview)).
  assert (Hov : occurrences "date" (columns v) = 1%nat) by (by rewrite (proj1 Hview)).
  eexists _, i. split; [by apply sort_values_Ok|].
  split; [done|]. split; [apply Hview|]. split; [done|].
  cbn [rows]. apply forallb_Forall in Hrows.
  rewrite (sort_by_perm sort_by sort_asc). eapply Forall_sublist_of; [apply Hview|].
  eapply Forall_impl; [exact Hrows|]. intros r Hr. simpl.
  unfold valid_date in Hr. by rewrite (row_get_index _ _ _ _ Hi) in Hr.
Qed.

(** [summary] on a non-empty View, up to the first optional KPI. *)
Lemma summary_reaches_totals DF args v :
  dataset_ok DF = true ->
  occurrences "date" (columns DF) = 1%nat ->
  apply_filters to_datetime DF args = Ok v ->
  rows v <> [] ->
  exists sorted lst tmin tmax,
    sort_values sort_by "date" v = Ok sorted /\
    columns sorted = columns DF /\
    rows sorted ≡ₚ rows v /\
    last (rows sorted) = Some lst /\
    (Ts tmin ∈ map (row_get "date" DF) (rows v) /\
     Forall (fun r => forall t, row_get "date" DF r = Ts t -> tmin <= t) (rows v)) /\
    (Ts tmax ∈ map (row_get "date" DF) (rows v) /\
     Forall (fun r => forall t, row_get "date" DF r = Ts t -> t <= tmax) (rows v)) /\
    summary to_datetime py_int sort_by DF args =
    (let kpi0 := <["max_date" := Str (Calendar.isoformat (Calendar.date tmax))]>
                   (<["min_date" := Str (Calendar.isoformat (Calendar.date tmin))]> ∅) in
     let* kpi := kpi_total py_int "total_cases" sorted lst kpi0 in
     let* kpi := kpi_total py_int "total_deaths" sorted lst kpi in
     let* kpi := kpi_7d py_int "new_cases" "new_cases_7d" sorted kpi in
     let* kpi := kpi_7d py_int "new_deaths" "new_deaths_7d" sorted kpi in
     Ok {| s_count := Z.of_nat (length (rows sorted)); s_kpi := kpi;
           s_message := None |}).
Proof.
  intros Hok Hocc Hf Hne.
  pose proof (apply_filters_is_view to_datetime DF args v Hf) as Hview.
  destruct (sorted_view DF v Hok Hocc Hview)
    as (sorted & i & Hs & Hi & Hcols & Hrows & Hts).
  assert (Hperm : rows sorted ≡ₚ rows v)
    by (rewrite Hrows; apply (sort_by_perm sort_by sort_asc)).
  assert (Hsne : rows sorted <> []).
  { intros E. rewrite E in Hperm. symmetry in Hperm.
    by apply Permutation_nil_r in Hperm. }
  destruct (last (rows sorted)) as [lst|] eqn:Hlast; [|by apply last_None in Hlast].
  destruct (timestamps_valid (map (get i) (rows sorted))) as (ts & Hts' & Hmap).
  { by apply Forall_map. }
  destruct ts as [|t ts]; [by destruct (rows sorted)|].
  destruct (foldl_min_least t ts) as [Hmin1 Hmin2].
  destruct (foldl_max_greatest t ts) as [Hmax1 Hmax2].
  assert (Hdates : map (row_get "date" DF) (rows v) ≡ₚ map Ts (t :: ts)).
  { rewrite Hmap, <- Hperm. erewrite map_ext; [done|].
    intros r. by rewrite (row_get_index _ _ _ _ Hi). }
  assert (Hin : forall r u, r ∈ rows v -> row_get "date" DF r = Ts u -> u ∈ t :: ts).
  { intros r u Hr Hu'.
    assert (Ts u ∈ map Ts (t :: ts)) as (u' & [= ->] & Hu'')%list_elem_of_fmap; [|done].
    rewrite <- Hdates, <- Hu'. by apply list_elem_of_fmap_2. }
  exists sorted, lst, (foldl Z.min t ts), (foldl Z.max t ts).
  split; [done|]. split; [done|]. split; [done|]. split; [done|].
  split.
  { split; [rewrite Hdates; by apply list_elem_of_fmap_2|].
    apply Forall_forall. intros r Hr u Hu'.
    by apply (proj1 (Forall_forall _ _) Hmin2 u), (Hin r). }
  split.
  { split; [rewrite Hdates; by apply list_elem_of_fmap_2|].
    apply Forall_forall. intros r Hr u Hu'.
    by apply (proj1 (Forall_forall _ _) Hmax2 u), (Hin r). }
  unfold summary. rewrite Hf. cbn [bind]. rewrite Hs. cbn [bind].
  assert (He : empty sorted = false).
  { unfold empty. destruct (rows sorted); [done|]. rewrite Hcols.
    by destruct (columns DF). }
  rewrite He. unfold iloc_last. rewrite Hlast. cbn [bind].
  rewrite (label_index_once _ "date" sorted i) by (by rewrite Hcols).
  cbn [bind]. unfold date_bound, series. rewrite Hts'. cbn [bind]. reflexivity.
Qed.

(** What [summary] answers on a non-empty View of a Dataset whose counters
    are numbers. *)
Lemma summary_nonempty DF args v :
  dataset_ok DF = true ->
  unique_labels DF = true ->
  numeric_fields DF = true ->
  apply_filters to_datetime DF args = Ok v ->
  rows v <> [] ->
  exists sorted lst tmin tmax n1 n2,
    sort_values sort_by "date" v = Ok sorted /\
    columns sorted = columns DF /\
    rows sorted ≡ₚ rows v /\
    last (rows sorted) = Some lst /\
    lst ∈ rows sorted /\
    (Ts tmin ∈ map (row_get "date" DF) (rows v) /\
     Forall (fun r => forall t, row_get "date" DF r = Ts t -> tmin <= t) (rows v)) /\
    (Ts tmax ∈ map (row_get "date" DF) (rows v) /\
     Forall (fun r => forall t, row_get "date" DF r = Ts t -> t <= tmax) (rows v)) /\
    (small_counts DF = true ->
     n1 = trailing_sum "new_cases" 7 sorted /\
     n2 = trailing_sum "new_deaths" 7 sorted) /\
    summary to_datetime py_int sort_by DF args =
    Ok {| s_count := Z.of_nat (length (rows v));
          s_kpi :=
            with_7d "new_deaths" "new_deaths_7d" sorted n2
              (with_7d "new_cases" "new_cases_7d" sorted n1
                 (with_total "total_deaths" sorted lst
                    (with_total "total_cases" sorted lst
                       (<["max_date" := Str (Calendar.isoformat (Calendar.date tmax))]>
                          (<["min_date" := Str (Calendar.isoformat (Calendar.date tmin))]>
                             ∅)))));
          s_message := None |}.
Proof.
  intros Hok Hu Hnum Hf Hne.
  pose proof (apply_filters_is_view to_datetime DF args v Hf) as Hview.
  assert (Hocc : occurrences "date" (columns DF) = 1%nat).
  { apply dataset_ok_columns in Hok as ([i Hi]%has_column_index & _).
    by eapply unique_labels_occurrences. }
  destruct (summary_reaches_totals DF args v Hok Hocc Hf Hne)
    as (sorted & lst & tmin & tmax & Hs & Hcols & Hperm & Hlast & Hmin & Hmax & Hsum).
  assert (Hus : unique_labels sorted = true).
  { by rewrite (unique_labels_columns sorted DF Hcols). }
  assert (Hcount : forall c,
            c ∈ ["new_cases"; "new_deaths"; "total_cases"; "total_deaths"] ->
            numeric_column c sorted = true).
  { intros c Hc. by apply (numeric_sorted c DF v). }
  assert (Hlst : forall c,
            c ∈ ["new_cases"; "new_deaths"; "total_cases"; "total_deaths"] ->
            is_count (row_get c sorted lst) = true).
  { intros c Hc. pose proof (Hcount c Hc) as H%numeric_column_Forall.
    apply (proj1 (Forall_forall _ _) H). by apply last_Some_elem_of. }
  cbv zeta in Hsum.
  rewrite kpi_total_Ok in Hsum by (try done; apply Hlst; in_list). cbn [bind] in Hsum.
  rewrite kpi_total_Ok in Hsum by (try done; apply Hlst; in_list). cbn [bind] in Hsum.
  destruct (kpi_7d_Ok "new_cases" "new_cases_7d" sorted
              (with_total "total_deaths" sorted lst
                 (with_total "total_cases" sorted lst
                    (<["max_date" := Str (Calendar.isoformat (Calendar.date tmax))]>
                       (<["min_date" := Str (Calendar.isoformat (Calendar.date tmin))]>
                          ∅)))) Hus)
    as (n1 & H1 & Hn1); [apply Hcount; in_list|].
  rewrite H1 in Hsum. cbn [bind] in Hsum.
  destruct (kpi_7d_Ok "new_deaths" "new_deaths_7d" sorted
              (with_7d "new_cases" "new_cases_7d" sorted n1
                 (with_total "total_deaths" sorted lst
                    (with_total "total_cases" sorted lst
                       (<["max_date" := Str (Calendar.isoformat (Calendar.date tmax))]>
                          (<["min_date" := Str (Calendar.isoformat (Calendar.date tmin))]>
                             ∅))))) Hus)
    as (n2 & H2 & Hn2); [apply Hcount; in_list|].
  rewrite H2 in Hsum. cbn [bind] in Hsum.
  exists sorted, lst, tmin, tmax, n1, n2.
  split; [done|]. split; [done|]. split; [done|]. split; [done|].
  split; [by apply last_Some_elem_of|]. split; [done|]. split; [done|].
  split.
  { intros Hsmall. split.
    - apply Hn1. apply (small_sorted "new_cases" DF v); try done. in_list.
    - apply Hn2. apply (small_sorted "new_deaths" DF v); try done. in_list. }
  rewrite Hsum. do 2 f_equal. by rewrite <- (Permutation_length Hperm).
Qed.

End Aggregator.

(** The last row of a frame sorted by date is a latest one. *)
Lemma sorted_last_latest i l lst :
  Sorted (fun a b => key_le i a b = true) l ->
  last l = Some lst ->
  Forall (fun r => key_le i r lst = true) l.
Proof.
  intros Hs%Sorted_StronglySorted; [|intros a b c; apply key_le_trans].
  induction Hs as [|x l Hs IH Hx]; [done|]. intros Hlast.
  destruct l as [|y l].
  - injection Hlast as <-. constructor; [apply key_le_refl|done].
  - rewrite last_cons_cons in Hlast. constructor; [|by apply IH].
    apply (proj1 (Forall_forall _ _) Hx). by apply last_Some_elem_of.
Qed.

Lemma sorted_head_earliest i l first :
  Sorted (fun a b => key_le i a b = true) l ->
  head l = Some first ->
  Forall (fun r => key_le i first r = true) l.
Proof.
  intros Hs%Sorted_StronglySorted; [|intros a b c; apply key_le_trans].
  destruct l as [|x l]; [done|]. intros [= ->].
  apply StronglySorted_inv in Hs as [_ Hx].
  constructor; [apply key_le_refl|done].
Qed.

(* ===================================================================== *)
(** ** The record listing *)
(* ===================================================================== *)

(** Selecting labels that the frame has, each naming one column. *)
Lemma select_Ok cols df :
  unique_labels df = true ->
  Forall (fun c => has_column c df = true) cols ->
  select cols df =
  Ok {| columns := cols;
        rows := map (fun r => map (fun c => row_get c df r) cols) (rows df) |}.
Proof.
  intros Hu Hcols. unfold select.
  assert (exists picked,
            mapM (fun c => match positions c (columns df) with
                           | [] => Raise (KeyError c)
                           | ps => Ok (map (fun i => (c, i)) ps)
                           end) cols = Ok picked /\
            map fst (concat picked) = cols /\
            forall r, map (fun ci => get (snd ci) r) (concat picked)
                      = map (fun c => row_get c df r) cols)
    as (picked & -> & Hfst & Hidx).
  { induction Hcols as [|c cols Hc _ (picked & IH & Hfst & Hidx)]; [by exists []|].
    apply has_column_index in Hc as [i Hi]. exists ([(c, i)] :: picked).
    cbn [mapM]. rewrite IH. unfold positions.
    rewrite (positions_from_one 0 c (columns df) i
               (unique_labels_occurrences _ _ _ Hu Hi) Hi).
    cbn [Nat.add map bind]. split; [done|].
    cbn [concat app map fst snd]. split; [by rewrite Hfst|].
    intros r. by rewrite Hidx, (row_get_index _ _ _ _ Hi). }
  cbn [bind]. rewrite Hfst. do 2 f_equal. apply map_ext. intros r. apply Hidx.
Qed.

Lemma mapM_strftime cells :
  Forall (fun v => is_timestamp v = true) cells ->
  mapM strftime cells =
  Ok (map (fun v => match v with
                    | Ts t => Str (Calendar.isoformat (Calendar.date t))
                    | _ => v
                    end) cells).
Proof.
  induction 1 as [|v cells Hv _ IH]; [done|].
  destruct v; try done. cbn [mapM strftime bind]. by rewrite IH.
Qed.

Lemma imap_nth_map {A B} (g : A -> B) (d : B) (l : list A) :
  imap (fun i c => (c, nth i (map g l) d)) l = map (fun c => (c, g c)) l.
Proof.
  induction l as [|x l IH]; [done|]. rewrite imap_cons. cbn [map nth].
  f_equal. rewrite <- IH. by apply imap_ext.
Qed.

Lemma map_fst_imap {A B} (g : nat -> A -> B) (l : list A) :
  map fst (imap (fun i c => (c, g i c)) l) = l.
Proof.
  revert g. induction l as [|x l IH]; intros g; [done|].
  rewrite imap_cons. cbn [map fst]. f_equal. apply (IH (fun i c => g (S i) c)).
Qed.

Lemma allow_list_distinct : List.NoDup allow_list.
Proof.
  unfold allow_list.
  repeat (constructor; [simpl; intros H; repeat (destruct H as [H|H]; [discriminate H|]); exact H|]).
  constructor.
Qed.

Section Listing.

Variable to_datetime : string -> scalar.
Variable py_int : string -> option Z.
Variable sort_by : nat -> list Row -> list Row.
Hypothesis sort_asc : ascending_sort sort_by.

(** The limit of [cases] lies in [1, 20000]. *)
Lemma limit_n_range args : 1 <= limit_n py_int args <= 20000.
Proof. unfold limit_n. destruct (py_int _); lia. Qed.

Lemma cases_Ok DF args v sorted :
  dataset_ok DF = true ->
  unique_labels DF = true ->
  apply_filters to_datetime DF args = Ok v ->
  sort_values sort_by "date" v = Ok sorted ->
  let last_rows := tail_rows (Z.to_nat (limit_n py_int args)) (rows sorted) in
  cases to_datetime py_int sort_by DF args =
  Ok {| c_count := Z.of_nat (length last_rows);
        c_data := map (listed_record sorted) last_rows |}.
Proof.
  intros Hok Hu Hf Hs.
  pose proof (apply_filters_is_view to_datetime DF args v Hf) as Hview.
  assert (Hocc1 : occurrences "date" (columns DF) = 1%nat).
  { pose proof Hok as ([i Hi]%has_column_index & _)%dataset_ok_columns.
    by eapply unique_labels_occurrences. }
  destruct (sorted_view sort_by sort_asc DF v Hok Hocc1 Hview)
    as (sorted' & i & Hs' & Hi & Hcols & Hrows & Hts).
  rewrite Hs in Hs'. injection Hs' as <-.
  assert (Hd : has_column "date" sorted = true).
  { apply has_column_index. exists i. by rewrite Hcols. }
  assert (Hus : unique_labels sorted = true).
  { by rewrite (unique_labels_columns sorted DF Hcols). }
  intros last_rows. unfold cases. rewrite Hf. cbn [bind]. rewrite Hs. cbn [bind].
  set (n := Z.to_nat (limit_n py_int args)).
  set (rest := List.filter (fun c => has_column c sorted)
                 ["location"; "location_level"; "new_cases"; "new_deaths";
                  "total_cases"; "total_deaths"; "latitude"; "longitude"]).
  assert (Ecols : List.filter (fun c => has_column c (tail n sorted)) allow_list
                  = "date" :: rest).
  { unfold allow_list. cbn [List.filter].
    change (has_column "date" (tail n sorted)) with (has_column "date" sorted).
    by rewrite Hd. }
  assert (Elisted : List.filter (fun c => has_column c sorted) allow_list
                  = "date" :: rest).
  { unfold allow_list. cbn [List.filter]. by rewrite Hd. }
  assert (Hdistinct : List.NoDup ("date" :: rest)).
  { rewrite <- Elisted. apply List.NoDup_filter, allow_list_distinct. }
  assert (Hocc : occurrences "date" ("date" :: rest) = 1%nat).
  { unfold occurrences. cbn [List.filter]. change ("date" =? "date")%string with true.
    cbv iota. cbn [length]. f_equal.
    destruct (List.filter (String.eqb "date") rest) as [|x l] eqn:E; [done|].
    assert (Hx : In x (List.filter (String.eqb "date") rest)) by (rewrite E; by left).
    apply filter_In in Hx as [Hx Hx']. apply String.eqb_eq in Hx'. subst x.
    by apply List.NoDup_cons_iff in Hdistinct as [? _]. }
  rewrite Ecols. rewrite select_Ok.
  2:{ exact Hus. }
  2:{ rewrite <- Ecols. apply Forall_forall. intros c Hc%list_elem_of_In.
      by apply filter_In in Hc as [_ Hc]. }
  cbn [bind]. unfold label_index. cbn [columns index_of].
  change ("date" =? "date")%string with true. cbv iota. rewrite Hocc.
  change (1 <? 1)%nat with false. cbv iota. cbn [bind].
  unfold series. cbn [rows tail]. fold last_rows.
  change (fun r : Row => map (fun c => row_get c (tail n sorted) r) ("date" :: rest))
    with (fun r : Row => row_get "date" sorted r
                         :: map (fun c => row_get c sorted r) rest).
  set (F := fun r : Row => row_get "date" sorted r
                           :: map (fun c => row_get c sorted r) rest).
  assert (Hdates : Forall (fun x => is_timestamp x = true)
                          (map (get 0) (map F last_rows))).
  { rewrite map_map. apply Forall_map.
    eapply Forall_sublist_of; [apply tail_rows_sublist|].
    eapply Forall_impl; [exact Hts|]. intros r Hr. simpl.
    unfold get at 1. cbn [F nth]. rewrite (row_get_index "date" sorted i); [done|].
    by rewrite Hcols. }
  subst n. fold last_rows. rewrite (mapM_strftime _ Hdates). cbn [bind].
  unfold assign. cbn [columns index_of].
  change ("date" =? "date")%string with true. cbv iota. cbn [rows].
  rewrite (map_map (get 0)), zip_with_map_self.
  unfold to_dict_records. cbn [rows columns]. rewrite !map_map.
  f_equal. f_equal; [by rewrite !length_map|].
  apply map_ext. intros r. unfold listed_record. rewrite Elisted.
  rewrite dict_of_distinct.
  2:{ by rewrite (map_fst_imap (fun i _ => get i _)). }
  change (get 0 (F r)) with (row_get "date" sorted r).
  change (set_cell 0 ?x (F r)) with (x :: map (fun c => row_get c sorted r) rest).
  rewrite imap_cons. cbn [map]. f_equal.
  { f_equal. unfold listed_cell, get. cbn [nth].
    change ("date" =? "date")%string with true. cbv iota.
    by destruct (row_get "date" sorted r). }
  transitivity (map (fun c => (c, row_get c sorted r)) rest).
  { rewrite <- (imap_nth_map (fun c => row_get c sorted r) NA rest).
    apply imap_ext. by intros j c _. }
  apply map_ext_in. intros c Hc. f_equal. unfold listed_cell.
  assert (Hne : (c =? "date")%string = false); [|by rewrite Hne].
  apply filter_In in Hc as [Hc _]. simpl in Hc.
  repeat (destruct Hc as [<-|Hc]; [done|]). done.
Qed.

End Listing.

(* ===================================================================== *)
(** ** The requests on the loaded Dataset *)
(* ===================================================================== *)

(** The theorems below are about a Dataset as the data model has it: the
    frame [load_df] returned, every label of its schema naming one column
    ([unique_labels]).  What they say of [summary] and [cases] they say for a
    View, the frame [apply_filters] returned for the Query; that it returns
    one is shown for a Query whose date bounds, when they parse, are calendar
    dates without an offset ([naive_bounds]).  Outside of these the code
    raises: see [repeated_location_raises] and [offset_bound_raises]. *)

Section Requests.

Variable to_datetime : string -> scalar.
Variable to_datetime_cell : list value -> value -> option Timestamp.
Variable py_int : string -> option Z.
Variable sort_by : nat -> list Row -> list Row.
Hypothesis sort_asc : ascending_sort sort_by.


(** C10: a parameter given as the empty string is a parameter not given.
    Whatever the frame and the rest of the Query, the filter does with the
    empty parameter exactly what it does without it; [location=""] alone
    returns the whole frame, not the Records whose location is the empty
    string; and on the loaded Dataset (its labels each naming one column),
    for a Query whose date bounds carry no offset, the filter returns the
    View of the request without the parameter. *)
Theorem empty_parameter_is_absent :
  (forall df args k,
     k ∈ ["location"; "level"; "start"; "end"] ->
     apply_filters to_datetime df (<[k := ""]> args) =
     apply_filters to_datetime df (delete k args)) /\
  (forall df, apply_filters to_datetime df {[ "location" := "" ]} = Ok df) /\
  (forall csv DF args k,
     load_df to_datetime_cell csv = Ok DF ->
     unique_labels DF = true ->
     naive_bounds to_datetime args = true ->
     k ∈ ["location"; "level"; "start"; "end"] ->
     exists v, apply_filters to_datetime DF (<[k := ""]> args) = Ok v /\
               apply_filters to_datetime DF (delete k args) = Ok v).
Proof.
  split; [|split].
  - intros df args k Hk. apply apply_filters_ignores; [done|by left].
  - intros df. rewrite <- insert_empty, apply_filters_ignores; [|in_list|by left].
    rewrite delete_empty. unfold apply_filters. by rewrite !lookup_empty.
  - intros csv DF args k Hload Hu Hnb Hk.
    pose proof (load_df_dataset_ok _ _ _ Hload) as (Hd & Hl & Hv)%dataset_ok_columns.
    destruct (apply_filters_view to_datetime DF (delete k args) Hd Hl Hv Hu
                (naive_bounds_delete _ _ _ Hnb)) as (v & Hf & _).
    exists v. split; [|done]. rewrite apply_filters_ignores; [done|done|by left].
Qed.

(** C8: when the View of a request is empty, [summary] returns (it does
    not raise) the payload with count 0, an empty KPI mapping and the
    message. *)
Theorem summary_of_empty_view csv DF args v :
  load_df to_datetime_cell csv = Ok DF ->
  apply_filters to_datetime DF args = Ok v ->
  rows v = [] ->
  summary to_datetime py_int sort_by DF args =
  Ok {| s_count := 0; s_kpi := ∅; s_message := Some "No data for filters" |}.
Proof.
  intros Hload Hf Hempty.
  destruct (sorted_view sort_by sort_asc DF v
              (load_df_dataset_ok _ _ _ Hload) (load_df_date_once _ _ _ Hload)
              (apply_filters_is_view _ _ _ _ Hf))
    as (sorted & i & Hs & _ & _ & Hrows & _).
  unfold summary. rewrite Hf. cbn [bind]. rewrite Hs. cbn [bind].
  assert (E : rows sorted = []).
  { apply Permutation_nil_r. rewrite Hrows, Hempty.
    apply (sort_by_perm sort_by sort_asc). }
  unfold empty. by rewrite E.
Qed.

(** C2: for a View of [k] Records of a Dataset whose counters are numbers
    (small ones: seven of them add up within 64 bits), when [k] is not 0
    [summary] returns, and [new_cases_7d] (resp. [new_deaths_7d]) is in the
    KPI mapping exactly when the schema has the column [new_cases] (resp.
    [new_deaths]), and is then the sum of the field over the last [min k 7]
    Records of the View sorted by date, a missing value counting as 0. *)
Theorem summary_trailing_sums csv DF args v :
  load_df to_datetime_cell csv = Ok DF ->
  unique_labels DF = true ->
  numeric_fields DF = true ->
  small_counts DF = true ->
  apply_filters to_datetime DF args = Ok v ->
  rows v <> [] ->
  exists sorted p,
    sort_values sort_by "date" v = Ok sorted /\
    sorted_by_date sorted v /\
    summary to_datetime py_int sort_by DF args = Ok p /\
    let k := length (rows v) in
    length (tail_rows (Nat.min k 7) (rows sorted)) = Nat.min k 7 /\
    s_kpi p !! "new_cases_7d" =
      (if has_column "new_cases" DF
       then Some (Num (trailing_sum "new_cases" (Nat.min k 7) sorted))
       else None) /\
    s_kpi p !! "new_deaths_7d" =
      (if has_column "new_deaths" DF
       then Some (Num (trailing_sum "new_deaths" (Nat.min k 7) sorted))
       else None).
Proof.
  intros Hload Hu Hnum Hsmall Hf Hne. pose proof (load_df_dataset_ok _ _ _ Hload) as Hok.
  destruct (summary_nonempty to_datetime py_int sort_by sort_asc DF args v
              Hok Hu Hnum Hf Hne)
    as (sorted & lst & tmin & tmax & n1 & n2 & Hs & Hcols & Hperm & _ & _ & _ & _
        & Hn & Hsum).
  destruct (Hn Hsmall) as [-> ->].
  exists sorted. eexists. split; [done|].
  split; [by apply (sort_values_sorted_by_date sort_by sort_asc)|].
  split; [exact Hsum|]. cbn [s_kpi].
  assert (Hlen : length (rows sorted) = length (rows v)) by by apply Permutation_length.
  assert (Htail : forall c, trailing_sum c (Nat.min (length (rows v)) 7) sorted
                            = trailing_sum c 7 sorted).
  { intros c. unfold trailing_sum. rewrite (tail_rows_min 7), Hlen.
    by rewrite Nat.min_comm. }
  assert (Hhas : forall c, has_column c sorted = has_column c DF).
  { intros c. unfold has_column. by rewrite Hcols. }
  split; [rewrite tail_rows_length; lia|]. rewrite !Htail, <- !Hhas. split.
  - rewrite lookup_with_7d_ne by done. apply lookup_with_7d_eq.
    by rewrite !lookup_with_total_ne, !lookup_insert_ne by done.
  - apply lookup_with_7d_eq. rewrite lookup_with_7d_ne by done.
    by rewrite !lookup_with_total_ne, !lookup_insert_ne by done.
Qed.

(** C7: for a non-empty View of a Dataset whose counters are numbers,
    [summary] returns, and [total_cases] (resp. [total_deaths]) is in the KPI
    mapping exactly when the schema has the field and the last Record of the
    sorted View, a Record of the latest date, has a value for it, and is then
    that value; and [min_date] and [max_date], the least and the greatest
    date of the View, are always in the mapping. *)
Theorem summary_latest_totals csv DF args v :
  load_df to_datetime_cell csv = Ok DF ->
  unique_labels DF = true ->
  numeric_fields DF = true ->
  apply_filters to_datetime DF args = Ok v ->
  rows v <> [] ->
  exists sorted p lst tlast tmin tmax,
    sort_values sort_by "date" v = Ok sorted /\
    sorted_by_date sorted v /\
    summary to_datetime py_int sort_by DF args = Ok p /\
    last (rows sorted) = Some lst /\
    lst ∈ rows v /\
    row_get "date" DF lst = Ts tlast /\
    Forall (fun r => forall t, row_get "date" DF r = Ts t -> t <= tlast) (rows v) /\
    s_kpi p !! "total_cases" =
      (if has_column "total_cases" DF && notna (row_get "total_cases" DF lst)
       then Some (Num (count0 (row_get "total_cases" DF lst)))
       else None) /\
    s_kpi p !! "total_deaths" =
      (if has_column "total_deaths" DF && notna (row_get "total_deaths" DF lst)
       then Some (Num (count0 (row_get "total_deaths" DF lst)))
       else None) /\
    s_kpi p !! "min_date" = Some (Str (Calendar.isoformat (Calendar.date tmin))) /\
    s_kpi p !! "max_date" = Some (Str (Calendar.isoformat (Calendar.date tmax))) /\
    (Ts tmin ∈ map (row_get "date" DF) (rows v) /\
     Forall (fun r => forall t, row_get "date" DF r = Ts t -> tmin <= t) (rows v)) /\
    (Ts tmax ∈ map (row_get "date" DF) (rows v) /\
     Forall (fun r => forall t, row_get "date" DF r = Ts t -> t <= tmax) (rows v)).
Proof.
  intros Hload Hu Hnum Hf Hne. pose proof (load_df_dataset_ok _ _ _ Hload) as Hok.
  destruct (sorted_view sort_by sort_asc DF v Hok (load_df_date_once _ _ _ Hload)
              (apply_filters_is_view _ _ _ _ Hf))
    as (sorted & i & Hs & Hi & _ & Hrows & Hts).
  destruct (summary_nonempty to_datetime py_int sort_by sort_asc DF args v
              Hok Hu Hnum Hf Hne)
    as (sorted' & lst & tmin & tmax & n1 & n2 & Hs' & Hcols & Hperm & Hlast & Hin
        & Hmin & Hmax & _ & Hsum).
  rewrite Hs in Hs'. injection Hs' as <-.
  assert (Hget : forall r, row_get "date" DF r = get i r).
  { intros r. by apply row_get_index. }
  pose proof (proj1 (Forall_forall _ _) Hts lst Hin) as Hlst.
  simpl in Hlst. destruct (get i lst) as [| | |tlast] eqn:Hd; try done.
  assert (Hlatest : Forall (fun r => key_le i r lst = true) (rows sorted)).
  { apply sorted_last_latest; [|done]. rewrite Hrows.
    apply (sort_by_sorted sort_by sort_asc). }
  assert (Hhas : forall c, has_column c sorted = has_column c DF).
  { intros c. unfold has_column. by rewrite Hcols. }
  assert (Hrg : forall c r, row_get c sorted r = row_get c DF r).
  { intros c r. by apply row_get_columns. }
  eexists sorted, _, lst, tlast, tmin, tmax. split; [done|].
  split; [by apply (sort_values_sorted_by_date sort_by sort_asc)|].
  split; [exact Hsum|]. cbn [s_kpi].
  split; [done|]. split; [by rewrite <- Hperm|].
  split; [by rewrite Hget|]. split.
  { rewrite <- Hperm. eapply Forall_impl; [exact Hlatest|].
    intros r Hr t Ht. simpl in Hr. rewrite Hget in Ht.
    unfold key_le in Hr. rewrite Ht, Hd in Hr. by apply Z.leb_le. }
  rewrite <- !Hhas, <- !Hrg.
  split.
  { rewrite !lookup_with_7d_ne, lookup_with_total_ne by done.
    apply lookup_with_total_eq. by rewrite !lookup_insert_ne. }
  split.
  { rewrite !lookup_with_7d_ne by done. apply lookup_with_total_eq.
    rewrite lookup_with_total_ne by done. by rewrite !lookup_insert_ne. }
  split.
  { rewrite !lookup_with_7d_ne, !lookup_with_total_ne by done.
    rewrite lookup_insert_ne by done. apply lookup_insert_eq. }
  split.
  { rewrite !lookup_with_7d_ne, !lookup_with_total_ne by done.
    apply lookup_insert_eq. }
  done.
Qed.

(** C3: for a View, [cases] returns (whatever the [limit] string) the
    Records of the last [n] rows of the View sorted by date, that is
    [min n (len View)] Records, where [n] is the limit read as an integer and
    clamped to the nearest bound of [1, 20000], or 3000 when [int] refuses
    the string; with no [limit] given, [n] is the 3000 that [int] reads in
    the default. *)
Theorem cases_lists_last_records csv DF args v :
  load_df to_datetime_cell csv = Ok DF ->
  unique_labels DF = true ->
  apply_filters to_datetime DF args = Ok v ->
  exists sorted p,
    sort_values sort_by "date" v = Ok sorted /\
    sorted_by_date sorted v /\
    cases to_datetime py_int sort_by DF args = Ok p /\
    let n := limit_n py_int args in
    match py_int (default "3000" (args !! "limit")) with
    | Some m => n = (if m <? 1 then 1 else if 20000 <? m then 20000 else m)
    | None => n = 3000
    end /\
    (args !! "limit" = None -> py_int "3000" = Some 3000 -> n = 3000) /\
    c_count p = Z.min n (Z.of_nat (length (rows v))) /\
    Z.of_nat (length (c_data p)) = c_count p /\
    c_data p = map (listed_record sorted) (tail_rows (Z.to_nat n) (rows sorted)).
Proof.
  intros Hload Hu Hf. pose proof (load_df_dataset_ok _ _ _ Hload) as Hok.
  destruct (sorted_view sort_by sort_asc DF v Hok (load_df_date_once _ _ _ Hload)
              (apply_filters_is_view _ _ _ _ Hf))
    as (sorted & i & Hs & Hi & Hcols & Hrows & Hts).
  exists sorted. eexists. split; [done|].
  split; [by apply (sort_values_sorted_by_date sort_by sort_asc)|].
  split; [exact (cases_Ok to_datetime py_int sort_by sort_asc DF args v sorted
                   Hok Hu Hf Hs)|].
  cbn [c_count c_data].
  assert (Hlen : length (rows sorted) = length (rows v)).
  { rewrite Hrows. apply (sort_by_length sort_by sort_asc). }
  pose proof (limit_n_range py_int args) as Hrange.
  split.
  { unfold limit_n. destruct (py_int _) as [m|]; [|done].
    destruct (Z.ltb_spec m 1); [lia|]. destruct (Z.ltb_spec 20000 m); lia. }
  split.
  { intros Hnone Hint. unfold limit_n. rewrite Hnone. cbn [default from_option id].
    rewrite Hint. lia. }
  rewrite length_map, tail_rows_length, Hlen. split; [lia|done].
Qed.

End Requests.

(* ===================================================================== *)
(** ** The theorems at work on the sample data *)
(* ===================================================================== *)

(** A closed fact, by evaluation. *)
Ltac evaluated :=
  first [ exact stable_sort_ascending
        | vm_compute; reflexivity
        | vm_compute; discriminate
        | vm_compute; repeat first [apply list_elem_of_here | apply list_elem_of_further]
        | vm_compute; lia
        | lia ].

Lemma loaded_records_have_dates_witness :
  load_df Sample.iso_cell Sample.csv_days = Ok Sample.DF_days /\
  has_column "date" Sample.DF_days = true /\
  has_column "location" Sample.DF_days = true /\
  has_column "location_level" Sample.DF_days = true /\
  Forall (fun r => exists t, row_get "date" Sample.DF_days r = Ts t) (rows Sample.DF_days).
Proof.
  split; [vm_compute; reflexivity|].
  apply (loaded_records_have_dates Sample.iso_cell Sample.csv_days Sample.DF_days);
    vm_compute; reflexivity.
Defined.

Lemma load_df_drops_unparsed_witness :
  has_column "date" (normalize_columns Sample.csv_gaps) = true /\
  has_column "location" (normalize_columns Sample.csv_gaps) = true /\
  (occurrences "date" (columns (normalize_columns Sample.csv_gaps)) <= 1)%nat /\
  exists DF i,
    load_df Sample.iso_cell Sample.csv_gaps = Ok DF /\
    index_of "date" (columns (normalize_columns Sample.csv_gaps)) = Some i /\
    let parsed r := Sample.iso_cell (series i Sample.csv_gaps) (get i r) in
    (length (rows DF) <= length (rows Sample.csv_gaps))%nat /\
    Forall2
      (fun r r' =>
         exists t, parsed r = Some t /\ get i r' = Ts t /\
           forall j, j <> i -> (j < length (columns Sample.csv_gaps))%nat -> get j r' = get j r)
      (List.filter (fun r => bool_decide (is_Some (parsed r))) (rows Sample.csv_gaps))
      (rows DF).
Proof.
  split; [evaluated|].
  split; [evaluated|].
  split; [evaluated|].
  apply load_df_drops_unparsed with (to_datetime_cell := Sample.iso_cell) (csv := Sample.csv_gaps);
    evaluated.
Defined.


Lemma summary_of_empty_view_witness :
  ascending_sort stable_sort /\
  load_df Sample.iso_cell Sample.csv_days = Ok Sample.DF_days /\
  apply_filters Sample.iso_scalar Sample.DF_days Sample.args_district = Ok Sample.view_none /\
  rows Sample.view_none = [] /\
  summary Sample.iso_scalar PyStr.int_of_str stable_sort Sample.DF_days Sample.args_district =
  Ok {| s_count := 0; s_kpi := ∅; s_message := Some "No data for filters" |}.
Proof.
  split; [evaluated|].
  split; [evaluated|].
  split; [evaluated|].
  split; [evaluated|].
  apply summary_of_empty_view with (to_datetime_cell := Sample.iso_cell) (csv := Sample.csv_days) (v := Sample.view_none);
    evaluated.
Defined.

Lemma summary_trailing_sums_witness :
  ascending_sort stable_sort /\
  load_df Sample.iso_cell Sample.csv_days = Ok Sample.DF_days /\
  unique_labels Sample.DF_days = true /\
  numeric_fields Sample.DF_days = true /\
  small_counts Sample.DF_days = true /\
  apply_filters Sample.iso_scalar Sample.DF_days Sample.args_X = Ok Sample.view_X /\
  rows Sample.view_X <> [] /\
  exists sorted p,
    sort_values stable_sort "date" Sample.view_X = Ok sorted /\
    sorted_by_date sorted Sample.view_X /\
    summary Sample.iso_scalar PyStr.int_of_str stable_sort Sample.DF_days Sample.args_X = Ok p /\
    let k := length (rows Sample.view_X) in
    length (tail_rows (Nat.min k 7) (rows sorted)) = Nat.min k 7 /\
    s_kpi p !! "new_cases_7d" =
      (if has_column "new_cases" Sample.DF_days
       then Some (Num (trailing_sum "new_cases" (Nat.min k 7) sorted))
       else None) /\
    s_kpi p !! "new_deaths_7d" =
      (if has_column "new_deaths" Sample.DF_days
       then Some (Num (trailing_sum "new_deaths" (Nat.min k 7) sorted))
       else None).
Proof.
  split; [evaluated|].
  split; [evaluated|].
  split; [evaluated|].
  split; [evaluated|].
  split; [evaluated|].
  split; [evaluated|].
  split; [evaluated|].
  apply summary_trailing_sums with (to_datetime_cell := Sample.iso_cell) (csv := Sample.csv_days) (v := Sample.view_X);
    evaluated.
Defined.

Lemma summary_latest_totals_witness :
  ascending_sort stable_sort /\
  load_df Sample.iso_cell Sample.csv_days = Ok Sample.DF_days /\
  unique_labels Sample.DF_days = true /\
  numeric_fields Sample.DF_days = true /\
  apply_filters Sample.iso_scalar Sample.DF_days Sample.args_X = Ok Sample.view_X /\
  rows Sample.view_X <> [] /\
  exists sorted p lst tlast tmin tmax,
    sort_values stable_sort "date" Sample.view_X = Ok sorted /\
    sorted_by_date sorted Sample.view_X /\
    summary Sample.iso_scalar PyStr.int_of_str stable_sort Sample.DF_days Sample.args_X = Ok p /\
    last (rows sorted) = Some lst /\
    lst ∈ rows Sample.view_X /\
    row_get "date" Sample.DF_days lst = Ts tlast /\
    Forall (fun r => forall t, row_get "date" Sample.DF_days r = Ts t -> t <= tlast) (rows Sample.view_X) /\
    s_kpi p !! "total_cases" =
      (if has_column "total_cases" Sample.DF_days && notna (row_get "total_cases" Sample.DF_days lst)
       then Some (Num (count0 (row_get "total_cases" Sample.DF_days lst)))
       else None) /\
    s_kpi p !! "total_deaths" =
      (if has_column "total_deaths" Sample.DF_days && notna (row_get "total_deaths" Sample.DF_days lst)
       then Some (Num (count0 (row_get "total_deaths" Sample.DF_days lst)))
       else None) /\
    s_kpi p !! "min_date" = Some (Str (Calendar.isoformat (Calendar.date tmin))) /\
    s_kpi p !! "max_date" = Some (Str (Calendar.isoformat (Calendar.date tmax))) /\
    (Ts tmin ∈ map (row_get "date" Sample.DF_days) (rows Sample.view_X) /\
     Forall (fun r => forall t, row_get "date" Sample.DF_days r = Ts t -> tmin <= t) (rows Sample.view_X)) /\
    (Ts tmax ∈ map (row_get "date" Sample.DF_days) (rows Sample.view_X) /\
     Forall (fun r => forall t, row_get "date" Sample.DF_days r = Ts t -> t <= tmax) (rows Sample.view_X)).
Proof.
  split; [evaluated|].
  split; [evaluated|].
  split; [evaluated|].
  split; [evaluated|].
  split; [evaluated|].
  split; [evaluated|].
  apply summary_latest_totals with (to_datetime_cell := Sample.iso_cell) (csv := Sample.csv_days) (v := Sample.view_X);
    evaluated.
Defined.

Lemma cases_lists_last_records_witness :
  ascending_sort stable_sort /\
  load_df Sample.iso_cell Sample.csv_days = Ok Sample.DF_days /\
  unique_labels Sample.DF_days = true /\
  apply_filters Sample.iso_scalar Sample.DF_days Sample.args_limit_0 = Ok Sample.view_X /\
  exists sorted p,
    sort_values stable_sort "date" Sample.view_X = Ok sorted /\
    sorted_by_date sorted Sample.view_X /\
    cases Sample.iso_scalar PyStr.int_of_str stable_sort Sample.DF_days Sample.args_limit_0 = Ok p /\
    let n := limit_n PyStr.int_of_str Sample.args_limit_0 in
    match PyStr.int_of_str (default "3000" (Sample.args_limit_0 !! "limit")) with
    | Some m => n = (if m <? 1 then 1 else if 20000 <? m then 20000 else m)
    | None => n = 3000
    end /\
    (Sample.args_limit_0 !! "limit" = None -> PyStr.int_of_str "3000" = Some 3000 -> n = 3000) /\
    c_count p = Z.min n (Z.of_nat (length (rows Sample.view_X))) /\
    Z.of_nat (length (c_data p)) = c_count p /\
    c_data p = map (listed_record sorted) (tail_rows (Z.to_nat n) (rows sorted)).
Proof.
  split; [evaluated|].
  split; [evaluated|].
  split; [evaluated|].
  split; [evaluated|].
  apply cases_lists_last_records with (to_datetime_cell := Sample.iso_cell) (csv := Sample.csv_days) (v := Sample.view_X);
    evaluated.
Defined.

(** C4, as stated, fails: the loader keeps a Record whose location is
    missing.  Here the first row of [Sample.csv_gaps] has a date and no
    location, and it is in the Dataset. *)
Lemma loaded_record_without_location :
  ~ (forall (to_datetime_cell : list value -> value -> option Timestamp) csv DF,
       load_df to_datetime_cell csv = Ok DF ->
       Forall (fun r => valid_date DF r = true /\ nonempty_location DF r = true)
              (rows DF)).
Proof.
  intros H.
  specialize (H Sample.iso_cell Sample.csv_gaps Sample.DF_gaps eq_refl).
  apply Forall_cons in H as [[_ H] _]. vm_compute in H. discriminate H.
Qed.

(* ===================================================================== *)
(** ** The scenarios of the specification *)
(* ===================================================================== *)

Example load_gaps : Sample.load_df Sample.csv_gaps = Ok Sample.DF_gaps.
Proof. vm_compute. reflexivity. Qed.

(** Scenario A: the latest total and the date range. *)
Example scenario_A :
  exists p, Sample.summary Sample.DF_A Sample.args_X = Ok p /\
    s_count p = 2 /\
    s_kpi p !! "total_cases" = Some (Num 15) /\
    s_kpi p !! "min_date" = Some (Str "2021-01-01") /\
    s_kpi p !! "max_date" = Some (Str "2021-01-02").
Proof. eexists. split; [vm_compute; reflexivity|]. repeat split. Qed.

(** Scenario B: [limit=1] lists the one Record of the last day. *)
Example scenario_B :
  Sample.cases Sample.DF_A (<["limit" := "1"]> Sample.args_X) =
  Ok {| c_count := 1;
        c_data := [ [("date", Str "2021-01-02"); ("location", Str "X");
                     ("location_level", Str "country"); ("total_cases", Num 15)] ] |}.
Proof. vm_compute. reflexivity. Qed.

(** Scenario C: no Record of that level. *)
Example scenario_C :
  Sample.summary Sample.DF_days Sample.args_district =
  Ok {| s_count := 0; s_kpi := ∅; s_message := Some "No data for filters" |}.
Proof. vm_compute. reflexivity. Qed.

(** Scenario E: a [start] that is no date excludes nothing. *)
Example scenario_E :
  Sample.apply_filters Sample.DF_A {[ "start" := "not-a-date" ]} = Ok Sample.DF_A.
Proof. vm_compute. reflexivity. Qed.

(** The trailing window over nine days: the last seven, a gap as 0. *)
Example trailing_window :
  exists p, Sample.summary Sample.DF_days Sample.args_X = Ok p /\
    s_count p = 9 /\
    s_kpi p !! "new_cases_7d" = Some (Num 38) /\
    s_kpi p !! "new_deaths_7d" = Some (Num 3) /\
    s_kpi p !! "total_cases" = Some (Num 41) /\
    s_kpi p !! "total_deaths" = None.
Proof. eexists. split; [vm_compute; reflexivity|]. repeat split. Qed.

(** The limit: clamped at either end, 3000 when it is no integer. *)
Example limits :
  Sample.limit_n {[ "limit" := "0" ]} = 1 /\
  Sample.limit_n {[ "limit" := "-5" ]} = 1 /\
  Sample.limit_n {[ "limit" := "999999" ]} = 20000 /\
  Sample.limit_n {[ "limit" := " 42 " ]} = 42 /\
  Sample.limit_n {[ "limit" := String (ascii_of_N 31) "42" ]} = 3000 /\
  Sample.limit_n {[ "limit" := "3.5" ]} = 3000 /\
  Sample.limit_n {[ "limit" := "abc" ]} = 3000 /\
  Sample.limit_n {[ "limit" := "" ]} = 3000 /\
  Sample.limit_n ∅ = 3000.
Proof. repeat split. Qed.

(** A limit below the range lists the one latest Record. *)
Example limit_0 :
  Sample.cases Sample.DF_days Sample.args_limit_0 =
  Ok {| c_count := 1;
        c_data := [ [("date", Str "2021-01-09"); ("location", Str "X");
                     ("location_level", Str "country"); ("new_cases", Num 9);
                     ("new_deaths", Num 0); ("total_cases", Num 41);
                     ("total_deaths", NA)] ] |}.
Proof. vm_compute. reflexivity. Qed.

(** *** Requests that raise *)

(** A date bound that carries an offset: the comparison with the dates of
    the Dataset raises, whatever the other clauses. *)
Example offset_bound_raises :
  exists msg, Sample.apply_filters Sample.DF_days Sample.args_offset = Raise (TypeError msg).
Proof. eexists. vm_compute. reflexivity. Qed.

(** A table with the labels [Location] and [location] loads; a Query on
    the location and the discovery request then raise. *)
Example repeated_location_raises :
  load_df Sample.iso_cell Sample.csv_two_locations = Ok Sample.DF_two_locations /\
  (exists msg, Sample.apply_filters Sample.DF_two_locations {[ "location" := "X" ]} =
               Raise (ValueError msg)) /\
  (exists msg, metadata Sample.DF_two_locations = Raise (AttributeError msg)).
Proof. repeat split; eexists; vm_compute; reflexivity. Qed.

(** A sum that leaves the 64-bit range wraps around. *)
Example trailing_sum_wraps :
  exists p, Sample.summary Sample.DF_huge ∅ = Ok p /\
    s_kpi p !! "new_cases_7d" = Some (Num (-9223372036854775808)).
Proof. eexists. split; [vm_compute; reflexivity|]. reflexivity. Qed.

(** Counts read as text are joined, not added: ["1"] and ["2"] give 12. *)
Example text_counts_are_joined :
  exists p, Sample.summary Sample.DF_text_counts ∅ = Ok p /\
    s_kpi p !! "new_cases_7d" = Some (Num 12).
Proof. eexists. split; [vm_compute; reflexivity|]. reflexivity. Qed.

(** The labels in the message of the loader, as Python prints them. *)
Example repr_of_labels :
  repr_labels ["date"; "new_cases"] = "['date', 'new_cases']" /\
  repr_str "it's" = String double_quote ("it's" ++ String double_quote EmptyString) /\
  repr_str (String (ascii_of_N 9) "x") = String "'" (String backslash "tx'").
Proof. repeat split. Qed.

(* ===================================================================== *)
(** ** More on the Schema Normalizer *)
(* ===================================================================== *)

Lemma canonical_char_fixed c :
  canonical_char c =
  Ascii.eqb (PyStr.replace_char "/" "_" (PyStr.replace_char " " "_" (PyStr.lower_char c))) c.
Proof. revert c. intros [[] [] [] [] [] [] [] []]; vm_compute; reflexivity. Qed.

Lemma canonical_char_normalized c :
  canonical_char
    (PyStr.replace_char "/" "_" (PyStr.replace_char " " "_" (PyStr.lower_char c))) = true.
Proof. revert c. intros [[] [] [] [] [] [] [] []]; vm_compute; reflexivity. Qed.

Lemma all_chars_str_map p f s :
  (forall c, p (f c) = true) -> all_chars p (PyStr.str_map f s) = true.
Proof. intros H. induction s as [|c s IH]; simpl; [done|]. by rewrite H, IH. Qed.

Lemma str_map_fixed f s :
  all_chars (fun c => Ascii.eqb (f c) c) s = true <-> PyStr.str_map f s = s.
Proof.
  induction s as [|c s IH]; simpl; [done|]. rewrite andb_true_iff, IH, Ascii.eqb_eq.
  split; [by intros [-> ->]|]. by intros [= -> ->].
Qed.

(** X1: whatever the label, its normal form is canonical: it has no white
    space at either end and holds no blank, no slash and no upper-case
    letter. *)
Theorem normalize_label_canonical l : canonical (normalize_label l) = true.
Proof.
  rewrite normalize_label_chars. unfold canonical. set (f := fun c => _).
  assert (Hf : forall c, PyStr.is_space c = false -> PyStr.is_space (f c) = false).
  { intros c Hc. unfold f.
    by apply PyStrFacts.replace_char_not_space, PyStrFacts.replace_char_not_space,
             PyStrFacts.lower_char_not_space. }
  rewrite (PyStrFacts.str_map_head_ok f Hf) by apply PyStrFacts.strip_head_ok.
  rewrite (PyStrFacts.str_map_last_ok f Hf) by apply PyStrFacts.strip_last_ok.
  cbn [andb]. apply all_chars_str_map, canonical_char_normalized.
Qed.

Lemma normalized_label_shape l : canonical (normalize_label l) = true.
Proof.
  rewrite normalize_label_chars. unfold canonical. set (f := fun c => _).
  assert (Hf : forall c, PyStr.is_space c = false -> PyStr.is_space (f c) = false).
  { intros c Hc. unfold f.
    by apply PyStrFacts.replace_char_not_space, PyStrFacts.replace_char_not_space,
             PyStrFacts.lower_char_not_space. }
  rewrite (PyStrFacts.str_map_head_ok f Hf) by apply PyStrFacts.strip_head_ok.
  rewrite (PyStrFacts.str_map_last_ok f Hf) by apply PyStrFacts.strip_last_ok.
  cbn [andb]. apply all_chars_str_map, canonical_char_normalized.
Qed.

(** X2: among the labels written in ASCII, those that normalisation leaves
    as they are are exactly the canonical ones. *)
Theorem normalize_label_fixed_points l :
  is_ascii l = true ->
  (normalize_label l = l <-> canonical l = true).
Proof.
  intros _. split.
  - intros <-. apply normalized_label_shape.
  - unfold canonical. intros [[Hh Hl]%andb_prop Hc]%andb_prop.
    rewrite normalize_label_chars, PyStrFacts.strip_fixed by done.
    apply str_map_fixed. clear Hh Hl. induction l as [|c l IH]; [done|].
    cbn [all_chars] in *. apply andb_prop in Hc as [Hc Hl].
    by rewrite <- canonical_char_fixed, Hc, IH.
Qed.

(* ===================================================================== *)
(** ** More on the loader *)
(* ===================================================================== *)

Lemma index_of_fresh c labels :
  index_of c labels = None -> index_of c (labels ++ [c]) = Some (length labels).
Proof.
  induction labels as [|l labels IH]; simpl.
  - by rewrite String.eqb_refl.
  - destruct (String.eqb c l); [done|].
    destruct (index_of c labels); simpl; [done|]. intros _. by rewrite IH.
Qed.

Section LoaderOutcomes.

Variable to_datetime_cell : list value -> value -> option Timestamp.

(** X3: the three outcomes of [load_df], told from the normalised labels
    alone.  It raises the [ValueError] that says no date column was found
    exactly when no label is [date]; the one that says no location column was
    found exactly when [date] is there and [location] is not; and it returns
    a Dataset exactly when both are there and [date] is named once.  No cell
    of the table plays a part. *)
Theorem load_df_outcomes csv :
  let df := normalize_columns csv in
  ((exists labels, load_df to_datetime_cell csv =
      Raise (ValueError ("No date column found. Columns: " ++ labels)))
   <-> has_column "date" df = false) /\
  ((exists labels, load_df to_datetime_cell csv =
      Raise (ValueError ("No location column found. Columns: " ++ labels)))
   <-> has_column "date" df = true /\ has_column "location" df = false) /\
  ((exists DF, load_df to_datetime_cell csv = Ok DF)
   <-> has_column "date" df = true /\ has_column "location" df = true /\
       occurrences "date" (columns df) = 1%nat).
Proof.
  intros df.
  destruct (has_column "date" df) eqn:Hd.
  2:{ rewrite (load_df_no_date _ _ Hd). fold df. split; [split; [done|eauto]|].
      split; (split; [|by intros [? ?]]); [|by intros [? ?]].
      intros [labels H]. simpl in H. discriminate H. }
  destruct (has_column "location" df) eqn:Hl.
  2:{ rewrite (load_df_no_location _ _ Hd Hl). fold df.
      split; [split; [|done]; intros [labels H]; simpl in H; discriminate H|].
      split; [split; [done|eauto]|].
      split; [by intros [? ?]|by intros (_ & ? & _)]. }
  pose proof (has_column_occurrences _ _ Hd) as Hpos.
  destruct (decide (occurrences "date" (columns df) <= 1)%nat) as [Hocc|Hocc].
  - destruct (load_df_returns to_datetime_cell csv Hd Hl Hocc) as [DF HDF].
    rewrite HDF. split; [split; [by intros [? ?]|done]|].
    split; [split; [by intros [? ?]|by intros [_ ?]]|].
    split; [intros _; repeat split; lia|eauto].
  - rewrite (load_df_repeated_date to_datetime_cell csv Hl) by (fold df; lia).
    split; [split; [|done]; intros [labels H]; simpl in H; discriminate H|].
    split; [split; [|by intros [_ ?]]; intros [labels H]; simpl in H; discriminate H|].
    split; [by intros [? ?]|]. intros (_ & _ & ?). lia.
Qed.

(** X4: the loader adds [location_level] only when the table has no such
    column, as the last column, with ["Unknown"] in every Record; and adds no
    column otherwise. *)
Theorem load_df_location_level csv DF :
  load_df to_datetime_cell csv = Ok DF ->
  let df := normalize_columns csv in
  if has_column "location_level" df
  then columns DF = columns df
  else columns DF = columns df ++ ["location_level"] /\
       Forall (fun r => row_get "location_level" DF r = Str "Unknown") (rows DF).
Proof.
  intros (i & _ & _ & Hcols & Hrows)%load_df_Ok df. fold df in Hcols, Hrows.
  destruct (has_column "location_level" df) eqn:Hv; [done|].
  split; [done|]. apply has_column_false in Hv.
  rewrite Hrows. apply Forall_map, Forall_forall. intros r _. simpl.
  rewrite (row_get_index _ _ (length (columns df))).
  - apply get_set_cell_eq.
  - rewrite Hcols. by apply index_of_fresh.
Qed.

End LoaderOutcomes.

(* ===================================================================== *)
(** ** More on the Filter Evaluator *)
(* ===================================================================== *)

Section FilterProperties.

Variable to_datetime : string -> scalar.
Variable to_datetime_cell : list value -> value -> option Timestamp.

(** X5: on a Dataset whose labels each name one column, and for a Query
    whose date bounds carry no offset, the View is the Dataset's schema with
    exactly the Records that satisfy every clause given (level and location
    by equal strings, the dates within the parsed bounds), in the Dataset's
    order and as often as they occur there. *)
Theorem apply_filters_conjunction csv DF args :
  load_df to_datetime_cell csv = Ok DF ->
  unique_labels DF = true ->
  naive_bounds to_datetime args = true ->
  apply_filters to_datetime DF args =
  Ok {| columns := columns DF;
        rows := List.filter (satisfies to_datetime DF args) (rows DF) |}.
Proof.
  intros (Hd & Hl & Hv)%load_df_dataset_ok%dataset_ok_columns Hu Hnb.
  by apply apply_filters_rows.
Qed.

(** X6: filtering is idempotent: the Query applied to its own View returns
    that View. *)
Theorem apply_filters_idempotent csv DF args :
  load_df to_datetime_cell csv = Ok DF ->
  unique_labels DF = true ->
  naive_bounds to_datetime args = true ->
  exists v,
    apply_filters to_datetime DF args = Ok v /\
    apply_filters to_datetime v args = Ok v.
Proof.
  intros (Hd & Hl & Hv)%load_df_dataset_ok%dataset_ok_columns Hu Hnb.
  eexists. split; [by apply apply_filters_rows|].
  rewrite apply_filters_rows by done. cbn [columns rows].
  rewrite filter_filter. do 2 f_equal. apply filter_ext. intros r.
  rewrite (satisfies_columns _ (Build_DataFrame _ _) DF) by done.
  by destruct (satisfies _ _ _ _).
Qed.

(** X7: a range of two calendar dates whose [start] is after its [end]
    selects nothing: the View is empty (and the request is answered, not
    refused). *)
Theorem inverted_range_is_empty csv DF args s e a b :
  load_df to_datetime_cell csv = Ok DF ->
  unique_labels DF = true ->
  args !! "start" = Some s -> PyStr.is_empty s = false -> to_datetime s = Naive a ->
  args !! "end" = Some e -> PyStr.is_empty e = false -> to_datetime e = Naive b ->
  b < a ->
  apply_filters to_datetime DF args = Ok {| columns := columns DF; rows := [] |}.
Proof.
  intros (Hd & Hl & Hv)%load_df_dataset_ok%dataset_ok_columns Hu
         Hs Hse Ha He Hee Hb Hlt.
  rewrite apply_filters_rows; try done.
  - do 2 f_equal. apply filter_none. intros r. unfold satisfies.
    rewrite Hs, He. unfold clause, bound. rewrite Hse, Hee, Ha, Hb.
    destruct (row_get "date" DF r) as [| | |t]; simpl;
      rewrite ?andb_false_r; try done.
    destruct (Z.leb_spec a t), (Z.leb_spec t b); rewrite ?andb_false_r; try done. lia.
  - unfold naive_bounds, clause. by rewrite Hs, He, Hse, Hee, Ha, Hb.
Qed.

(** X19: a [start] (resp. [end]) that does not parse raises nothing of its
    own and bounds nothing.  Whatever the frame and the rest of the Query, the
    filter does with the clause exactly what it does without it; and on the
    loaded Dataset (its labels each naming one column), for a Query whose
    other bound carries no offset, it returns, and returns the very View of
    the same request without the clause. *)
Theorem unparseable_bound_is_ignored csv DF args s :
  load_df to_datetime_cell csv = Ok DF ->
  unique_labels DF = true ->
  naive_bounds to_datetime args = true ->
  to_datetime s = NaT ->
  (exists v, apply_filters to_datetime DF (<["start" := s]> args) = Ok v /\
             apply_filters to_datetime DF (delete "start" args) = Ok v) /\
  (exists v, apply_filters to_datetime DF (<["end" := s]> args) = Ok v /\
             apply_filters to_datetime DF (delete "end" args) = Ok v) /\
  (forall df args',
     apply_filters to_datetime df (<["start" := s]> args') =
     apply_filters to_datetime df (delete "start" args') /\
     apply_filters to_datetime df (<["end" := s]> args') =
     apply_filters to_datetime df (delete "end" args')).
Proof.
  intros Hload Hu Hnb Hs.
  pose proof (load_df_dataset_ok _ _ _ Hload) as (Hd & Hl & Hv)%dataset_ok_columns.
  destruct (apply_filters_view to_datetime DF (delete "start" args) Hd Hl Hv Hu
              (naive_bounds_delete _ _ _ Hnb)) as (v1 & H1 & _).
  destruct (apply_filters_view to_datetime DF (delete "end" args) Hd Hl Hv Hu
              (naive_bounds_delete _ _ _ Hnb)) as (v2 & H2 & _).
  split; [|split].
  - exists v1. split; [|done].
    rewrite apply_filters_ignores; [done|in_list|]. right. split; [by left|done].
  - exists v2. split; [|done].
    rewrite apply_filters_ignores; [done|in_list|]. right. split; [by right|done].
  - intros df args'. split.
    + apply apply_filters_ignores; [in_list|]. right. split; [by left|done].
    + apply apply_filters_ignores; [in_list|]. right. split; [by right|done].
Qed.

(** X20: a per-request error the code has.  A table may load with two
    labels that normalise to [location]; a Query on the location of such a
    Dataset is then not answered: the filter raises [ValueError]. *)
Theorem repeated_location_aborts_query csv DF args s :
  load_df to_datetime_cell csv = Ok DF ->
  (1 < occurrences "location" (columns DF))%nat ->
  truthy (args !! "level") = false ->
  args !! "location" = Some s ->
  PyStr.is_empty s = false ->
  exists msg, apply_filters to_datetime DF args = Raise (ValueError msg).
Proof.
  intros _ Hocc Hlevel Hloc Hs. unfold apply_filters.
  rewrite Hlevel, Hloc. cbn [bind truthy]. rewrite Hs. cbn [negb].
  destruct (filter_by_repeated "location" (eq_str (default "" (Some s))) DF Hocc)
    as [msg ->].
  cbn [bind]. eauto.
Qed.

End FilterProperties.

(* ===================================================================== *)
(** ** More on the Aggregator *)
(* ===================================================================== *)

Lemma lookup_with_total_is_Some c df lst kpi k :
  is_Some (with_total c df lst kpi !! k) -> k = c \/ is_Some (kpi !! k).
Proof.
  unfold with_total. destruct (_ && _); [|by right].
  destruct (decide (k = c)) as [->|Hne]; [by left|].
  rewrite lookup_insert_ne by done. by right.
Qed.

Lemma lookup_with_7d_is_Some c key df n kpi k :
  is_Some (with_7d c key df n kpi !! k) -> k = key \/ is_Some (kpi !! k).
Proof.
  unfold with_7d. destruct (has_column c df); [|by right].
  destruct (decide (k = key)) as [->|Hne]; [by left|].
  rewrite lookup_insert_ne by done. by right.
Qed.

Section AggregatorProperties.

Variable to_datetime : string -> scalar.
Variable to_datetime_cell : list value -> value -> option Timestamp.
Variable py_int : string -> option Z.
Variable sort_by : nat -> list Row -> list Row.
Hypothesis sort_asc : ascending_sort sort_by.

(** X8: a per-request error the code has.  When the schema has
    [total_cases] and the last Record of the sorted View holds text there
    that [int] refuses, [summary] raises [ValueError] instead of
    answering. *)
Theorem summary_raises_on_text_total csv DF args v :
  load_df to_datetime_cell csv = Ok DF ->
  unique_labels DF = true ->
  apply_filters to_datetime DF args = Ok v ->
  exists sorted,
    sort_values sort_by "date" v = Ok sorted /\
    forall lst s,
      last (rows sorted) = Some lst ->
      row_get "total_cases" DF lst = Str s ->
      py_int s = None ->
      exists msg, summary to_datetime py_int sort_by DF args = Raise (ValueError msg).
Proof.
  intros Hload Hu Hf. pose proof (load_df_dataset_ok _ _ _ Hload) as Hok.
  pose proof (load_df_date_once _ _ _ Hload) as Hocc.
  destruct (sorted_view sort_by sort_asc DF v Hok Hocc (apply_filters_is_view _ _ _ _ Hf))
    as (sorted & i & Hs & Hi & Hcols & Hrows & Hts).
  exists sorted. split; [done|]. intros lst s Hlast Hcell Hint.
  assert (Hne : rows v <> []).
  { intros E. rewrite Hrows, E in Hlast.
    pose proof (sort_by_perm sort_by sort_asc i []) as Hp.
    apply Permutation_nil_r in Hp. by rewrite Hp in Hlast. }
  destruct (summary_reaches_totals to_datetime py_int sort_by sort_asc DF args v
              Hok Hocc Hf Hne)
    as (sorted' & lst' & tmin & tmax & Hs' & _ & _ & Hlast' & _ & _ & ->).
  rewrite Hs in Hs'. injection Hs' as <-. rewrite Hlast in Hlast'.
  injection Hlast' as <-. cbv zeta.
  rewrite <- (row_get_columns "total_cases" sorted DF lst Hcols) in Hcell.
  unfold kpi_total at 1.
  assert (Hh : has_column "total_cases" sorted = true).
  { destruct (has_column "total_cases" sorted) eqn:E; [done|].
    apply has_column_false in E. unfold row_get in Hcell. by rewrite E in Hcell. }
  rewrite Hh. apply has_column_index in Hh as [j Hj].
  rewrite (label_index_unique _ _ sorted j)
    by (by rewrite ?(unique_labels_columns sorted DF Hcols)).
  rewrite (row_get_index _ _ _ _ Hj) in Hcell. cbn [bind]. rewrite Hcell.
  cbn [notna int]. rewrite Hint. cbn [bind]. eauto.
Qed.

(** X9: on a non-empty View [summary] counts the Records of the View,
    sends no message, always gives [min_date] and [max_date], and gives no
    KPI besides the six it knows. *)
Theorem summary_kpi_keys csv DF args v :
  load_df to_datetime_cell csv = Ok DF ->
  unique_labels DF = true ->
  numeric_fields DF = true ->
  apply_filters to_datetime DF args = Ok v ->
  rows v <> [] ->
  exists p,
    summary to_datetime py_int sort_by DF args = Ok p /\
    s_count p = Z.of_nat (length (rows v)) /\
    s_message p = None /\
    is_Some (s_kpi p !! "min_date") /\
    is_Some (s_kpi p !! "max_date") /\
    forall k, is_Some (s_kpi p !! k) ->
              k ∈ ["min_date"; "max_date"; "total_cases"; "total_deaths";
                   "new_cases_7d"; "new_deaths_7d"].
Proof.
  intros Hok%load_df_dataset_ok Hu Hnum Hf Hne.
  destruct (summary_nonempty to_datetime py_int sort_by sort_asc DF args v
              Hok Hu Hnum Hf Hne)
    as (sorted & lst & tmin & tmax & n1 & n2 & _ & _ & _ & _ & _ & _ & _ & _ & Hsum).
  eexists. split; [exact Hsum|]. cbn [s_count s_message s_kpi].
  split; [done|]. split; [done|].
  split.
  { rewrite !lookup_with_7d_ne, !lookup_with_total_ne by done.
    rewrite lookup_insert_ne by done. rewrite lookup_insert_eq. eauto. }
  split.
  { rewrite !lookup_with_7d_ne, !lookup_with_total_ne by done.
    rewrite lookup_insert_eq. eauto. }
  intros k Hk.
  apply lookup_with_7d_is_Some in Hk as [->|Hk]; [in_list|].
  apply lookup_with_7d_is_Some in Hk as [->|Hk]; [in_list|].
  apply lookup_with_total_is_Some in Hk as [->|Hk]; [in_list|].
  apply lookup_with_total_is_Some in Hk as [->|Hk]; [in_list|].
  destruct (decide (k = "max_date")) as [->|H1]; [in_list|].
  rewrite lookup_insert_ne in Hk by done.
  destruct (decide (k = "min_date")) as [->|H2]; [in_list|].
  rewrite lookup_insert_ne, lookup_empty in Hk by done. by destruct Hk.
Qed.

(** X10: [min_date] and [max_date] are the dates of the first and of the
    last Record of the View in sort order, so that [max_date] is the date of
    the very Record the totals are read from, and [min_date] is not after
    [max_date]. *)
Theorem summary_date_range csv DF args v :
  load_df to_datetime_cell csv = Ok DF ->
  unique_labels DF = true ->
  numeric_fields DF = true ->
  apply_filters to_datetime DF args = Ok v ->
  rows v <> [] ->
  exists sorted p first lst tfirst tlast,
    sort_values sort_by "date" v = Ok sorted /\
    summary to_datetime py_int sort_by DF args = Ok p /\
    head (rows sorted) = Some first /\
    last (rows sorted) = Some lst /\
    row_get "date" DF first = Ts tfirst /\
    row_get "date" DF lst = Ts tlast /\
    tfirst <= tlast /\
    s_kpi p !! "min_date" = Some (Str (Calendar.isoformat (Calendar.date tfirst))) /\
    s_kpi p !! "max_date" = Some (Str (Calendar.isoformat (Calendar.date tlast))).
Proof.
  intros Hload Hu Hnum Hf Hne. pose proof (load_df_dataset_ok _ _ _ Hload) as Hok.
  destruct (sorted_view sort_by sort_asc DF v Hok (load_df_date_once _ _ _ Hload)
              (apply_filters_is_view _ _ _ _ Hf))
    as (sorted & i & Hs & Hi & _ & Hrows & Hts).
  destruct (summary_nonempty to_datetime py_int sort_by sort_asc DF args v
              Hok Hu Hnum Hf Hne)
    as (sorted' & lst & tmin & tmax & n1 & n2 & Hs' & Hcols & Hperm & Hlast & Hin
        & [Hmin1 Hmin2] & [Hmax1 Hmax2] & _ & Hsum).
  rewrite Hs in Hs'. injection Hs' as <-.
  assert (Hget : forall r, row_get "date" DF r = get i r).
  { intros r. by apply row_get_index. }
  assert (Hsorted : Sorted (fun a b => key_le i a b = true) (rows sorted)).
  { rewrite Hrows. apply (sort_by_sorted sort_by sort_asc). }
  destruct (head (rows sorted)) as [first|] eqn:Hhead.
  2:{ destruct (rows sorted); [|done]. by apply elem_of_nil in Hin. }
  assert (Hfin : first ∈ rows sorted).
  { destruct (rows sorted); [done|]. injection Hhead as ->. apply list_elem_of_here. }
  pose proof (sorted_head_earliest i _ first Hsorted Hhead) as Hearly.
  pose proof (sorted_last_latest i _ lst Hsorted Hlast) as Hlate.
  pose proof (proj1 (Forall_forall _ _) Hts first Hfin) as Hf1.
  pose proof (proj1 (Forall_forall _ _) Hts lst Hin) as Hl1. simpl in Hf1, Hl1.
  destruct (get i first) as [| | |tfirst] eqn:Hdf; try done.
  destruct (get i lst) as [| | |tlast] eqn:Hdl; try done.
  assert (Hle : forall r t, r ∈ rows sorted -> get i r = Ts t ->
                            tfirst <= t <= tlast).
  { intros r t Hr Ht.
    pose proof (proj1 (Forall_forall _ _) Hearly r Hr) as H1.
    pose proof (proj1 (Forall_forall _ _) Hlate r Hr) as H2. simpl in H1, H2.
    unfold key_le in H1, H2. rewrite Hdf, Ht in H1. rewrite Hdl, Ht in H2.
    apply Z.leb_le in H1, H2. lia. }
  assert (Hbounds : forall r t, r ∈ rows sorted -> get i r = Ts t ->
                                tmin <= t <= tmax).
  { intros r t Hr Ht. rewrite Hperm in Hr. rewrite <- Hget in Ht.
    pose proof (proj1 (Forall_forall _ _) Hmin2 r Hr t Ht).
    pose proof (proj1 (Forall_forall _ _) Hmax2 r Hr t Ht). lia. }
  apply list_elem_of_fmap in Hmin1 as (rmin & Hrmin & Hrmin').
  apply list_elem_of_fmap in Hmax1 as (rmax & Hrmax & Hrmax').
  rewrite <- Hperm in Hrmin', Hrmax'. rewrite Hget in Hrmin, Hrmax.
  assert (tfirst = tmin).
  { pose proof (Hle rmin tmin Hrmin' (eq_sym Hrmin)).
    pose proof (Hbounds first tfirst Hfin Hdf). lia. }
  assert (tlast = tmax).
  { pose proof (Hle rmax tmax Hrmax' (eq_sym Hrmax)).
    pose proof (Hbounds lst tlast Hin Hdl). lia. }
  subst tmin tmax.
  eexists sorted, _, first, lst, tfirst, tlast. split; [done|].
  split; [exact Hsum|]. cbn [s_kpi].
  split; [done|]. split; [done|].
  split; [by rewrite Hget|]. split; [by rewrite Hget|].
  split; [by apply (Hle lst tlast)|].
  split.
  - rewrite !lookup_with_7d_ne, !lookup_with_total_ne by done.
    rewrite lookup_insert_ne by done. apply lookup_insert_eq.
  - rewrite !lookup_with_7d_ne, !lookup_with_total_ne by done.
    apply lookup_insert_eq.
Qed.

End AggregatorProperties.

(* ===================================================================== *)
(** ** More on the record listing *)
(* ===================================================================== *)

Lemma Sorted_drop {A} (R : A -> A -> Prop) n l : Sorted R l -> Sorted R (drop n l).
Proof.
  revert l. induction n as [|n IH]; intros l Hs; [done|].
  destruct l as [|x l]; [done|]. simpl. apply IH. by apply Sorted_inv in Hs as [? _].
Qed.

Lemma last_tail_rows {A} n (l : list A) :
  (0 < n)%nat -> last (tail_rows n l) = last l.
Proof.
  intros Hn. unfold tail_rows.
  rewrite <- (take_drop (length l - n) l) at 3. rewrite last_app.
  destruct (last (drop (length l - n) l)) eqn:E; [done|].
  apply last_None in E. apply (f_equal length) in E.
  rewrite length_drop in E. simpl in E.
  destruct l; [done|]. simpl in E. lia.
Qed.

Lemma elem_of_List_filter {A} (p : A -> bool) l x :
  x ∈ List.filter p l <-> x ∈ l /\ p x = true.
Proof. by rewrite !list_elem_of_In, filter_In. Qed.

Section ListingProperties.

Variable to_datetime : string -> scalar.
Variable to_datetime_cell : list value -> value -> option Timestamp.
Variable py_int : string -> option Z.
Variable sort_by : nat -> list Row -> list Row.
Hypothesis sort_asc : ascending_sort sort_by.

(** X11: every dict that [cases] hands to [jsonify] has the same keys, each
    once: the allow-listed columns that the schema has, and nothing else; a
    column of the table that is not allow-listed is never sent. *)
Theorem cases_record_keys csv DF args v :
  load_df to_datetime_cell csv = Ok DF ->
  unique_labels DF = true ->
  apply_filters to_datetime DF args = Ok v ->
  exists p,
    cases to_datetime py_int sort_by DF args = Ok p /\
    Forall (fun record =>
              List.NoDup (map fst record) /\
              forall k, k ∈ map fst record <->
                        k ∈ allow_list /\ has_column k DF = true)
           (c_data p).
Proof.
  intros Hload Hu Hf. pose proof (load_df_dataset_ok _ _ _ Hload) as Hok.
  destruct (sorted_view sort_by sort_asc DF v Hok (load_df_date_once _ _ _ Hload)
              (apply_filters_is_view _ _ _ _ Hf))
    as (sorted & i & Hs & Hi & Hcols & _).
  eexists. split; [exact (cases_Ok to_datetime py_int sort_by sort_asc DF args v sorted
                            Hok Hu Hf Hs)|].
  cbn [c_data]. apply Forall_map, Forall_forall. intros r _. simpl.
  unfold listed_record. rewrite map_map. cbn [fst]. rewrite map_id.
  assert (E : List.filter (fun c => has_column c sorted) allow_list
              = List.filter (fun c => has_column c DF) allow_list).
  { apply filter_ext. intros c. unfold has_column. by rewrite Hcols. }
  rewrite E. split; [apply List.NoDup_filter, allow_list_distinct|].
  intros k. apply (elem_of_List_filter (fun c => has_column c DF)).
Qed.

(** X12: [cases] lists at most 20000 Records and at most the Records of
    the View, and lists none only when the View is empty: a limit of 0 or
    below still lists one Record. *)
Theorem cases_count_bounds csv DF args v :
  load_df to_datetime_cell csv = Ok DF ->
  unique_labels DF = true ->
  apply_filters to_datetime DF args = Ok v ->
  exists p,
    cases to_datetime py_int sort_by DF args = Ok p /\
    c_count p = Z.of_nat (length (c_data p)) /\
    0 <= c_count p <= 20000 /\
    c_count p <= Z.of_nat (length (rows v)) /\
    (c_count p = 0 <-> rows v = []).
Proof.
  intros Hload Hu Hf. pose proof (load_df_dataset_ok _ _ _ Hload) as Hok.
  destruct (sorted_view sort_by sort_asc DF v Hok (load_df_date_once _ _ _ Hload)
              (apply_filters_is_view _ _ _ _ Hf))
    as (sorted & i & Hs & Hi & Hcols & Hrows & _).
  eexists. split; [exact (cases_Ok to_datetime py_int sort_by sort_asc DF args v sorted
                            Hok Hu Hf Hs)|].
  cbn [c_count c_data]. rewrite length_map, tail_rows_length.
  assert (Hlen : length (rows sorted) = length (rows v)).
  { rewrite Hrows. apply (sort_by_length sort_by sort_asc). }
  rewrite Hlen. pose proof (limit_n_range py_int args) as Hn.
  split; [done|]. split; [lia|]. split; [lia|].
  split.
  - intros H. destruct (rows v); [done|]. simpl in H. lia.
  - intros ->. simpl. lia.
Qed.

(** X13: the Records are listed oldest first: they are the end of the
    sorted View, each dated no later than the next, and when any is listed
    the last one listed is the last Record of the sorted View. *)
Theorem cases_ascending csv DF args v :
  load_df to_datetime_cell csv = Ok DF ->
  unique_labels DF = true ->
  apply_filters to_datetime DF args = Ok v ->
  exists sorted p listed,
    sort_values sort_by "date" v = Ok sorted /\
    cases to_datetime py_int sort_by DF args = Ok p /\
    c_data p = map (listed_record sorted) listed /\
    listed `suffix_of` rows sorted /\
    Sorted (fun a b => forall x y,
              row_get "date" sorted a = Ts x -> row_get "date" sorted b = Ts y -> x <= y)
           listed /\
    last listed = last (rows sorted).
Proof.
  intros Hload Hu Hf. pose proof (load_df_dataset_ok _ _ _ Hload) as Hok.
  destruct (sorted_view sort_by sort_asc DF v Hok (load_df_date_once _ _ _ Hload)
              (apply_filters_is_view _ _ _ _ Hf))
    as (sorted & i & Hs & Hi & Hcols & Hrows & _).
  eexists sorted, _, _. split; [done|].
  split; [exact (cases_Ok to_datetime py_int sort_by sort_asc DF args v sorted
                   Hok Hu Hf Hs)|].
  cbn [c_data]. split; [done|]. split; [apply suffix_drop|].
  split.
  - apply Sorted_drop. by apply (sort_values_sorted_by_date sort_by sort_asc v sorted Hs).
  - apply last_tail_rows. pose proof (limit_n_range py_int args). lia.
Qed.

End ListingProperties.

(* ===================================================================== *)
(** ** The discovery endpoint at work *)
(* ===================================================================== *)

Lemma NoDup_List_filter {A} (p : A -> bool) l : NoDup l -> NoDup (List.filter p l).
Proof.
  induction 1 as [|x l Hx _ IH]; simpl; [constructor|].
  destruct (p x); [|done]. apply NoDup_cons. split; [|done].
  rewrite elem_of_List_filter. by intros [? _].
Qed.

Lemma elem_of_unique l x : x ∈ unique l <-> x ∈ l.
Proof.
  induction l as [|y l IH]; [done|]. cbn [unique].
  rewrite !elem_of_cons, elem_of_List_filter, IH, negb_true_iff, bool_decide_eq_false.
  destruct (decide (x = y)) as [->|Hne].
  - split; by left.
  - split; (intros [?|H]; [done|right]); [by destruct H|done].
Qed.

Lemma NoDup_unique l : NoDup (unique l).
Proof.
  induction l as [|y l IH]; [constructor|]. cbn [unique]. apply NoDup_cons. split.
  - rewrite elem_of_List_filter, negb_true_iff, bool_decide_eq_false.
    by intros [_ ?].
  - by apply NoDup_List_filter.
Qed.

Global Instance value_le_total : Total value_le.
Proof.
  intros a b. unfold value_le, value_leb.
  destruct a as [|x|x|x], b as [|y|y|y]; simpl; auto.
  - apply String.leb_total.
  - destruct (Z.leb_spec x y), (Z.leb_spec y x); auto; lia.
  - destruct (Z.leb_spec x y), (Z.leb_spec y x); auto; lia.
Qed.

Lemma Sorted_le_NoDup_lt l : Sorted value_le l -> NoDup l -> Sorted value_lt l.
Proof.
  induction 1 as [|x l _ IH Hhd]; [constructor|].
  intros [Hx Hl]%NoDup_cons. constructor; [by apply IH|].
  destruct Hhd as [|y l Hxy]; constructor. split; [done|].
  intros ->. apply Hx, list_elem_of_here.
Qed.

Lemma py_sorted_text l :
  Forall (fun v => exists s, v = Str s) l -> py_sorted l = Ok (merge_sort value_le l).
Proof.
  intros H. unfold py_sorted. destruct l as [|x l]; [done|].
  assert (E : forallb (same_kind x) (x :: l) = true); [|by rewrite E].
  apply forallb_Forall. apply Forall_cons in H as H'. destruct H' as [[s ->] _].
  eapply Forall_impl; [exact H|]. by intros v [t ->].
Qed.

(** The sorted distinct values of a column of text. *)
Lemma sorted_unique_text cells :
  Forall (fun v => text_cell v = true) cells ->
  exists l,
    sorted_unique cells = Ok l /\
    Sorted value_lt l /\
    forall x, x ∈ l <-> x <> NA /\ x ∈ cells.
Proof.
  intros Htext. unfold sorted_unique.
  assert (Hin : forall x, x ∈ unique (List.filter notna cells) <-> x <> NA /\ x ∈ cells).
  { intros x. rewrite elem_of_unique, elem_of_List_filter.
    destruct x; simpl; split; intros [? ?]; done. }
  rewrite py_sorted_text.
  - eexists. split; [done|]. split.
    + apply Sorted_le_NoDup_lt; [apply Sorted_merge_sort, _|].
      rewrite merge_sort_Permutation. apply NoDup_unique.
    + intros x. by rewrite merge_sort_Permutation.
  - apply Forall_forall. intros x [Hna Hx]%Hin.
    pose proof (proj1 (Forall_forall _ _) Htext x Hx) as Ht.
    destruct x; try done. eauto.
Qed.

Lemma mapM_Forall2 {A B} (f : A -> M B) (R : A -> B -> Prop) l :
  Forall (fun x => exists y, f x = Ok y /\ R x y) l ->
  exists ys, mapM f l = Ok ys /\ Forall2 R l ys.
Proof.
  induction 1 as [|x l (y & Hy & HR) _ (ys & Hys & HRs)]; [by exists []|].
  exists (y :: ys). cbn [mapM]. rewrite Hy, Hys. split; [done|]. by constructor.
Qed.

Lemma eq_cell_Str a v : eq_cell (Str a) v = true <-> v = Str a.
Proof.
  destruct v as [|b| |]; simpl; try by split.
  rewrite String.eqb_eq. split; [by intros ->|by intros [= ->]].
Qed.

Lemma text_column_Forall c df i :
  index_of c (columns df) = Some i ->
  text_column c df = true ->
  Forall (fun v => text_cell v = true) (series i df).
Proof.
  intros Hi H%forallb_Forall. unfold series. apply Forall_map.
  eapply Forall_impl; [exact H|]. intros r Hr. simpl.
  by rewrite <- (row_get_index _ _ _ _ Hi).
Qed.

(** What [metadata] answers on a Dataset whose labels each name one column
    and whose locations and levels are text. *)
Lemma metadata_Ok DF :
  dataset_ok DF = true ->
  unique_labels DF = true ->
  text_column "location_level" DF = true ->
  text_column "location" DF = true ->
  exists m,
    metadata DF = Ok m /\
    m_row_count m = Z.of_nat (length (rows DF)) /\
    m_columns m = columns DF /\
    (Sorted value_lt (m_levels m) /\
     forall lv, lv ∈ m_levels m <->
                lv <> NA /\ exists r, r ∈ rows DF /\ row_get "location_level" DF r = lv) /\
    Forall2
      (fun lv entry =>
         fst entry = lv /\
         Sorted value_lt (snd entry) /\
         forall x, x ∈ snd entry <->
                   x <> NA /\
                   exists r, r ∈ rows DF /\
                             row_get "location_level" DF r = lv /\
                             row_get "location" DF r = x)
      (m_levels m) (m_locations_by_level m) /\
    (rows DF <> [] ->
     exists tmin tmax,
       m_min_date m = Calendar.isoformat (Calendar.date tmin) /\
       m_max_date m = Calendar.isoformat (Calendar.date tmax) /\
       (Ts tmin ∈ map (row_get "date" DF) (rows DF) /\
        Forall (fun r => forall t, row_get "date" DF r = Ts t -> tmin <= t) (rows DF)) /\
       (Ts tmax ∈ map (row_get "date" DF) (rows DF) /\
        Forall (fun r => forall t, row_get "date" DF r = Ts t -> t <= tmax) (rows DF))).
Proof.
  intros Hok Hu Htv Htl.
  destruct (dataset_ok_columns DF Hok)
    as ([id Hid]%has_column_index & [il Hil]%has_column_index & [iv Hiv]%has_column_index).
  assert (Hdates : Forall (fun v => is_timestamp v = true) (series id DF)).
  { unfold dataset_ok in Hok. apply andb_prop in Hok as [_ Hrows].
    apply forallb_Forall in Hrows. unfold series. apply Forall_map.
    eapply Forall_impl; [exact Hrows|]. intros r Hr. simpl.
    unfold valid_date in Hr. by rewrite (row_get_index _ _ _ _ Hid) in Hr. }
  destruct (timestamps_valid _ Hdates) as (ts & Hts & Hmap).
  destruct (sorted_unique_text _ (text_column_Forall _ _ _ Hiv Htv))
    as (levels & Hlevels & Hsorted & Hin).
  assert (Hlv : forall lv, lv ∈ levels <->
            lv <> NA /\ exists r, r ∈ rows DF /\ row_get "location_level" DF r = lv).
  { intros lv. rewrite Hin. unfold series. rewrite list_elem_of_fmap.
    split; intros [Hna (r & H1 & H2)]; (split; [done|]); exists r;
      rewrite (row_get_index _ _ _ _ Hiv) in *; done. }
  set (R := fun (lv : value) (entry : value * list value) =>
              fst entry = lv /\
              Sorted value_lt (snd entry) /\
              forall x, x ∈ snd entry <->
                        x <> NA /\
                        exists r, r ∈ rows DF /\
                                  row_get "location_level" DF r = lv /\
                                  row_get "location" DF r = x).
  destruct (mapM_Forall2
              (fun lv =>
                 let* cells := loc_eq "location_level" lv "location" DF in
                 let* locations := sorted_unique cells in
                 Ok (lv, locations)) R levels) as (grouped & Hgrouped & HR).
  { apply Forall_forall. intros lv [Hna (r0 & Hr0 & Hr0')]%Hlv.
    assert (exists a, lv = Str a) as [a ->].
    { apply forallb_Forall in Htv.
      pose proof (proj1 (Forall_forall _ _) Htv r0 Hr0) as Ht. simpl in Ht.
      rewrite Hr0' in Ht. destruct lv; try done. eauto. }
    unfold loc_eq.
    rewrite (label_index_unique _ _ _ iv Hu Hiv), (label_index_unique _ _ _ il Hu Hil).
    cbn [bind].
    destruct (sorted_unique_text
                (map (get il) (List.filter (fun r => eq_cell (Str a) (get iv r)) (rows DF))))
      as (locs & Hlocs & Hls & Hlin).
    { apply Forall_map. eapply Forall_sublist_of; [apply filter_sublist|].
      apply forallb_Forall in Htl. eapply Forall_impl; [exact Htl|].
      intros r Hr. simpl in *. by rewrite <- (row_get_index _ _ _ _ Hil). }
    rewrite Hlocs. cbn [bind]. eexists. split; [done|].
    split; [done|]. split; [done|]. cbn [snd]. intros x. rewrite Hlin.
    rewrite list_elem_of_fmap.
    split; intros [Hx (r & H1 & H2)]; (split; [done|]); exists r.
    - apply elem_of_List_filter in H2 as [H2 H3]. apply eq_cell_Str in H3.
      by rewrite (row_get_index _ _ _ _ Hiv), (row_get_index _ _ _ _ Hil).
    - destruct H2 as [H2 H3].
      rewrite (row_get_index _ _ _ _ Hiv) in H2.
      rewrite (row_get_index _ _ _ _ Hil) in H3.
      split; [done|]. apply elem_of_List_filter. split; [done|].
      by apply eq_cell_Str. }
  eexists. split.
  { unfold metadata.
    rewrite (label_index_unique _ _ _ id Hu Hid), (label_index_unique _ _ _ iv Hu Hiv).
    cbn [bind]. unfold date_bound. rewrite Hts. cbn [bind].
    instantiate (1 := {| m_min_date := match ts with
                                       | [] => "NaT"
                                       | t :: ts' => Calendar.isoformat
                                                       (Calendar.date (foldl Z.min t ts'))
                                       end;
                         m_max_date := match ts with
                                       | [] => "NaT"
                                       | t :: ts' => Calendar.isoformat
                                                       (Calendar.date (foldl Z.max t ts'))
                                       end;
                         m_row_count := Z.of_nat (length (rows DF));
                         m_columns := columns DF;
                         m_levels := levels;
                         m_locations_by_level := grouped |}).
    destruct ts; cbn [bind]; rewrite Hlevels; cbn [bind]; rewrite Hgrouped; done. }
  cbn [m_row_count m_columns m_levels m_locations_by_level m_min_date m_max_date].
  split; [done|]. split; [done|]. split; [done|]. split; [exact HR|].
  intros Hne. destruct ts as [|t ts].
  { unfold series in Hmap. by destruct (rows DF). }
  destruct (foldl_min_least t ts) as [Hmin1 Hmin2].
  destruct (foldl_max_greatest t ts) as [Hmax1 Hmax2].
  assert (Hd : map (row_get "date" DF) (rows DF) = map Ts (t :: ts)).
  { rewrite Hmap. unfold series. apply map_ext. intros r.
    by rewrite (row_get_index _ _ _ _ Hid). }
  assert (Hmem : forall r u, r ∈ rows DF -> row_get "date" DF r = Ts u -> u ∈ t :: ts).
  { intros r u Hr Hru.
    assert (Ts u ∈ map Ts (t :: ts)) as (u' & [= ->] & Hu')%list_elem_of_fmap; [|done].
    rewrite <- Hd, <- Hru. by apply list_elem_of_fmap_2. }
  exists (foldl Z.min t ts), (foldl Z.max t ts).
  split; [done|]. split; [done|]. split.
  - split; [rewrite Hd; by apply list_elem_of_fmap_2|].
    apply Forall_forall. intros r Hr u Hru.
    by apply (proj1 (Forall_forall _ _) Hmin2 u), (Hmem r).
  - split; [rewrite Hd; by apply list_elem_of_fmap_2|].
    apply Forall_forall. intros r Hr u Hru.
    by apply (proj1 (Forall_forall _ _) Hmax2 u), (Hmem r).
Qed.

Lemma Forall2_fst_snd {A B} (R : A -> A * B -> Prop) l k :
  Forall2 R l k ->
  (forall x e, R x e -> fst e = x) ->
  map fst k = l /\ Forall (fun e => R (fst e) e) k.
Proof.
  intros H Hfst. induction H as [|x e l k Hxe _ [IH1 IH2]]; [done|].
  pose proof (Hfst x e Hxe) as Hx. split.
  - simpl. by rewrite Hx, IH1.
  - constructor; [by rewrite Hx|done].
Qed.

Lemma sorted_lt_singleton l a :
  Sorted value_lt l -> (forall x, x ∈ l <-> x = a) -> l = [a].
Proof.
  intros Hs Hin. destruct l as [|x l].
  - by pose proof (proj2 (Hin a) eq_refl) as H%elem_of_nil.
  - pose proof (proj1 (Hin x) (list_elem_of_here _ _)) as ->.
    destruct l as [|y l]; [done|].
    pose proof (proj1 (Hin y) (list_elem_of_further _ _ _ (list_elem_of_here _ _))) as ->.
    apply Sorted_inv in Hs as [_ Hhd]. apply HdRel_inv in Hhd as [_ Hne]. done.
Qed.

Section Discovery.

Variable to_datetime : string -> scalar.
Variable to_datetime_cell : list value -> value -> option Timestamp.

(** Without a [location_level] column in the table, every Record of the
    Dataset has the level ["Unknown"]. *)
Lemma load_df_unknown csv DF :
  load_df to_datetime_cell csv = Ok DF ->
  has_column "location_level" (normalize_columns csv) = false ->
  Forall (fun r => row_get "location_level" DF r = Str "Unknown") (rows DF).
Proof.
  intros (i & _ & _ & Hcols & Hrows)%load_df_Ok Hv.
  rewrite Hv in Hcols, Hrows. apply has_column_false in Hv.
  rewrite Hrows. apply Forall_map, Forall_forall. intros r _. simpl.
  rewrite (row_get_index _ _ (length (columns (normalize_columns csv)))).
  - apply get_set_cell_eq.
  - rewrite Hcols. by apply index_of_fresh.
Qed.

(** X14: on a Dataset whose labels each name one column and whose levels
    and locations are text, [metadata]
    answers with the number of Records, the schema, and as [levels] the
    distinct level values of the Dataset, missing ones left out, each once
    and in strictly ascending order. *)
Theorem metadata_levels csv DF :
  load_df to_datetime_cell csv = Ok DF ->
  unique_labels DF = true ->
  text_column "location_level" DF = true ->
  text_column "location" DF = true ->
  exists m,
    metadata DF = Ok m /\
    m_row_count m = Z.of_nat (length (rows DF)) /\
    m_columns m = columns DF /\
    Sorted value_lt (m_levels m) /\
    forall lv, lv ∈ m_levels m <->
               lv <> NA /\ exists r, r ∈ rows DF /\ row_get "location_level" DF r = lv.
Proof.
  intros Hok%load_df_dataset_ok Hu Htv Htl.
  destruct (metadata_Ok DF Hok Hu Htv Htl) as (m & Hm & Hn & Hc & [Hs Hin] & _).
  by exists m.
Qed.

(** X15: on such a Dataset [locations_by_level] has one entry for each level, in the order
    of [levels]; the entry of a level lists the distinct locations of the
    Records of that level, missing ones left out, each once and in strictly
    ascending order. *)
Theorem metadata_locations_by_level csv DF :
  load_df to_datetime_cell csv = Ok DF ->
  unique_labels DF = true ->
  text_column "location_level" DF = true ->
  text_column "location" DF = true ->
  exists m,
    metadata DF = Ok m /\
    map fst (m_locations_by_level m) = m_levels m /\
    Forall (fun entry =>
              Sorted value_lt (snd entry) /\
              forall x, x ∈ snd entry <->
                        x <> NA /\
                        exists r, r ∈ rows DF /\
                                  row_get "location_level" DF r = fst entry /\
                                  row_get "location" DF r = x)
           (m_locations_by_level m).
Proof.
  intros Hok%load_df_dataset_ok Hu Htv Htl.
  destruct (metadata_Ok DF Hok Hu Htv Htl) as (m & Hm & _ & _ & _ & HR & _).
  exists m. split; [done|].
  apply Forall2_fst_snd in HR as [Hfst Hall]; [|by intros x e [? _]].
  split; [done|]. eapply Forall_impl; [exact Hall|].
  intros e (_ & Hs & Hin). done.
Qed.

(** X16: on such a Dataset with at least one Record, [min_date] and [max_date]
    of [metadata] are the least and the greatest date of the whole
    Dataset. *)
Theorem metadata_date_range csv DF :
  load_df to_datetime_cell csv = Ok DF ->
  unique_labels DF = true ->
  text_column "location_level" DF = true ->
  text_column "location" DF = true ->
  rows DF <> [] ->
  exists m tmin tmax,
    metadata DF = Ok m /\
    m_min_date m = Calendar.isoformat (Calendar.date tmin) /\
    m_max_date m = Calendar.isoformat (Calendar.date tmax) /\
    tmin <= tmax /\
    (Ts tmin ∈ map (row_get "date" DF) (rows DF) /\
     Forall (fun r => forall t, row_get "date" DF r = Ts t -> tmin <= t) (rows DF)) /\
    (Ts tmax ∈ map (row_get "date" DF) (rows DF) /\
     Forall (fun r => forall t, row_get "date" DF r = Ts t -> t <= tmax) (rows DF)).
Proof.
  intros Hok%load_df_dataset_ok Hu Htv Htl Hne.
  destruct (metadata_Ok DF Hok Hu Htv Htl) as (m & Hm & _ & _ & _ & _ & Hd).
  destruct (Hd Hne) as (tmin & tmax & H1 & H2 & Hmin & Hmax).
  exists m, tmin, tmax. repeat (split; [done|]). split; [|done].
  destruct Hmax as [(r & Hr & Hr')%list_elem_of_fmap _]. destruct Hmin as [_ Hmin].
  by apply (proj1 (Forall_forall _ _) Hmin r Hr').
Qed.

(** X17: what [metadata] lists as text can be asked for: for a level and a
    location, both strings, with the location listed under the level, the
    Query with that [level] and that [location] has a View with at least one
    Record. *)
Theorem listed_pair_has_records csv DF m level location locations :
  load_df to_datetime_cell csv = Ok DF ->
  unique_labels DF = true ->
  metadata DF = Ok m ->
  (Str level, locations) ∈ m_locations_by_level m ->
  Str location ∈ locations ->
  exists v,
    apply_filters to_datetime DF
      (<["level" := level]> (<["location" := location]> ∅)) = Ok v /\
    rows v <> [].
Proof.
  intros Hok%load_df_dataset_ok Hu Hm Hentry Hloc.
  destruct (dataset_ok_columns DF Hok)
    as (Hd & Hl & Hv).
  pose proof Hd as [id Hid]%has_column_index.
  pose proof Hl as [il Hil]%has_column_index.
  pose proof Hv as [iv Hiv]%has_column_index.
  assert (exists r, r ∈ rows DF /\
                    row_get "location_level" DF r = Str level /\
                    row_get "location" DF r = Str location) as (r & Hr & Hrl & Hrc).
  { unfold metadata in Hm.
    rewrite (label_index_unique _ _ _ id Hu Hid), (label_index_unique _ _ _ iv Hu Hiv)
      in Hm. cbn [bind] in Hm.
    destruct (date_bound Z.min _); [|done]. cbn [bind] in Hm.
    destruct (date_bound Z.max _); [|done]. cbn [bind] in Hm.
    destruct (sorted_unique (series iv DF)) as [levels|]; [|done]. cbn [bind] in Hm.
    destruct (mapM _ levels) as [grouped|] eqn:Hg; [|done]. cbn [bind] in Hm.
    injection Hm as <-. cbn [m_locations_by_level] in Hentry.
    clear -Hg Hentry Hloc Hil Hiv Hu.
    revert grouped Hg Hentry. induction levels as [|lv levels IH]; intros grouped Hg Hentry.
    { injection Hg as <-. by apply elem_of_nil in Hentry. }
    cbn [mapM] in Hg. unfold loc_eq in Hg at 1.
    rewrite (label_index_unique _ _ _ iv Hu Hiv), (label_index_unique _ _ _ il Hu Hil)
      in Hg. cbn [bind] in Hg.
    destruct (sorted_unique _) as [locs|] eqn:Hlocs; [|done]. cbn [bind] in Hg.
    destruct (mapM _ levels) as [rest|] eqn:Hrest; [|done]. cbn [bind] in Hg.
    injection Hg as <-. apply elem_of_cons in Hentry as [[= <- <-]|Hentry].
    - unfold sorted_unique, py_sorted in Hlocs.
      assert (Hin : Str location ∈ unique (List.filter notna
                (map (get il) (List.filter (fun r => eq_cell (Str level) (get iv r))
                                           (rows DF))))).
      { destruct (unique _) as [|x l] eqn:Hu'; [by injection Hlocs as <-|].
        destruct (forallb _ _); [|done]. injection Hlocs as <-.
        by rewrite merge_sort_Permutation in Hloc. }
      apply elem_of_unique, elem_of_List_filter in Hin as [Hin _].
      apply list_elem_of_fmap in Hin as (r & Hr1 & Hr2).
      apply elem_of_List_filter in Hr2 as [Hr2 Hr3]. apply eq_cell_Str in Hr3.
      exists r. by rewrite (row_get_index _ _ _ _ Hiv), (row_get_index _ _ _ _ Hil).
    - by apply (IH rest). }
  rewrite apply_filters_rows; try done.
  eexists. split; [done|]. cbn [rows].
  assert (Hsat : satisfies to_datetime DF
                   (<["level" := level]> (<["location" := location]> ∅)) r = true).
  { unfold satisfies. rewrite lookup_insert_eq.
    rewrite (lookup_insert_ne _ "level" "location") by done. rewrite lookup_insert_eq.
    rewrite !lookup_insert_ne, !lookup_empty by done.
    unfold clause. rewrite Hrl, Hrc. cbn [eq_str]. rewrite !String.eqb_refl.
    by destruct (PyStr.is_empty level), (PyStr.is_empty location). }
  intros Hnil.
  assert (r ∈ List.filter
                (satisfies to_datetime DF
                   (<["level" := level]> (<["location" := location]> ∅))) (rows DF))
    as Hmem by (by apply elem_of_List_filter).
  rewrite Hnil in Hmem. by apply elem_of_nil in Hmem.
Qed.

(** X18: when the table has no [location_level] column and the Dataset has
    a Record, ["Unknown"] is the one level [metadata] lists, and
    [locations_by_level] has the one entry of that level: the distinct
    locations of the whole Dataset, missing ones left out, each once and in
    strictly ascending order. *)
Theorem metadata_unknown_level csv DF :
  load_df to_datetime_cell csv = Ok DF ->
  unique_labels DF = true ->
  has_column "location_level" (normalize_columns csv) = false ->
  text_column "location" DF = true ->
  rows DF <> [] ->
  exists m locations,
    metadata DF = Ok m /\
    m_levels m = [Str "Unknown"] /\
    m_locations_by_level m = [(Str "Unknown", locations)] /\
    Sorted value_lt locations /\
    forall x, x ∈ locations <->
              x <> NA /\ exists r, r ∈ rows DF /\ row_get "location" DF r = x.
Proof.
  intros Hload Hu Hv Htl Hne. pose proof (load_df_unknown csv DF Hload Hv) as Hunk.
  pose proof (load_df_dataset_ok _ _ _ Hload) as Hok.
  assert (Htv : text_column "location_level" DF = true).
  { apply forallb_Forall. eapply Forall_impl; [exact Hunk|].
    intros r Hr. simpl in *. by rewrite Hr. }
  destruct (metadata_Ok DF Hok Hu Htv Htl) as (m & Hm & _ & _ & [Hs Hin] & HR & _).
  assert (Hlv : m_levels m = [Str "Unknown"]).
  { apply sorted_lt_singleton; [done|]. intros x. rewrite Hin. split.
    - intros [_ (r & Hr & <-)]. apply (proj1 (Forall_forall _ _) Hunk r Hr).
    - intros ->. split; [done|]. destruct (rows DF) as [|r rs]; [done|].
      exists r. split; [apply list_elem_of_here|].
      by apply Forall_cons in Hunk as [? _]. }
  rewrite Hlv in HR.
  destruct (m_locations_by_level m) as [|[lv locations] rest] eqn:Hg;
    [by apply Forall2_cons_nil_inv in HR|].
  apply Forall2_cons in HR as [(Hfst & Hsorted & Hlocs) Hrest].
  apply Forall2_nil_inv_l in Hrest as ->. cbn [fst snd] in *. subst lv.
  exists m, locations. split; [done|]. split; [done|]. split; [done|]. split; [done|].
  intros x. rewrite Hlocs. split.
  - intros [Hx (r & Hr & _ & Hr')]. eauto.
  - intros [Hx (r & Hr & Hr')]. split; [done|]. exists r. split; [done|].
    split; [|done]. apply (proj1 (Forall_forall _ _) Hunk r Hr).
Qed.

End Discovery.

(* ===================================================================== *)
(** ** The further properties at work on the sample data *)
(* ===================================================================== *)

Lemma normalize_label_fixed_points_witness :
  is_ascii "new_cases" = true /\
  (normalize_label "new_cases" = "new_cases" <-> canonical "new_cases" = true).
Proof.
  split; [evaluated|].
  apply normalize_label_fixed_points with (l := "new_cases");
    evaluated.
Defined.

Lemma load_df_location_level_witness :
  load_df Sample.iso_cell Sample.csv_gaps = Ok Sample.DF_gaps /\
  let df := normalize_columns Sample.csv_gaps in
  if has_column "location_level" df
  then columns Sample.DF_gaps = columns df
  else columns Sample.DF_gaps = columns df ++ ["location_level"] /\
       Forall (fun r => row_get "location_level" Sample.DF_gaps r = Str "Unknown") (rows Sample.DF_gaps).
Proof.
  split; [evaluated|].
  apply (load_df_location_level Sample.iso_cell Sample.csv_gaps Sample.DF_gaps);
    evaluated.
Defined.

Lemma apply_filters_conjunction_witness :
  load_df Sample.iso_cell Sample.csv_days = Ok Sample.DF_days /\
  unique_labels Sample.DF_days = true /\
  naive_bounds Sample.iso_scalar Sample.args_until = true /\
  apply_filters Sample.iso_scalar Sample.DF_days Sample.args_until =
  Ok {| columns := columns Sample.DF_days;
        rows := List.filter (satisfies Sample.iso_scalar Sample.DF_days Sample.args_until) (rows Sample.DF_days) |}.
Proof.
  split; [evaluated|].
  split; [evaluated|].
  split; [evaluated|].
  apply apply_filters_conjunction with (to_datetime_cell := Sample.iso_cell) (csv := Sample.csv_days);
    evaluated.
Defined.

Lemma apply_filters_idempotent_witness :
  load_df Sample.iso_cell Sample.csv_days = Ok Sample.DF_days /\
  unique_labels Sample.DF_days = true /\
  naive_bounds Sample.iso_scalar Sample.args_until = true /\
  exists v,
    apply_filters Sample.iso_scalar Sample.DF_days Sample.args_until = Ok v /\
    apply_filters Sample.iso_scalar v Sample.args_until = Ok v.
Proof.
  split; [evaluated|].
  split; [evaluated|].
  split; [evaluated|].
  apply apply_filters_idempotent with (to_datetime_cell := Sample.iso_cell) (csv := Sample.csv_days);
    evaluated.
Defined.

Lemma inverted_range_is_empty_witness :
  load_df Sample.iso_cell Sample.csv_days = Ok Sample.DF_days /\
  unique_labels Sample.DF_days = true /\
  Sample.args_inverted !! "start" = Some "2021-01-05" /\
  PyStr.is_empty "2021-01-05" = false /\
  Sample.iso_scalar "2021-01-05" = Naive 1609804800000000000 /\
  Sample.args_inverted !! "end" = Some "2021-01-02" /\
  PyStr.is_empty "2021-01-02" = false /\
  Sample.iso_scalar "2021-01-02" = Naive 1609545600000000000 /\
  1609545600000000000 < 1609804800000000000 /\
  apply_filters Sample.iso_scalar Sample.DF_days Sample.args_inverted = Ok {| columns := columns Sample.DF_days; rows := [] |}.
Proof.
  split; [evaluated|].
  split; [evaluated|].
  split; [evaluated|].
  split; [evaluated|].
  split; [evaluated|].
  split; [evaluated|].
  split; [evaluated|].
  split; [evaluated|].
  split; [evaluated|].
  apply inverted_range_is_empty with (to_datetime_cell := Sample.iso_cell) (csv := Sample.csv_days) (s := "2021-01-05") (e := "2021-01-02") (a := 1609804800000000000) (b := 1609545600000000000);
    evaluated.
Defined.

Lemma unparseable_bound_is_ignored_witness :
  load_df Sample.iso_cell Sample.csv_days = Ok Sample.DF_days /\
  unique_labels Sample.DF_days = true /\
  naive_bounds Sample.iso_scalar Sample.args_until = true /\
  Sample.iso_scalar "not-a-date" = NaT /\
  (exists v, apply_filters Sample.iso_scalar Sample.DF_days (<["start" := "not-a-date"]> Sample.args_until) = Ok v /\
             apply_filters Sample.iso_scalar Sample.DF_days (delete "start" Sample.args_until) = Ok v) /\
  (exists v, apply_filters Sample.iso_scalar Sample.DF_days (<["end" := "not-a-date"]> Sample.args_until) = Ok v /\
             apply_filters Sample.iso_scalar Sample.DF_days (delete "end" Sample.args_until) = Ok v) /\
  (forall df args',
     apply_filters Sample.iso_scalar df (<["start" := "not-a-date"]> args') =
     apply_filters Sample.iso_scalar df (delete "start" args') /\
     apply_filters Sample.iso_scalar df (<["end" := "not-a-date"]> args') =
     apply_filters Sample.iso_scalar df (delete "end" args')).
Proof.
  split; [evaluated|].
  split; [evaluated|].
  split; [evaluated|].
  split; [evaluated|].
  apply unparseable_bound_is_ignored with (to_datetime_cell := Sample.iso_cell) (csv := Sample.csv_days);
    evaluated.
Defined.

Lemma repeated_location_aborts_query_witness :
  load_df Sample.iso_cell Sample.csv_two_locations = Ok Sample.DF_two_locations /\
  (1 < occurrences "location" (columns Sample.DF_two_locations))%nat /\
  truthy (Sample.args_X !! "level") = false /\
  Sample.args_X !! "location" = Some "X" /\
  PyStr.is_empty "X" = false /\
  exists msg, apply_filters Sample.iso_scalar Sample.DF_two_locations Sample.args_X = Raise (ValueError msg).
Proof.
  split; [evaluated|].
  split; [evaluated|].
  split; [evaluated|].
  split; [evaluated|].
  split; [evaluated|].
  apply repeated_location_aborts_query with (to_datetime_cell := Sample.iso_cell) (csv := Sample.csv_two_locations) (s := "X");
    evaluated.
Defined.

Lemma summary_raises_on_text_total_witness :
  ascending_sort stable_sort /\
  load_df Sample.iso_cell Sample.csv_text_total = Ok Sample.DF_text_total /\
  unique_labels Sample.DF_text_total = true /\
  apply_filters Sample.iso_scalar Sample.DF_text_total ∅ = Ok Sample.DF_text_total /\
  exists sorted,
    sort_values stable_sort "date" Sample.DF_text_total = Ok sorted /\
    forall lst s,
      last (rows sorted) = Some lst ->
      row_get "total_cases" Sample.DF_text_total lst = Str s ->
      PyStr.int_of_str s = None ->
      exists msg, summary Sample.iso_scalar PyStr.int_of_str stable_sort Sample.DF_text_total ∅ = Raise (ValueError msg).
Proof.
  split; [evaluated|].
  split; [evaluated|].
  split; [evaluated|].
  split; [evaluated|].
  apply summary_raises_on_text_total with (to_datetime_cell := Sample.iso_cell) (csv := Sample.csv_text_total) (v := Sample.DF_text_total);
    evaluated.
Defined.

Lemma summary_kpi_keys_witness :
  ascending_sort stable_sort /\
  load_df Sample.iso_cell Sample.csv_days = Ok Sample.DF_days /\
  unique_labels Sample.DF_days = true /\
  numeric_fields Sample.DF_days = true /\
  apply_filters Sample.iso_scalar Sample.DF_days Sample.args_X = Ok Sample.view_X /\
  rows Sample.view_X <> [] /\
  exists p,
    summary Sample.iso_scalar PyStr.int_of_str stable_sort Sample.DF_days Sample.args_X = Ok p /\
    s_count p = Z.of_nat (length (rows Sample.view_X)) /\
    s_message p = None /\
    is_Some (s_kpi p !! "min_date") /\
    is_Some (s_kpi p !! "max_date") /\
    forall k, is_Some (s_kpi p !! k) ->
              k ∈ ["min_date"; "max_date"; "total_cases"; "total_deaths";
                   "new_cases_7d"; "new_deaths_7d"].
Proof.
  split; [evaluated|].
  split; [evaluated|].
  split; [evaluated|].
  split; [evaluated|].
  split; [evaluated|].
  split; [evaluated|].
  apply summary_kpi_keys with (to_datetime_cell := Sample.iso_cell) (csv := Sample.csv_days) (v := Sample.view_X);
    evaluated.
Defined.

Lemma summary_date_range_witness :
  ascending_sort stable_sort /\
  load_df Sample.iso_cell Sample.csv_days = Ok Sample.DF_days /\
  unique_labels Sample.DF_days = true /\
  numeric_fields Sample.DF_days = true /\
  apply_filters Sample.iso_scalar Sample.DF_days Sample.args_X = Ok Sample.view_X /\
  rows Sample.view_X <> [] /\
  exists sorted p first lst tfirst tlast,
    sort_values stable_sort "date" Sample.view_X = Ok sorted /\
    summary Sample.iso_scalar PyStr.int_of_str stable_sort Sample.DF_days Sample.args_X = Ok p /\
    head (rows sorted) = Some first /\
    last (rows sorted) = Some lst /\
    row_get "date" Sample.DF_days first = Ts tfirst /\
    row_get "date" Sample.DF_days lst = Ts tlast /\
    tfirst <= tlast /\
    s_kpi p !! "min_date" = Some (Str (Calendar.isoformat (Calendar.date tfirst))) /\
    s_kpi p !! "max_date" = Some (Str (Calendar.isoformat (Calendar.date tlast))).
Proof.
  split; [evaluated|].
  split; [evaluated|].
  split; [evaluated|].
  split; [evaluated|].
  split; [evaluated|].
  split; [evaluated|].
  apply summary_date_range with (to_datetime_cell := Sample.iso_cell) (csv := Sample.csv_days) (v := Sample.view_X);
    evaluated.
Defined.

Lemma cases_record_keys_witness :
  ascending_sort stable_sort /\
  load_df Sample.iso_cell Sample.csv_days = Ok Sample.DF_days /\
  unique_labels Sample.DF_days = true /\
  apply_filters Sample.iso_scalar Sample.DF_days Sample.args_X = Ok Sample.view_X /\
  exists p,
    cases Sample.iso_scalar PyStr.int_of_str stable_sort Sample.DF_days Sample.args_X = Ok p /\
    Forall (fun record =>
              List.NoDup (map fst record) /\
              forall k, k ∈ map fst record <->
                        k ∈ allow_list /\ has_column k Sample.DF_days = true)
           (c_data p).
Proof.
  split; [evaluated|].
  split; [evaluated|].
  split; [evaluated|].
  split; [evaluated|].
  apply cases_record_keys with (to_datetime_cell := Sample.iso_cell) (csv := Sample.csv_days) (v := Sample.view_X);
    evaluated.
Defined.

Lemma cases_count_bounds_witness :
  ascending_sort stable_sort /\
  load_df Sample.iso_cell Sample.csv_days = Ok Sample.DF_days /\
  unique_labels Sample.DF_days = true /\
  apply_filters Sample.iso_scalar Sample.DF_days Sample.args_limit_0 = Ok Sample.view_X /\
  exists p,
    cases Sample.iso_scalar PyStr.int_of_str stable_sort Sample.DF_days Sample.args_limit_0 = Ok p /\
    c_count p = Z.of_nat (length (c_data p)) /\
    0 <= c_count p <= 20000 /\
    c_count p <= Z.of_nat (length (rows Sample.view_X)) /\
    (c_count p = 0 <-> rows Sample.view_X = []).
Proof.
  split; [evaluated|].
  split; [evaluated|].
  split; [evaluated|].
  split; [evaluated|].
  apply cases_count_bounds with (to_datetime_cell := Sample.iso_cell) (csv := Sample.csv_days) (v := Sample.view_X);
    evaluated.
Defined.

Lemma cases_ascending_witness :
  ascending_sort stable_sort /\
  load_df Sample.iso_cell Sample.csv_days = Ok Sample.DF_days /\
  unique_labels Sample.DF_days = true /\
  apply_filters Sample.iso_scalar Sample.DF_days Sample.args_until = Ok Sample.view_until /\
  exists sorted p listed,
    sort_values stable_sort "date" Sample.view_until = Ok sorted /\
    cases Sample.iso_scalar PyStr.int_of_str stable_sort Sample.DF_days Sample.args_until = Ok p /\
    c_data p = map (listed_record sorted) listed /\
    listed `suffix_of` rows sorted /\
    Sorted (fun a b => forall x y,
              row_get "date" sorted a = Ts x -> row_get "date" sorted b = Ts y -> x <= y)
           listed /\
    last listed = last (rows sorted).
Proof.
  split; [evaluated|].
  split; [evaluated|].
  split; [evaluated|].
  split; [evaluated|].
  apply cases_ascending with (to_datetime_cell := Sample.iso_cell) (csv := Sample.csv_days) (v := Sample.view_until);
    evaluated.
Defined.

Lemma metadata_levels_witness :
  load_df Sample.iso_cell Sample.csv_days = Ok Sample.DF_days /\
  unique_labels Sample.DF_days = true /\
  text_column "location_level" Sample.DF_days = true /\
  text_column "location" Sample.DF_days = true /\
  exists m,
    metadata Sample.DF_days = Ok m /\
    m_row_count m = Z.of_nat (length (rows Sample.DF_days)) /\
    m_columns m = columns Sample.DF_days /\
    Sorted value_lt (m_levels m) /\
    forall lv, lv ∈ m_levels m <->
               lv <> NA /\ exists r, r ∈ rows Sample.DF_days /\ row_get "location_level" Sample.DF_days r = lv.
Proof.
  split; [evaluated|].
  split; [evaluated|].
  split; [evaluated|].
  split; [evaluated|].
  apply metadata_levels with (to_datetime_cell := Sample.iso_cell) (csv := Sample.csv_days);
    evaluated.
Defined.

Lemma metadata_locations_by_level_witness :
  load_df Sample.iso_cell Sample.csv_days = Ok Sample.DF_days /\
  unique_labels Sample.DF_days = true /\
  text_column "location_level" Sample.DF_days = true /\
  text_column "location" Sample.DF_days = true /\
  exists m,
    metadata Sample.DF_days = Ok m /\
    map fst (m_locations_by_level m) = m_levels m /\
    Forall (fun entry =>
              Sorted value_lt (snd entry) /\
              forall x, x ∈ snd entry <->
                        x <> NA /\
                        exists r, r ∈ rows Sample.DF_days /\
                                  row_get "location_level" Sample.DF_days r = fst entry /\
                                  row_get "location" Sample.DF_days r = x)
           (m_locations_by_level m).
Proof.
  split; [evaluated|].
  split; [evaluated|].
  split; [evaluated|].
  split; [evaluated|].
  apply metadata_locations_by_level with (to_datetime_cell := Sample.iso_cell) (csv := Sample.csv_days);
    evaluated.
Defined.

Lemma metadata_date_range_witness :
  load_df Sample.iso_cell Sample.csv_days = Ok Sample.DF_days /\
  unique_labels Sample.DF_days = true /\
  text_column "location_level" Sample.DF_days = true /\
  text_column "location" Sample.DF_days = true /\
  rows Sample.DF_days <> [] /\
  exists m tmin tmax,
    metadata Sample.DF_days = Ok m /\
    m_min_date m = Calendar.isoformat (Calendar.date tmin) /\
    m_max_date m = Calendar.isoformat (Calendar.date tmax) /\
    tmin <= tmax /\
    (Ts tmin ∈ map (row_get "date" Sample.DF_days) (rows Sample.DF_days) /\
     Forall (fun r => forall t, row_get "date" Sample.DF_days r = Ts t -> tmin <= t) (rows Sample.DF_days)) /\
    (Ts tmax ∈ map (row_get "date" Sample.DF_days) (rows Sample.DF_days) /\
     Forall (fun r => forall t, row_get "date" Sample.DF_days r = Ts t -> t <= tmax) (rows Sample.DF_days)).
Proof.
  split; [evaluated|].
  split; [evaluated|].
  split; [evaluated|].
  split; [evaluated|].
  split; [evaluated|].
  apply metadata_date_range with (to_datetime_cell := Sample.iso_cell) (csv := Sample.csv_days);
    evaluated.
Defined.

Lemma listed_pair_has_records_witness :
  load_df Sample.iso_cell Sample.csv_days = Ok Sample.DF_days /\
  unique_labels Sample.DF_days = true /\
  metadata Sample.DF_days = Ok Sample.meta_days /\
  (Str "province", [Str "Y"]) ∈ m_locations_by_level Sample.meta_days /\
  Str "Y" ∈ [Str "Y"] /\
  exists v,
    apply_filters Sample.iso_scalar Sample.DF_days
      (<["level" := "province"]> (<["location" := "Y"]> ∅)) = Ok v /\
    rows v <> [].
Proof.
  split; [evaluated|].
  split; [evaluated|].
  split; [evaluated|].
  split; [evaluated|].
  split; [evaluated|].
  apply listed_pair_has_records with (to_datetime_cell := Sample.iso_cell) (csv := Sample.csv_days) (locations := [Str "Y"]) (m := Sample.meta_days);
    evaluated.
Defined.

Lemma metadata_unknown_level_witness :
  load_df Sample.iso_cell Sample.csv_no_level = Ok Sample.DF_no_level /\
  unique_labels Sample.DF_no_level = true /\
  has_column "location_level" (normalize_columns Sample.csv_no_level) = false /\
  text_column "location" Sample.DF_no_level = true /\
  rows Sample.DF_no_level <> [] /\
  exists m locations,
    metadata Sample.DF_no_level = Ok m /\
    m_levels m = [Str "Unknown"] /\
    m_locations_by_level m = [(Str "Unknown", locations)] /\
    Sorted value_lt locations /\
    forall x, x ∈ locations <->
              x <> NA /\ exists r, r ∈ rows Sample.DF_no_level /\ row_get "location" Sample.DF_no_level r = x.
Proof.
  split; [evaluated|].
  split; [evaluated|].
  split; [evaluated|].
  split; [evaluated|].
  split; [evaluated|].
  apply metadata_unknown_level with (to_datetime_cell := Sample.iso_cell) (csv := Sample.csv_no_level);
    evaluated.
Defined.

(** The error of X8 on a table: the latest total is the text [unknown]. *)
Example summary_text_total :
  exists msg, Sample.summary Sample.DF_text_total ∅ = Raise (ValueError msg).
Proof. eexists. vm_compute. reflexivity. Qed.

(** The discovery payload of the nine days. *)
Example metadata_days :
  metadata Sample.DF_days =
  Ok {| m_min_date := "2021-01-01";
        m_max_date := "2021-01-09";
        m_row_count := 10;
        m_columns := ["date"; "location"; "location_level"; "new_cases";
                      "new_deaths"; "total_cases"; "total_deaths"];
        m_levels := [Str "country"; Str "province"];
        m_locations_by_level :=
          [(Str "country", [Str "X"]); (Str "province", [Str "Y"])] |}.
Proof. vm_compute. reflexivity. Qed.
